(** * Company management system: access decisions, workflows and scoring

    A shallow embedding of the backend's decision logic
    (middleware/rbac.js, the user, task, salary and request controllers,
    the task-completion route, roleChangeService.js and
    performanceService.js) together with the properties the
    specification states about them.

    Conventions of the embedding:
    - a Mongo collection is a list of documents, each with an [_id];
      [find] keeps the documents a query matches, [findById] returns the
      first document with the given id, [save] overwrites it;
    - a controller is a function from the request and the store to a
      response and the store it leaves behind; [res.status(c).json(..)]
      is either [Success c data] or [Failure c message];
    - role names stay strings where the source indexes the hierarchy
      table or searches for a substring; the role of a stored user is one
      of the six names the schemas enumerate;
    - JSON numbers that hold amounts and scores are integers, in the
      range in which the numbers of JavaScript are exact;
    - a string is a sequence of characters with codes below 256. *)

From Stdlib Require Import ZArith List String Ascii Bool Arith Lia DecimalString.
Import ListNotations.
Local Open Scope string_scope.
Local Open Scope list_scope.

Set Implicit Arguments.

(** ** Basic vocabulary *)

Definition ObjectId := nat.

Inductive Response (D : Type) : Type :=
| Success (status : nat) (data : D)
| Failure (status : nat) (message : string).

Arguments Success {D} status data.
Arguments Failure {D} status message.

Definition statusCode {D} (r : Response D) : nat :=
  match r with
  | Success c _ => c
  | Failure c _ => c
  end.

Definition succeeded {D} (r : Response D) : bool :=
  match r with
  | Success _ _ => true
  | Failure _ _ => false
  end.

(** [s.includes(sub)] of JavaScript strings. *)
Fixpoint includes (sub s : string) : bool :=
  String.prefix sub s ||
  match s with
  | EmptyString => false
  | String _ rest => includes sub rest
  end.

(** [a || b] on values that are falsy when absent. *)
Definition orElse {A} (a : option A) (b : A) : A :=
  match a with
  | Some x => x
  | None => b
  end.

(** ** Strings and values of JavaScript *)

(** The white space and line terminators that [String.prototype.trim]
    removes, among the characters with codes below 256: tab, line feed,
    vertical tab, form feed, carriage return, space and no-break space. *)
Definition isWhiteSpace (c : ascii) : bool :=
  let n := nat_of_ascii c in
  (Nat.leb 9 n && Nat.leb n 13) || Nat.eqb n 32 || Nat.eqb n 160.

Fixpoint trimStart (s : string) : string :=
  match s with
  | EmptyString => EmptyString
  | String c rest => if isWhiteSpace c then trimStart rest else s
  end.

Fixpoint trimEnd (s : string) : string :=
  match s with
  | EmptyString => EmptyString
  | String c rest =>
      match trimEnd rest with
      | EmptyString => if isWhiteSpace c then EmptyString else String c EmptyString
      | kept => String c kept
      end
  end.

(** [s.trim()], which a schema path with [trim: true] applies to the
    value it is given. *)
Definition trim (s : string) : string := trimEnd (trimStart s).

Module Js.

(** The values an amount of a request body takes, and what arithmetic on
    them gives: a number, a string, or NaN.  A JSON body holds no NaN. *)
Inductive Value : Type :=
| Number (n : Z)
| Text (s : string)
| NaN.

Definition digitValue (c : ascii) : option Z :=
  let n := nat_of_ascii c in
  if Nat.leb 48 n && Nat.leb n 57 then Some (Z.of_nat (n - 48)) else None.

Fixpoint digitsValue (acc : Z) (s : string) : option Z :=
  match s with
  | EmptyString => Some acc
  | String c rest =>
      match digitValue c with
      | Some d => digitsValue (10 * acc + d) rest
      | None => None
      end
  end.

(** [Number(s)] of a string, [None] for NaN: white space is trimmed, the
    empty string is 0, and a decimal numeral with an optional sign is its
    value.  Of the numeric strings only these are read; a numeral with a
    fraction, an exponent or a radix prefix is outside the integer amounts
    of this embedding and is read as NaN. *)
Definition stringToNumber (s : string) : option Z :=
  match trim s with
  | EmptyString => Some 0%Z
  | String "+" (String c rest) => digitsValue 0 (String c rest)
  | String "-" (String c rest) => option_map Z.opp (digitsValue 0 (String c rest))
  | numeral => digitsValue 0 numeral
  end.

Definition toNumber (v : Value) : option Z :=
  match v with
  | Number n => Some n
  | Text s => stringToNumber s
  | NaN => None
  end.

(** [String(v)]; an integer below 10^21 in absolute value is written in
    decimal. *)
Definition toText (v : Value) : string :=
  match v with
  | Number n => NilZero.string_of_int (Z.to_int n)
  | Text s => s
  | NaN => "NaN"
  end.

Definition truthy (v : Value) : bool :=
  match v with
  | Number n => negb (Z.eqb n 0)
  | Text s => negb (String.eqb s "")
  | NaN => false
  end.

(** [v || 0] of a value that may be absent. *)
Definition orZero (v : option Value) : Value :=
  match v with
  | Some x => if truthy x then x else Number 0
  | None => Number 0
  end.

(** [a + b]: concatenation as soon as one operand is a string. *)
Definition add (a b : Value) : Value :=
  match a, b with
  | Text s, _ => Text (s ++ toText b)
  | _, Text t => Text (toText a ++ t)
  | Number x, Number y => Number (x + y)
  | _, _ => NaN
  end.

(** [a - b]: both operands are converted to numbers. *)
Definition sub (a b : Value) : Value :=
  match toNumber a, toNumber b with
  | Some x, Some y => Number (x - y)
  | _, _ => NaN
  end.

(** The cast of a value to a schema path of type Number: [Some None] is
    null, which the empty string is cast to, and [None] the cast error of
    a string that is no number and of NaN. *)
Definition castNumber (v : Value) : option (option Z) :=
  match v with
  | Number n => Some (Some n)
  | Text EmptyString => Some None
  | Text s => option_map Some (stringToNumber s)
  | NaN => None
  end.

End Js.

(** ** Collections *)

Section Collection.
Variable Doc : Type.
Variable docId : Doc -> ObjectId.

Definition findOne (p : Doc -> bool) (c : list Doc) : option Doc :=
  List.find p c.

Definition findById (id : ObjectId) (c : list Doc) : option Doc :=
  findOne (fun d => Nat.eqb (docId d) id) c.

Definition find (p : Doc -> bool) (c : list Doc) : list Doc :=
  List.filter p c.

(** [doc.save()] of a document that was read from the collection. *)
Definition save (d : Doc) (c : list Doc) : list Doc :=
  List.map (fun x => if Nat.eqb (docId x) (docId d) then d else x) c.

Definition freshId (c : list Doc) : ObjectId :=
  S (List.fold_right (fun d m => Nat.max (docId d) m) 0 c).
End Collection.

(** ** middleware/rbac.js *)

Module Rbac.

Inductive Role : Type :=
| founder | co_founder | technical_head | sales_head | finance_head | employee.

Inductive Department : Type := technical | sales | finance.

Definition roleName (r : Role) : string :=
  match r with
  | founder => "founder"
  | co_founder => "co-founder"
  | technical_head => "technical_head"
  | sales_head => "sales_head"
  | finance_head => "finance_head"
  | employee => "employee"
  end.

Definition departmentName (d : Department) : string :=
  match d with
  | technical => "technical"
  | sales => "sales"
  | finance => "finance"
  end.

Definition Role_eqb (a b : Role) : bool := String.eqb (roleName a) (roleName b).

Definition Department_eqb (a b : Department) : bool :=
  String.eqb (departmentName a) (departmentName b).

(** Strict equality of two nullable departments. *)
Definition optDepartment_eqb (a b : option Department) : bool :=
  match a, b with
  | Some x, Some y => Department_eqb x y
  | None, None => true
  | _, _ => false
  end.

Definition ROLE_HIERARCHY : list (string * Z) :=
  [ ("employee", 1); ("technical_head", 2); ("sales_head", 2);
    ("finance_head", 2); ("co-founder", 3); ("founder", 4) ]%Z.

Fixpoint lookup (k : string) (table : list (string * Z)) : option Z :=
  match table with
  | [] => None
  | (k', v) :: rest => if String.eqb k k' then Some v else lookup k rest
  end.

(** What indexing an object literal gives: the number stored under an own
    key, and under a name that every object inherits the inherited
    function or object. *)
Inductive Level : Type :=
| Num (n : Z)
| Inherited.

(** The property names of [Object.prototype]. *)
Definition objectPrototype : list string :=
  [ "constructor"; "__defineGetter__"; "__defineSetter__"; "hasOwnProperty";
    "__lookupGetter__"; "__lookupSetter__"; "isPrototypeOf";
    "propertyIsEnumerable"; "toString"; "valueOf"; "__proto__";
    "toLocaleString" ].

(** [ROLE_HIERARCHY[role] || 0]: an inherited function or object is
    truthy and is returned as it is. *)
Definition getRoleLevel (role : string) : Level :=
  match lookup role ROLE_HIERARCHY with
  | Some v => if Z.eqb v 0 then Num 0 else Num v
  | None => if existsb (String.eqb role) objectPrototype then Inherited else Num 0
  end.

(** [a > b], [a <= b] and [a >= b]: a function or object converts to NaN,
    and a comparison with NaN is false. *)
Definition level_gt (a b : Level) : bool :=
  match a, b with
  | Num x, Num y => (x >? y)%Z
  | _, _ => false
  end.

Definition level_le (a b : Level) : bool :=
  match a, b with
  | Num x, Num y => (x <=? y)%Z
  | _, _ => false
  end.

Definition level_ge (a b : Level) : bool :=
  match a, b with
  | Num x, Num y => (x >=? y)%Z
  | _, _ => false
  end.

Definition canViewRole (viewerRole targetRole : string) : bool :=
  level_gt (getRoleLevel viewerRole) (getRoleLevel targetRole).

Definition getDepartmentFromRole (role : string) : option Department :=
  if String.eqb role "technical_head" then Some technical
  else if String.eqb role "sales_head" then Some sales
  else if String.eqb role "finance_head" then Some finance
  else None.

Definition canAssignSalary (assignerRole targetRole : string) : bool :=
  if negb (String.eqb assignerRole "founder") && negb (String.eqb assignerRole "co-founder")
  then false
  else level_gt (getRoleLevel assignerRole) (getRoleLevel targetRole).

(** The level of a stored role, a number of the table. *)
Definition level (r : Role) : Z :=
  match getRoleLevel (roleName r) with
  | Num n => n
  | Inherited => 0%Z
  end.

Definition isHead (r : Role) : bool := includes "_head" (roleName r).

End Rbac.

Export Rbac.

(** ** Dates

    A [Date] through its local-time getters.  The record holds the
    calendar year, a month index, the day of the month and a count of
    seconds since local midnight; the getters reduce the month index and
    the seconds to their ranges, so that every value of the record reads
    as a date: [getMonth] lies in 0..11, [getHours] in 0..23 and
    [getMinutes] in 0..59. *)

Record Date : Type := mkDate {
  year : Z;
  monthIndex : Z;
  day : Z;
  secondOfDay : Z
}.

Definition getFullYear (d : Date) : Z := year d.
Definition getMonth (d : Date) : Z := (monthIndex d mod 12)%Z.
Definition getHours (d : Date) : Z := ((secondOfDay d mod 86400) / 3600)%Z.
Definition getMinutes (d : Date) : Z := (((secondOfDay d mod 86400) / 60) mod 60)%Z.

(** The clock reading of a date in minutes since midnight. *)
Definition minuteOfDay (d : Date) : Z := (60 * getHours d + getMinutes d)%Z.

(** ** Models *)

(** Modelled from the spec: models/User.js is not part of the sources; the
    fields are the ones the controllers read and write, the role is one of
    the six roles and the department one of the three departments or null. *)
Module User.
Record t : Type := mk {
  _id : ObjectId;
  name : string;
  email : string;
  role : Role;
  department : option Department
}.

(** A condition on the role field: [role: r] or [role: { $ne: r }]. *)
Inductive RoleCond : Type :=
| RoleIs (r : string)
| RoleNe (r : string).

(** The query objects the controllers build over users; an absent field
    puts no condition. *)
Record Query : Type := mkQuery {
  q_id : option ObjectId;
  q_role : option RoleCond;
  q_department : option (option Department)
}.

Definition all : Query := mkQuery None None None.

Definition holds {A} (cond : option A) (test : A -> bool) : bool :=
  match cond with
  | Some c => test c
  | None => true
  end.

Definition matches (q : Query) (u : t) : bool :=
  holds (q_id q) (fun i => Nat.eqb (_id u) i)
  && holds (q_role q)
       (fun c => match c with
                 | RoleIs r => String.eqb (roleName (role u)) r
                 | RoleNe r => negb (String.eqb (roleName (role u)) r)
                 end)
  && holds (q_department q) (fun d => optDepartment_eqb (department u) d).
End User.

(** Modelled from the spec: models/Task.js is not part of the sources; the
    fields are the ones the task controller and the completion route use. *)
Module Task.
Inductive Status : Type := pending | in_progress | review | completed.

Definition Status_eqb (a b : Status) : bool :=
  match a, b with
  | pending, pending | in_progress, in_progress
  | review, review | completed, completed => true
  | _, _ => false
  end.

Record t : Type := mk {
  _id : ObjectId;
  title : string;
  assignedTo : ObjectId;
  assignedBy : ObjectId;
  department : option Department;
  status : Status;
  completedAt : option Date
}.

Record Query : Type := mkQuery {
  q_department : option (option Department);
  q_assignedTo : option ObjectId
}.

Definition all : Query := mkQuery None None.

Definition matches (q : Query) (k : t) : bool :=
  User.holds (q_department q) (fun d => optDepartment_eqb (department k) d)
  && User.holds (q_assignedTo q) (fun i => Nat.eqb (assignedTo k) i).
End Task.

(** models/Request.js *)
Module Request.
Inductive Kind : Type := leave | expense | task.
Inductive Status : Type := pending | approved | rejected.

Definition kindName (k : Kind) : string :=
  match k with
  | leave => "leave"
  | expense => "expense"
  | task => "task"
  end.

Definition statusName (s : Status) : string :=
  match s with
  | pending => "pending"
  | approved => "approved"
  | rejected => "rejected"
  end.

Record t : Type := mk {
  _id : ObjectId;
  type : Kind;
  description : string;
  status : Status;
  createdBy : ObjectId;
  department : Department;
  approvedBy : option ObjectId;
  approvedAt : option Date;
  rejectionReason : option string
}.

Record Query : Type := mkQuery {
  q_department : option (option Department);
  q_createdBy : option ObjectId;
  q_status : option string;
  q_type : option string
}.

Definition all : Query := mkQuery None None None None.

Definition matches (q : Query) (r : t) : bool :=
  User.holds (q_department q) (fun d => optDepartment_eqb (Some (department r)) d)
  && User.holds (q_createdBy q) (fun i => Nat.eqb (createdBy r) i)
  && User.holds (q_status q) (fun s => String.eqb (statusName (status r)) s)
  && User.holds (q_type q) (fun s => String.eqb (kindName (type r)) s).
End Request.

(** ** List endpoints

    [populate], [select] and [sort] change how a returned document is
    displayed and in which order; they do not change which documents are
    returned, and are left out. *)

Module RoleHierarchy.

(** rbac.js, [enforceRoleHierarchy]: the filter left in [req.roleFilter]. *)
Definition enforceRoleHierarchy (user : User.t) : User.Query :=
let role := roleName (User.role user) in
if String.eqb role "founder" then User.all
else if String.eqb role "co-founder" then
  User.mkQuery None (Some (User.RoleNe "founder")) None
else if includes "_head" role then
  User.mkQuery None (Some (User.RoleIs "employee")) (Some (getDepartmentFromRole role))
else if String.eqb role "employee" then
  User.mkQuery (Some (User._id user)) None None
else User.all.

End RoleHierarchy.

Module UserController.

(** userController.js, [getUsers]. *)
Definition getUsers (user : User.t) (users : list User.t) : Response (list User.t) :=
let role := roleName (User.role user) in
let query :=
  if String.eqb role "founder" then inr User.all
  else if String.eqb role "co-founder" then
    inr (User.mkQuery None (Some (User.RoleNe "founder")) None)
  else if includes "_head" role then
    inr (User.mkQuery None (Some (User.RoleIs "employee"))
           (Some (getDepartmentFromRole role)))
  else if String.eqb role "employee" then
    inl (Failure 403 "Employees are not authorized to view user list")
  else inr User.all in
match query with
| inl refusal => refusal
| inr q => Success 200 (find (User.matches q) users)
end.

End UserController.

Module TaskController.

(** taskController.js, [getTasks]. *)
Definition getTasks (user : User.t) (tasks : list Task.t) : Response (list Task.t) :=
let role := roleName (User.role user) in
let query :=
  if String.eqb role "founder" then Task.all
  else if String.eqb role "co-founder" then Task.all
  else if includes "_head" role then
    Task.mkQuery (Some (getDepartmentFromRole role)) None
  else if String.eqb role "employee" then
    Task.mkQuery None (Some (User._id user))
  else Task.all in
Success 200 (find (Task.matches query) tasks).

End TaskController.

Module RequestController.

(** The optional [status] and [type] parameters of the query string. *)
Record ListParams : Type := mkListParams {
  p_status : option string;
  p_type : option string
}.

(** requestController.js, [getRequests]. *)
Definition getRequests (user : User.t) (params : ListParams)
  (requests : list Request.t) : Response (list Request.t) :=
let role := roleName (User.role user) in
let query :=
  if String.eqb role "founder" || String.eqb role "co-founder" then Request.all
  else if includes "_head" role then
    Request.mkQuery (Some (getDepartmentFromRole role)) None None None
  else if String.eqb role "employee" then
    Request.mkQuery None (Some (User._id user)) None None
  else Request.all in
let query :=
  match p_status params with
  | Some s => if String.eqb s "" then query
              else Request.mkQuery (Request.q_department query)
                     (Request.q_createdBy query) (Some s) (Request.q_type query)
  | None => query
  end in
let query :=
  match p_type params with
  | Some s => if String.eqb s "" then query
              else Request.mkQuery (Request.q_department query)
                     (Request.q_createdBy query) (Request.q_status query) (Some s)
  | None => query
  end in
Success 200 (find (Request.matches query) requests).

End RequestController.

(** ** The visibility predicate of the specification

    [visibilityFilter] follows the words of the specification: a founder is
    unrestricted; a co-founder does not see a record whose role is founder;
    a department head sees records with role employee in the bound
    department; an employee sees the own identity only.  It is stated over
    the role, department and owner of a record, and is compared below with
    what each list endpoint returns. *)

Definition visibilityFilter (actor : User.t)
  (recordRole : Role) (recordDepartment : option Department) (recordOwner : ObjectId) : bool :=
match User.role actor with
| founder => true
| co_founder => negb (Role_eqb recordRole founder)
| technical_head =>
    Role_eqb recordRole employee && optDepartment_eqb recordDepartment (Some technical)
| sales_head =>
    Role_eqb recordRole employee && optDepartment_eqb recordDepartment (Some sales)
| finance_head =>
    Role_eqb recordRole employee && optDepartment_eqb recordDepartment (Some finance)
| employee => Nat.eqb recordOwner (User._id actor)
end.

Definition userVisible (actor u : User.t) : bool :=
visibilityFilter actor (User.role u) (User.department u) (User._id u).

(** The list of users the specification's filter selects. *)
Definition returnsVisibleUsers (actor : User.t) (users : list User.t) : Prop :=
exists l, UserController.getUsers actor users = Success 200 l /\
          forall u, In u l <-> In u users /\ userVisible actor u = true.

(** models/TaskSubmission.js *)
Module TaskSubmission.
Record t : Type := mk {
  _id : ObjectId;
  task : ObjectId;
  submittedBy : ObjectId;
  fileName : string;
  fileType : string;
  fileSize : Z;
  filePath : string;
  submittedAt : Date;
  department : Department
}.

(** What [TaskSubmission.create] is handed; the department is the
    submitting user's and may be null. *)
Record Input : Type := mkInput {
  i_task : ObjectId;
  i_submittedBy : ObjectId;
  i_fileName : string;
  i_fileType : string;
  i_fileSize : Z;
  i_filePath : string;
  i_submittedAt : Date;
  i_department : option Department
}.

(** Schema validation ([required], [enum]) and the unique index on [task];
    [None] stands for the error the driver throws. *)
Definition create (i : Input) (c : list t) : option (t * list t) :=
if String.eqb (i_fileName i) "" then None
else if negb (String.eqb (i_fileType i) "pdf" || String.eqb (i_fileType i) "csv") then None
else if String.eqb (i_filePath i) "" then None
else match i_department i with
     | None => None
     | Some d =>
         if existsb (fun s => Nat.eqb (task s) (i_task i)) c then None
         else
           let s := mk (freshId _id c) (i_task i) (i_submittedBy i) (i_fileName i)
                       (i_fileType i) (i_fileSize i) (i_filePath i)
                       (i_submittedAt i) d in
           Some (s, c ++ [s])
     end.
End TaskSubmission.

(** Modelled from the spec: models/Salary.js is not part of the sources; the
    fields are the ones the salary controller reads and writes, and
    [findByIdAndUpdate] overwrites the fields its update document names. *)
Module Salary.
Record t : Type := mk {
  _id : ObjectId;
  user : ObjectId;
  month : Z;
  year : Z;
  basicSalary : Z;
  allowances : Z;
  deductions : Z;
  netSalary : Z;
  department : string;
  status : string
}.
End Salary.

(** models/Performance.js *)
Module Performance.
Record ScoreBreakdown : Type := mkBreakdown {
  taskPoints : Z;
  lateLoginPenalty : Z
}.

Record t : Type := mk {
  _id : ObjectId;
  employeeId : ObjectId;
  totalScore : Z;
  tasksCompleted : Z;
  lateLogins : Z;
  approvedLeaves : Z;
  month : Z;
  year : Z;
  department : Department;
  scoreBreakdown : ScoreBreakdown
}.
End Performance.

(** models/RoleChangeLog.js *)
Module RoleChangeLog.
Record Snapshot : Type := mkSnapshot {
  s_name : string;
  s_email : string;
  s_department : option Department
}.

Record AuditInfo : Type := mkAudit {
  ipAddress : option string;
  userAgent : option string
}.

Record t : Type := mk {
  _id : ObjectId;
  changedUserId : ObjectId;
  oldRole : Role;
  newRole : Role;
  changedBy : ObjectId;
  changedAt : Date;
  reason : string;
  userSnapshot : option Snapshot;
  auditInfo : AuditInfo
}.
End RoleChangeLog.

(** models/Notification.js *)
Module Notification.
Record t : Type := mk {
  _id : ObjectId;
  userId : ObjectId;
  message : string;
  type : string;
  isRead : bool;
  relatedEntity : option (string * ObjectId)
}.

Definition types : list string :=
  [ "login_success"; "request_approved"; "request_rejected"; "role_changed";
    "task_assigned"; "task_completed"; "system" ].

Definition entityTypes : list string := [ "request"; "task"; "user" ].
End Notification.

(** ** The document store and the upload directory *)

Record Store : Type := mkStore {
  users : list User.t;
  tasks : list Task.t;
  submissions : list TaskSubmission.t;
  files : list string;
  requests : list Request.t;
  salaries : list Salary.t;
  performances : list Performance.t;
  roleChangeLogs : list RoleChangeLog.t;
  notifications : list Notification.t
}.

Definition setUsers (v : list User.t) (s : Store) : Store :=
mkStore v (tasks s) (submissions s) (files s) (requests s) (salaries s)
        (performances s) (roleChangeLogs s) (notifications s).

Definition setTasks (v : list Task.t) (s : Store) : Store :=
mkStore (users s) v (submissions s) (files s) (requests s) (salaries s)
        (performances s) (roleChangeLogs s) (notifications s).

Definition setSubmissions (v : list TaskSubmission.t) (s : Store) : Store :=
mkStore (users s) (tasks s) v (files s) (requests s) (salaries s)
        (performances s) (roleChangeLogs s) (notifications s).

Definition setFiles (v : list string) (s : Store) : Store :=
mkStore (users s) (tasks s) (submissions s) v (requests s) (salaries s)
        (performances s) (roleChangeLogs s) (notifications s).

Definition setRequests (v : list Request.t) (s : Store) : Store :=
mkStore (users s) (tasks s) (submissions s) (files s) v (salaries s)
        (performances s) (roleChangeLogs s) (notifications s).

Definition setSalaries (v : list Salary.t) (s : Store) : Store :=
mkStore (users s) (tasks s) (submissions s) (files s) (requests s) v
        (performances s) (roleChangeLogs s) (notifications s).

Definition setPerformances (v : list Performance.t) (s : Store) : Store :=
mkStore (users s) (tasks s) (submissions s) (files s) (requests s) (salaries s)
        v (roleChangeLogs s) (notifications s).

Definition setRoleChangeLogs (v : list RoleChangeLog.t) (s : Store) : Store :=
mkStore (users s) (tasks s) (submissions s) (files s) (requests s) (salaries s)
        (performances s) v (notifications s).

Definition setNotifications (v : list Notification.t) (s : Store) : Store :=
mkStore (users s) (tasks s) (submissions s) (files s) (requests s) (salaries s)
        (performances s) (roleChangeLogs s) v.

Definition emptyStore : Store := mkStore [] [] [] [] [] [] [] [] [].

(** ** services/notificationService.js *)

Module NotificationService.

(** [createNotification]: the schema trims the message, requires what is
    left not to be empty and limits it to 500 characters, and checks the
    type and the entity type against their lists; a violation is caught
    and gives [null]. *)
Definition createNotification (userId : ObjectId) (message type : string)
  (relatedEntity : option (string * ObjectId)) (st : Store)
  : option Notification.t * Store :=
let message := trim message in
if String.eqb message "" || Nat.ltb 500 (String.length message)
   || negb (existsb (String.eqb type) Notification.types)
   || negb (match relatedEntity with
            | Some (entityType, _) =>
                existsb (String.eqb entityType) Notification.entityTypes
            | None => true
            end)
then (None, st)
else
  let n := Notification.mk (freshId Notification._id (notifications st))
             userId message type false relatedEntity in
  (Some n, setNotifications (notifications st ++ [n]) st).

Definition notifyRequestApproved (userId : ObjectId) (requestType : string)
  (requestId : ObjectId) (approverName : string) (st : Store) :=
createNotification userId
  ("Your " ++ requestType ++ " request has been approved by " ++ approverName ++ ".")%string
  "request_approved" (Some ("request", requestId)) st.

Definition notifyRequestRejected (userId : ObjectId) (requestType : string)
  (requestId : ObjectId) (approverName : string) (reason : option string) (st : Store) :=
let message :=
  ("Your " ++ requestType ++ " request has been rejected by " ++ approverName ++ ".")%string in
let message :=
  match reason with
  | Some r => if String.eqb r "" then message else (message ++ " Reason: " ++ r)%string
  | None => message
  end in
createNotification userId message "request_rejected" (Some ("request", requestId)) st.

Definition notifyRoleChanged (userId : ObjectId) (oldRole newRole changedByName : string)
  (st : Store) :=
createNotification userId
  ("Your role has been changed from " ++ oldRole ++ " to " ++ newRole
     ++ " by " ++ changedByName ++ ".")%string
  "role_changed" None st.

End NotificationService.

(** ** services/roleChangeService.js *)

Module RoleChangeService.

Definition roleOfName (s : string) : option Role :=
List.find (fun r => String.eqb (roleName r) s)
  [founder; co_founder; technical_head; sales_head; finance_head; employee].

Record Params : Type := mkParams {
  changedUserId : ObjectId;
  oldRole : string;
  newRole : string;
  changedBy : ObjectId;
  changedByName : option string;
  reason : option string;
  userSnapshot : option RoleChangeLog.Snapshot;
  auditInfo : option RoleChangeLog.AuditInfo
}.

(** [RoleChangeLog.create]: the two roles must be names of the enum and
    the reason, which the schema trims, at most 500 characters; [None]
    stands for the validation error. *)
Definition createLog (p : Params) (now : Date) (logs : list RoleChangeLog.t)
  : option (RoleChangeLog.t * list RoleChangeLog.t) :=
match roleOfName (oldRole p), roleOfName (newRole p) with
| Some o, Some n =>
    let reason := trim (orElse (reason p) "") in
    if Nat.ltb 500 (String.length reason) then None
    else
      let entry := RoleChangeLog.mk (freshId RoleChangeLog._id logs)
                     (changedUserId p) o n (changedBy p) now reason
                     (userSnapshot p)
                     (orElse (auditInfo p) (RoleChangeLog.mkAudit None None)) in
      Some (entry, logs ++ [entry])
| _, _ => None
end.

(** [logRoleChange]: the returned entry is [None] where the source
    returns [null]; an error raised while writing is caught and also
    gives [null]. *)
Definition logRoleChange (p : Params) (now : Date) (st : Store)
  : option RoleChangeLog.t * Store :=
if String.eqb (oldRole p) (newRole p) then (None, st)
else
  match createLog p now (roleChangeLogs st) with
  | None => (None, st)
  | Some (logEntry, logs) =>
      let st := setRoleChangeLogs logs st in
      let '(_, st) :=
        NotificationService.notifyRoleChanged (changedUserId p) (oldRole p) (newRole p)
          (orElse (changedByName p) "Administrator") st in
      (Some logEntry, st)
  end.

End RoleChangeService.

(** ** services/performanceService.js *)

Module PerformanceService.

Definition TASK_COMPLETED : Z := 10.
Definition LATE_LOGIN : Z := -5.

Definition LATE_LOGIN_THRESHOLD_HOUR : Z := 9.
Definition LATE_LOGIN_THRESHOLD_MINUTE : Z := 30.

Definition sameBucket (employeeId : ObjectId) (month year : Z) (p : Performance.t) : bool :=
Nat.eqb (Performance.employeeId p) employeeId
&& Z.eqb (Performance.month p) month && Z.eqb (Performance.year p) year.

(** [getOrCreatePerformance]; [None] stands for the validation error of
    [Performance.create] on a month outside 1..12. *)
Definition getOrCreatePerformance (employeeId : ObjectId) (month year : Z)
  (department : Department) (st : Store) : option (Performance.t * Store) :=
match findOne (sameBucket employeeId month year) (performances st) with
| Some performance => Some (performance, st)
| None =>
    if (month <? 1)%Z || (12 <? month)%Z then None
    else
      let performance :=
        Performance.mk (freshId Performance._id (performances st)) employeeId
          0 0 0 0 month year department (Performance.mkBreakdown 0 0) in
      Some (performance, setPerformances (performances st ++ [performance]) st)
end.

Definition savePerformance (p : Performance.t) (st : Store) : Store :=
setPerformances (save Performance._id p (performances st)) st.

(** [onTaskCompleted]; [now] is the value of [new Date()]. *)
Definition onTaskCompleted (employeeId taskId : ObjectId) (now : Date) (st : Store)
  : option Performance.t * Store :=
match findById User._id employeeId (users st) with
| None => (None, st)
| Some user =>
    match User.department user with
    | None => (None, st)
    | Some department =>
        let month := (getMonth now + 1)%Z in
        let year := getFullYear now in
        match getOrCreatePerformance employeeId month year department st with
        | None => (None, st)
        | Some (performance, st1) =>
            let tasksCompleted := (Performance.tasksCompleted performance + 1)%Z in
            let taskPoints :=
              (Performance.taskPoints (Performance.scoreBreakdown performance)
               + TASK_COMPLETED)%Z in
            let lateLoginPenalty :=
              Performance.lateLoginPenalty (Performance.scoreBreakdown performance) in
            let performance :=
              Performance.mk (Performance._id performance)
                (Performance.employeeId performance)
                (taskPoints + lateLoginPenalty)%Z
                tasksCompleted
                (Performance.lateLogins performance)
                (Performance.approvedLeaves performance)
                (Performance.month performance) (Performance.year performance)
                (Performance.department performance)
                (Performance.mkBreakdown taskPoints lateLoginPenalty) in
            (Some performance, savePerformance performance st1)
        end
    end
end.

Definition isLateLoginAt (loginTime : Date) (thresholdHour thresholdMinute : Z) : bool :=
let loginHour := getHours loginTime in
let loginMinute := getMinutes loginTime in
if (loginHour >? thresholdHour)%Z then true
else if Z.eqb loginHour thresholdHour && (loginMinute >? thresholdMinute)%Z then true
else false.

Definition isLateLogin (loginTime : Date) : bool :=
isLateLoginAt loginTime LATE_LOGIN_THRESHOLD_HOUR LATE_LOGIN_THRESHOLD_MINUTE.

Definition onLateLogin (employeeId : ObjectId) (loginTime : Date) (st : Store)
  : option Performance.t * Store :=
if negb (isLateLogin loginTime) then (None, st)
else
  match findById User._id employeeId (users st) with
  | None => (None, st)
  | Some user =>
      match User.department user with
      | None => (None, st)
      | Some department =>
          let month := (getMonth loginTime + 1)%Z in
          let year := getFullYear loginTime in
          match getOrCreatePerformance employeeId month year department st with
          | None => (None, st)
          | Some (performance, st1) =>
              let lateLogins := (Performance.lateLogins performance + 1)%Z in
              let taskPoints :=
                Performance.taskPoints (Performance.scoreBreakdown performance) in
              let lateLoginPenalty :=
                (Performance.lateLoginPenalty (Performance.scoreBreakdown performance)
                 + LATE_LOGIN)%Z in
              let performance :=
                Performance.mk (Performance._id performance)
                  (Performance.employeeId performance)
                  (taskPoints + lateLoginPenalty)%Z
                  (Performance.tasksCompleted performance)
                  lateLogins
                  (Performance.approvedLeaves performance)
                  (Performance.month performance) (Performance.year performance)
                  (Performance.department performance)
                  (Performance.mkBreakdown taskPoints lateLoginPenalty) in
              (Some performance, savePerformance performance st1)
          end
      end
  end.

Definition onLeaveApproved (employeeId : ObjectId) (now : Date) (st : Store)
  : option Performance.t * Store :=
match findById User._id employeeId (users st) with
| None => (None, st)
| Some user =>
    match User.department user with
    | None => (None, st)
    | Some department =>
        let month := (getMonth now + 1)%Z in
        let year := getFullYear now in
        match getOrCreatePerformance employeeId month year department st with
        | None => (None, st)
        | Some (performance, st1) =>
            let performance :=
              Performance.mk (Performance._id performance)
                (Performance.employeeId performance)
                (Performance.totalScore performance)
                (Performance.tasksCompleted performance)
                (Performance.lateLogins performance)
                (Performance.approvedLeaves performance + 1)%Z
                (Performance.month performance) (Performance.year performance)
                (Performance.department performance)
                (Performance.scoreBreakdown performance) in
            (Some performance, savePerformance performance st1)
        end
    end
end.

End PerformanceService.

(** ** controllers/userManagementController.js *)

Module UserManagementController.

Definition validRoles : list string :=
  [ "founder"; "co-founder"; "technical_head"; "sales_head"; "finance_head"; "employee" ].

Definition departmentOfName (s : string) : option Department :=
List.find (fun d => String.eqb (departmentName d) s) [technical; sales; finance].

Record Body : Type := mkBody {
  newRole : option string;
  reason : option string;
  department : option string
}.

Record Request : Type := mkRequest {
  body : Body;
  ip : option string;
  userAgent : option string
}.

Record RoleChanged : Type := mkRoleChanged {
  id : ObjectId;
  name : string;
  email : string;
  oldRole : string;
  newRole' : string;
  department' : option Department
}.

(** A value that is [undefined], [null] or the empty string is falsy. *)
Definition truthy (v : option string) : bool :=
match v with
| Some s => negb (String.eqb s "")
| None => false
end.

(** The department the target ends with ([inr (Some d)]), the message of
    the 400 refusal ([inl]), or a department name the save rejects
    ([inr None]). *)
Definition resolveDepartment (newRole : string) (targetUser : User.t) (b : Body)
  : string + option (option Department) :=
if includes "_head" newRole then
  let requiredDepartment := getDepartmentFromRole newRole in
  if truthy (department b)
     && negb (match requiredDepartment with
              | Some d => String.eqb (orElse (department b) "") (departmentName d)
              | None => false
              end)
  then inl ("Department head role " ++ newRole ++ " must have department: "
            ++ match requiredDepartment with
               | Some d => departmentName d
               | None => "null"
               end)%string
  else inr (Some requiredDepartment)
else if String.eqb newRole "founder" || String.eqb newRole "co-founder" then
  inr (Some None)
else if String.eqb newRole "employee" then
  match User.department targetUser, truthy (department b) with
  | None, false => inl "Department is required for employees"
  | _, true =>
      (* the supplied name is stored; a name outside the enum fails the save *)
      match departmentOfName (orElse (department b) "") with
      | Some d => inr (Some (Some d))
      | None => inr None
      end
  | Some d, false => inr (Some (Some d))
  end
else inr (Some (User.department targetUser)).

(** [changeUserRole] *)
Definition changeUserRole (currentUser : User.t) (targetUserId : ObjectId)
  (req : Request) (now : Date) (st : Store) : Response RoleChanged * Store :=
let b := body req in
let currentRole := roleName (User.role currentUser) in
if negb (String.eqb currentRole "founder") && negb (String.eqb currentRole "co-founder")
then (Failure 403 "Only Founder and Co-Founder can change user roles", st)
else if negb (truthy (newRole b))
        || negb (existsb (String.eqb (orElse (newRole b) "")) validRoles)
then (Failure 400 "Invalid role. Must be one of: founder, co-founder, technical_head, sales_head, finance_head, employee", st)
else
  let newRole := orElse (newRole b) "" in
  match findById User._id targetUserId (users st) with
  | None => (Failure 404 "User not found", st)
  | Some targetUser =>
      let currentLevel := getRoleLevel currentRole in
      let targetLevel := getRoleLevel (roleName (User.role targetUser)) in
      let newRoleLevel := getRoleLevel newRole in
      if level_le currentLevel targetLevel
      then (Failure 403 "Cannot change role of user with same or higher role level", st)
      else if level_ge newRoleLevel currentLevel
      then (Failure 403 "Cannot assign role equal to or higher than your own", st)
      else if String.eqb (roleName (User.role targetUser)) newRole
      then (Failure 400 "User already has this role", st)
      else
        let oldRole := roleName (User.role targetUser) in
        let userSnapshot :=
          RoleChangeLog.mkSnapshot (User.name targetUser) (User.email targetUser)
            (User.department targetUser) in
        let auditInfo :=
          RoleChangeLog.mkAudit (if truthy (ip req) then ip req else None)
            (if truthy (userAgent req) then userAgent req else None) in
        match resolveDepartment newRole targetUser b with
        | inl message => (Failure 400 message, st)
        | inr newDepartment =>
            match RoleChangeService.roleOfName newRole, newDepartment with
            | Some r, Some d =>
                let targetUser :=
                  User.mk (User._id targetUser) (User.name targetUser)
                    (User.email targetUser) r d in
                let st := setUsers (save User._id targetUser (users st)) st in
                let '(_, st) :=
                  RoleChangeService.logRoleChange
                    (RoleChangeService.mkParams targetUserId oldRole newRole
                       (User._id currentUser) (Some (User.name currentUser))
                       (Some (orElse (reason b) ""))
                       (Some userSnapshot) (Some auditInfo))
                    now st in
                (Success 200
                   (mkRoleChanged (User._id targetUser) (User.name targetUser)
                      (User.email targetUser) oldRole newRole (User.department targetUser)),
                 st)
            | _, _ => (Failure 500 "User validation failed", st)
            end
        end
  end.

End UserManagementController.

(** ** controllers/userController.js, [updateUser] *)

Module UserUpdate.

(** The fields of a user that an update may name; [f_department] carries
    an explicit null as [Some None]. *)
Record Fields : Type := mkFields {
  f_name : option string;
  f_email : option string;
  f_role : option string;
  f_department : option (option string)
}.

(** [req.body] as the handler receives it: the fields named at the top
    level and those named under the update operator [$set].  The other
    update operators are not modelled. *)
Record Body : Type := mkBody {
  b_name : option string;
  b_email : option string;
  b_role : option string;
  b_department : option (option string);
  b_set : option Fields
}.

Definition orField {A} (a b : option A) : option A :=
match a with
| Some x => Some x
| None => b
end.

(** The update document that [findByIdAndUpdate] builds from the body:
    a field named at the top level is moved under [$set], over a field of
    the same name already there. *)
Definition updateDocument (b : Body) : Fields :=
let s := orElse (b_set b) (mkFields None None None None) in
mkFields (orField (b_name b) (f_name s)) (orField (b_email b) (f_email s))
  (orField (b_role b) (f_role s)) (orField (b_department b) (f_department s)).

(** [User.findByIdAndUpdate(id, body, { runValidators: true })] on the
    fields above: a role or department outside the enum is a validation
    error, [None]. *)
Definition applyUpdate (doc : Fields) (u : User.t) : option User.t :=
let role :=
  match f_role doc with
  | Some s => RoleChangeService.roleOfName s
  | None => Some (User.role u)
  end in
let department :=
  match f_department doc with
  | Some (Some s) =>
      match UserManagementController.departmentOfName s with
      | Some d => Some (Some d)
      | None => None
      end
  | Some None => Some None
  | None => Some (User.department u)
  end in
match role, department with
| Some r, Some d =>
    Some (User.mk (User._id u) (orElse (f_name doc) (User.name u))
            (orElse (f_email doc) (User.email u)) r d)
| _, _ => None
end.

(** [updateUser]: the escalation test reads [req.body.role], the update
    is given the whole body. *)
Definition updateUser (currentUser : User.t) (id : ObjectId) (b : Body) (st : Store)
  : Response User.t * Store :=
match findById User._id id (users st) with
| None => (Failure 404 "User not found", st)
| Some targetUser =>
    let currentRole := roleName (User.role currentUser) in
    if String.eqb currentRole "employee"
    then (Failure 403 "Employees are not authorized to update users", st)
    else
      let currentLevel := getRoleLevel currentRole in
      let targetLevel := getRoleLevel (roleName (User.role targetUser)) in
      if level_le currentLevel targetLevel
      then (Failure 403 "Cannot update user of same or higher role level", st)
      else if includes "_head" currentRole
              && (negb (String.eqb (roleName (User.role targetUser)) "employee")
                  || negb (optDepartment_eqb (User.department targetUser)
                             (getDepartmentFromRole currentRole)))
      then (Failure 403 "You do not have permission to access this department.", st)
      else if UserManagementController.truthy (b_role b)
              && level_ge (getRoleLevel (orElse (b_role b) "")) currentLevel
      then (Failure 403 "Cannot assign role equal to or higher than your own", st)
      else
        match applyUpdate (updateDocument b) targetUser with
        | None => (Failure 500 "Validation failed", st)
        | Some updatedUser =>
            (Success 200 updatedUser,
             setUsers (save User._id updatedUser (users st)) st)
        end
end.

End UserUpdate.

(** ** routes/taskRoutes.js, [POST /api/tasks/:id/complete] *)

Module TaskRoutes.

(** [req.file] as the upload middleware leaves it; the file is already on
    disk at [path] when the handler starts. *)
Record UploadedFile : Type := mkFile {
  originalname : string;
  mimetype : string;
  size : Z;
  path : string
}.

Fixpoint splitLast (c : ascii) (s : string) : option (string * string) :=
match s with
| EmptyString => None
| String a rest =>
    match splitLast c rest with
    | Some (before, after) => Some (String a before, after)
    | None => if Ascii.eqb a c then Some (EmptyString, rest) else None
    end
end.

Definition basename (p : string) : string :=
match splitLast "/"%char p with
| Some (_, after) => after
| None => p
end.

(** [path.extname]: the text from the last dot of the base name on, empty
    when there is no dot or the only dot comes first. *)
Definition extname (p : string) : string :=
let base := basename p in
if String.eqb base ".." then ""
else match splitLast "."%char base with
     | None => ""
     | Some (EmptyString, _) => ""
     | Some (_, after) => String "."%char after
     end.

Definition lowerChar (a : ascii) : ascii :=
let n := nat_of_ascii a in
if Nat.leb 65 n && Nat.leb n 90 then ascii_of_nat (n + 32) else a.

Fixpoint toLowerCase (s : string) : string :=
match s with
| EmptyString => EmptyString
| String a rest => String (lowerChar a) (toLowerCase rest)
end.

(** [fs.existsSync] and [fs.unlinkSync]; removing a missing file throws,
    [None]. *)
Definition existsSync (p : string) (fs : list string) : bool :=
existsb (String.eqb p) fs.

Definition unlinkSync (p : string) (fs : list string) : option (list string) :=
if existsSync p fs then Some (List.filter (fun q => negb (String.eqb p q)) fs)
else None.

(** The [catch] clause of the handler. *)
Definition onError {D} (file : option UploadedFile) (st : Store) : Response D * Store :=
let st :=
  match file with
  | Some f =>
      if existsSync (path f) (files st)
      then setFiles (orElse (unlinkSync (path f) (files st)) (files st)) st
      else st
  | None => st
  end in
(Failure 500 "Internal error", st).

(** [fs.unlinkSync(req.file.path); return res.status(c).json(..)] *)
Definition unlinkAndRefuse {D} (file : option UploadedFile) (f : UploadedFile)
  (refusal : Response D) (st : Store) : Response D * Store :=
match unlinkSync (path f) (files st) with
| Some fs => (refusal, setFiles fs st)
| None => onError file st
end.

Definition completeTask (user : User.t) (id : ObjectId) (file : option UploadedFile)
  (now : Date) (st : Store) : Response (Task.t * TaskSubmission.t) * Store :=
match findById Task._id id (tasks st) with
| None =>
    match file with
    | Some f => unlinkAndRefuse file f (Failure 404 "Task not found") st
    | None => (Failure 404 "Task not found", st)
    end
| Some task =>
    if negb (Nat.eqb (Task.assignedTo task) (User._id user)) then
      match file with
      | Some f =>
          unlinkAndRefuse file f
            (Failure 403 "Only the assigned user can complete this task") st
      | None => (Failure 403 "Only the assigned user can complete this task", st)
      end
    else
      match file with
      | None =>
          (Failure 400 "File upload is mandatory for task completion. Please upload a PDF or CSV file.", st)
      | Some f =>
          let ext := toLowerCase (extname (originalname f)) in
          if negb (String.eqb ext ".pdf") && negb (String.eqb ext ".csv") then
            unlinkAndRefuse file f (Failure 400 "Only PDF and CSV files are allowed") st
          else if Task.Status_eqb (Task.status task) Task.completed then
            unlinkAndRefuse file f (Failure 400 "Task is already completed") st
          else
            match findOne (fun s => Nat.eqb (TaskSubmission.task s) (Task._id task))
                    (submissions st) with
            | Some _ =>
                unlinkAndRefuse file f
                  (Failure 400 "Submission already exists for this task") st
            | None =>
                let task :=
                  Task.mk (Task._id task) (Task.title task) (Task.assignedTo task)
                    (Task.assignedBy task) (Task.department task)
                    Task.completed (Some now) in
                let st := setTasks (save Task._id task (tasks st)) st in
                match TaskSubmission.create
                        (TaskSubmission.mkInput (Task._id task) (User._id user)
                           (originalname f)
                           (match ext with
                            | String _ rest => rest
                            | EmptyString => EmptyString
                            end)
                           (size f) (path f) now (User.department user))
                        (submissions st) with
                | None => onError file st
                | Some (submission, subs) =>
                    (Success 200 (task, submission), setSubmissions subs st)
                end
            end
      end
end.

End TaskRoutes.

(** ** controllers/requestController.js, [approveRequest] and [rejectRequest] *)

Module RequestWorkflow.

Definition saveRequest (r : Request.t) (st : Store) : Store :=
setRequests (save Request._id r (requests st)) st.

(** [populate('createdBy', ...)]: the creator as stored, null when the
    user no longer exists. *)
Definition populateCreatedBy (request : Request.t) (st : Store) : option User.t :=
findById User._id (Request.createdBy request) (users st).

(** [approveRequest]; [now] is the value of [new Date()].  The request is
    saved before [request.createdBy._id] is read, so a request whose
    creator no longer exists is stored as approved and answered with the
    500 of the [catch] clause. *)
Definition approveRequest (user : User.t) (id : ObjectId) (now : Date) (st : Store)
  : Response Request.t * Store :=
match findById Request._id id (requests st) with
| None => (Failure 404 "Request not found", st)
| Some request =>
    let createdBy := populateCreatedBy request st in
    let role := roleName (User.role user) in
    if String.eqb role "employee"
    then (Failure 403 "Employees cannot approve requests", st)
    else if includes "_head" role
            && negb (optDepartment_eqb (Some (Request.department request))
                       (getDepartmentFromRole role))
    then (Failure 403 "Cannot approve requests from other departments", st)
    else if negb (String.eqb (Request.statusName (Request.status request)) "pending")
    then (Failure 400
            ("Request is already " ++ Request.statusName (Request.status request))%string,
          st)
    else
      let request :=
        Request.mk (Request._id request) (Request.type request)
          (Request.description request) Request.approved
          (Request.createdBy request) (Request.department request)
          (Some (User._id user)) (Some now) (Request.rejectionReason request) in
      let st := saveRequest request st in
      match createdBy with
      | None => (Failure 500 "Cannot read properties of null", st)
      | Some creator =>
          let '(_, st) :=
            NotificationService.notifyRequestApproved (User._id creator)
              (Request.kindName (Request.type request)) (Request._id request)
              (User.name user) st in
          let st :=
            if String.eqb (Request.kindName (Request.type request)) "leave"
            then snd (PerformanceService.onLeaveApproved (User._id creator) now st)
            else st in
          match findById Request._id (Request._id request) (requests st) with
          | Some updatedRequest => (Success 200 updatedRequest, st)
          | None => (Success 200 request, st)
          end
      end
end.

(** [rejectRequest]; [reason] is [req.body.reason].  The schema trims the
    rejection reason and then limits it to 500 characters; a longer one
    makes [request.save()] fail, the 500 of the [catch] clause with
    nothing stored.  As in [approveRequest] the creator is read after the
    save. *)
Definition rejectRequest (user : User.t) (id : ObjectId) (reason : option string)
  (now : Date) (st : Store) : Response Request.t * Store :=
match findById Request._id id (requests st) with
| None => (Failure 404 "Request not found", st)
| Some request =>
    let createdBy := populateCreatedBy request st in
    let role := roleName (User.role user) in
    if String.eqb role "employee"
    then (Failure 403 "Employees cannot reject requests", st)
    else if includes "_head" role
            && negb (optDepartment_eqb (Some (Request.department request))
                       (getDepartmentFromRole role))
    then (Failure 403 "Cannot reject requests from other departments", st)
    else if negb (String.eqb (Request.statusName (Request.status request)) "pending")
    then (Failure 400
            ("Request is already " ++ Request.statusName (Request.status request))%string,
          st)
    else
      let rejectionReason := trim (orElse reason "") in
      if Nat.ltb 500 (String.length rejectionReason)
      then (Failure 500 "Request validation failed", st)
      else
        let request :=
          Request.mk (Request._id request) (Request.type request)
            (Request.description request) Request.rejected
            (Request.createdBy request) (Request.department request)
            (Some (User._id user)) (Some now) (Some rejectionReason) in
        let st := saveRequest request st in
        match createdBy with
        | None => (Failure 500 "Cannot read properties of null", st)
        | Some creator =>
            let '(_, st) :=
              NotificationService.notifyRequestRejected (User._id creator)
                (Request.kindName (Request.type request)) (Request._id request)
                (User.name user) reason st in
            match findById Request._id (Request._id request) (requests st) with
            | Some updatedRequest => (Success 200 updatedRequest, st)
            | None => (Success 200 request, st)
            end
        end
end.

End RequestWorkflow.

(** ** controllers/salaryController.js, [createSalary] and [updateSalary] *)

Module SalaryController.

(** The body of [createSalary]; the three amounts are taken as the
    request gives them, numbers or strings. *)
Record CreateBody : Type := mkCreateBody {
  userId : option ObjectId;
  month : option Z;
  year : option Z;
  basicSalary : option Js.Value;
  allowances : option Js.Value;
  deductions : option Js.Value
}.

(** The fields of a salary record that the body of an update may name. *)
Record UpdateBody : Type := mkUpdateBody {
  u_basicSalary : option Z;
  u_allowances : option Z;
  u_deductions : option Z;
  u_netSalary : option Z;
  u_status : option string;
  u_month : option Z;
  u_year : option Z
}.

Definition sameSalaryKey (user : ObjectId) (month year : Z) (s : Salary.t) : bool :=
Nat.eqb (Salary.user s) user && Z.eqb (Salary.month s) month
&& Z.eqb (Salary.year s) year.

(** [createSalary]; [netSalary] is computed from the amounts of the body
    before [Salary.create] casts them.  A month or year that is absent, an
    amount that does not cast to a number and an absent or null
    [basicSalary] make [Salary.create] fail, the 500 of the [catch]
    clause. *)
Definition createSalary (user : User.t) (b : CreateBody) (st : Store)
  : Response Salary.t * Store :=
let role := roleName (User.role user) in
if negb (String.eqb role "founder") && negb (String.eqb role "co-founder")
then (Failure 403 "Only Founder and Co-Founder can create salary records", st)
else
  match match userId b with
        | Some i => findById User._id i (users st)
        | None => None
        end with
  | None => (Failure 404 "User not found", st)
  | Some targetUser =>
      let assignerLevel := getRoleLevel role in
      let targetLevel := getRoleLevel (roleName (User.role targetUser)) in
      if level_le assignerLevel targetLevel
      then (Failure 403 "Can only assign salary to lower role levels", st)
      else
        match month b, year b with
        | Some m, Some y =>
            match findOne (sameSalaryKey (User._id targetUser) m y) (salaries st) with
            | Some _ =>
                (Failure 400 "Salary record already exists for this month/year", st)
            | None =>
                let netSalary :=
                  match basicSalary b with
                  | Some basic =>
                      Js.sub (Js.add basic (Js.orZero (allowances b)))
                        (Js.orZero (deductions b))
                  | None => Js.NaN
                  end in
                match option_map Js.castNumber (basicSalary b),
                      Js.castNumber (Js.orZero (allowances b)),
                      Js.castNumber (Js.orZero (deductions b)),
                      Js.castNumber netSalary with
                | Some (Some (Some basic)), Some (Some allowances),
                  Some (Some deductions), Some (Some net) =>
                    let salary :=
                      Salary.mk (freshId Salary._id (salaries st)) (User._id targetUser)
                        m y basic allowances deductions net
                        (match User.department targetUser with
                         | Some d => departmentName d
                         | None => "management"
                         end)
                        "pending" in
                    (Success 201 salary, setSalaries (salaries st ++ [salary]) st)
                | _, _, _, _ => (Failure 500 "Salary validation failed", st)
                end
            end
        | _, _ => (Failure 500 "Salary validation failed", st)
        end
  end.

(** [Salary.findByIdAndUpdate(id, updateData)]: every field the update
    document names is overwritten. *)
Definition applyUpdate (d : UpdateBody) (s : Salary.t) : Salary.t :=
Salary.mk (Salary._id s) (Salary.user s)
  (orElse (u_month d) (Salary.month s))
  (orElse (u_year d) (Salary.year s))
  (orElse (u_basicSalary d) (Salary.basicSalary s))
  (orElse (u_allowances d) (Salary.allowances s))
  (orElse (u_deductions d) (Salary.deductions s))
  (orElse (u_netSalary d) (Salary.netSalary s))
  (Salary.department s)
  (orElse (u_status d) (Salary.status s)).

Definition isSome {A} (o : option A) : bool :=
match o with
| Some _ => true
| None => false
end.

(** The update document: a copy of the body, with [netSalary] set when
    one of the three inputs is supplied. *)
Definition updateData (b : UpdateBody) (salary : Salary.t) : UpdateBody :=
if isSome (u_basicSalary b) || isSome (u_allowances b) || isSome (u_deductions b)
then
  let newBasic := orElse (u_basicSalary b) (Salary.basicSalary salary) in
  let newAllowances := orElse (u_allowances b) (Salary.allowances salary) in
  let newDeductions := orElse (u_deductions b) (Salary.deductions salary) in
  mkUpdateBody (u_basicSalary b) (u_allowances b) (u_deductions b)
    (Some (newBasic + newAllowances - newDeductions)%Z)
    (u_status b) (u_month b) (u_year b)
else b.

Definition updateSalary (user : User.t) (id : ObjectId) (b : UpdateBody) (st : Store)
  : Response Salary.t * Store :=
let role := roleName (User.role user) in
if negb (String.eqb role "founder") && negb (String.eqb role "co-founder")
then (Failure 403 "Only Founder and Co-Founder can update salary records", st)
else
  match findById Salary._id id (salaries st) with
  | None => (Failure 404 "Salary record not found", st)
  | Some salary =>
      match findById User._id (Salary.user salary) (users st) with
      | None => (Failure 500 "Cannot read properties of null", st)
      | Some owner =>
          let assignerLevel := getRoleLevel role in
          let targetLevel := getRoleLevel (roleName (User.role owner)) in
          if level_le assignerLevel targetLevel
          then (Failure 403 "Can only update salary of lower role levels", st)
          else
            let salary := applyUpdate (updateData b salary) salary in
            (Success 200 salary,
             setSalaries (save Salary._id salary (salaries st)) st)
      end
  end.

(** The equation the specification states for a salary record. *)
Definition netSalaryConsistent (s : Salary.t) : Prop :=
Salary.netSalary s = (Salary.basicSalary s + Salary.allowances s - Salary.deductions s)%Z.

End SalaryController.

(** ** What the task and request lists select

    The two predicates below describe the queries of [getTasks] and
    [getRequests]; neither a task nor a request carries a role. *)

Definition boundDepartment (r : Role) : option Department :=
getDepartmentFromRole (roleName r).

Definition taskVisible (actor : User.t) (k : Task.t) : bool :=
match User.role actor with
| founder | co_founder => true
| employee => Nat.eqb (Task.assignedTo k) (User._id actor)
| head => optDepartment_eqb (Task.department k) (boundDepartment head)
end.

Definition requestVisible (actor : User.t) (r : Request.t) : bool :=
match User.role actor with
| founder | co_founder => true
| employee => Nat.eqb (Request.createdBy r) (User._id actor)
| head => optDepartment_eqb (Some (Request.department r)) (boundDepartment head)
end.

(** ** Sample data used by the examples *)

Definition alice : User.t := User.mk 1 "Alice" "alice@example.com" founder None.
Definition carol : User.t := User.mk 2 "Carol" "carol@example.com" co_founder None.
Definition tara : User.t :=
  User.mk 3 "Tara" "tara@example.com" technical_head (Some technical).
Definition eve : User.t := User.mk 4 "Eve" "eve@example.com" employee (Some technical).
Definition noon : Date := mkDate 2025 0 31 43200.

(** The bodies [{ "$set": { "role": "founder" } }] and
    [{ "role": "founder" }] of a PUT /api/users/:id. *)
Definition setRoleFounder : UserUpdate.Body :=
  UserUpdate.mkBody None None None None
    (Some (UserUpdate.mkFields None None (Some "founder") None)).

Definition roleFounder : UserUpdate.Body :=
  UserUpdate.mkBody None None (Some "founder") None None.

Definition staff : Store := setUsers [alice; carol; tara; eve] emptyStore.

Definition report : TaskRoutes.UploadedFile :=
  TaskRoutes.mkFile "report.pdf" "application/pdf" 2048 "uploads/tasks/task-10-1.pdf".

(** Dana, an employee of the finance department, is assigned the audit by
    the founder. *)
Definition danaEmployee : User.t :=
  User.mk 5 "Dana" "dana@example.com" employee (Some finance).

Definition audit : Task.t :=
  Task.mk 10 "Quarterly audit" 5 1 (Some finance) Task.pending None.

Definition auditAssigned : Store :=
  setFiles [TaskRoutes.path report]
    (setTasks [audit] (setUsers [alice; danaEmployee; eve] emptyStore)).

(** The founder then makes Dana a co-founder, which clears her
    department; the audit is still pending and assigned to her. *)
Definition auditPending : Store :=
  snd (UserManagementController.changeUserRole alice 5
         (UserManagementController.mkRequest
            (UserManagementController.mkBody (Some "co-founder") None None) None None)
         noon auditAssigned).

Definition dana : User.t := User.mk 5 "Dana" "dana@example.com" co_founder None.

(** The role of a task record, read as the role of its assignee, put
    through the visibility predicate of the specification. *)
Definition taskRecordVisible (actor : User.t) (directory : list User.t) (k : Task.t)
  : bool :=
match findById User._id (Task.assignedTo k) directory with
| Some assignee =>
    visibilityFilter actor (User.role assignee) (Task.department k) (Task.assignedTo k)
| None => false
end.

(** A task of the technical department that the founder assigned to the
    technical head. *)
Definition roadmap : Task.t :=
  Task.mk 12 "Roadmap" 3 1 (Some technical) Task.pending None.

(** ** Task submissions per task *)

Definition submissionsOf (id : ObjectId) (subs : list TaskSubmission.t)
  : list TaskSubmission.t :=
find (fun s => Nat.eqb (TaskSubmission.task s) id) subs.

Definition uniqueOnTask (subs : list TaskSubmission.t) : Prop :=
forall id, List.length (submissionsOf id subs) <= 1.

(** One call of the completion endpoint. *)
Record Attempt : Type := mkAttempt {
  a_user : User.t;
  a_task : ObjectId;
  a_file : option TaskRoutes.UploadedFile;
  a_now : Date
}.

Definition attempt (a : Attempt) (st : Store) : Store :=
snd (TaskRoutes.completeTask (a_user a) (a_task a) (a_file a) (a_now a) st).

Definition attemptAll (l : list Attempt) (st : Store) : Store :=
List.fold_left (fun s a => attempt a s) l st.

(** An attempt of the kind that completes a pending task: made by the
    assignee, with a PDF or CSV file that the upload middleware has
    written. *)
Definition wellFormedAttempt (user : User.t) (task : Task.t)
  (file : option TaskRoutes.UploadedFile) (st : Store) : Prop :=
Task.assignedTo task = User._id user /\
exists f, file = Some f /\
  TaskRoutes.existsSync (TaskRoutes.path f) (files st) = true /\
  (TaskRoutes.toLowerCase (TaskRoutes.extname (TaskRoutes.originalname f)) = ".pdf" \/
   TaskRoutes.toLowerCase (TaskRoutes.extname (TaskRoutes.originalname f)) = ".csv").

(** A completed task with its submission, and a second upload on disk. *)
Definition survey : Task.t :=
  Task.mk 11 "Customer survey" 4 3 (Some technical) Task.completed (Some noon).

Definition surveySubmission : TaskSubmission.t :=
  TaskSubmission.mk 1 11 4 "survey.csv" "csv" 512 "uploads/tasks/task-11-1.csv"
    noon technical.

Definition surveyDone : Store :=
  setFiles ["uploads/tasks/task-11-1.csv"; TaskRoutes.path report]
    (setSubmissions [surveySubmission]
       (setTasks [survey] (setUsers [alice; tara; eve] emptyStore))).

(** ** Who may decide a request

    In the words of the specification: the actor's level exceeds the
    employee level, and a department head is bound to the department of
    the request. *)
Definition mayDecide (user : User.t) (request : Request.t) : Prop :=
(level employee < level (User.role user))%Z /\
(isHead (User.role user) = true ->
 boundDepartment (User.role user) = Some (Request.department request)).

Definition leaveRequest : Request.t :=
  Request.mk 20 Request.leave "Family event" Request.pending 4 technical
    None None None.

Definition leavePending : Store :=
  setRequests [leaveRequest] (setUsers [alice; carol; tara; eve] emptyStore).

Definition leaveApproved : Store :=
  snd (RequestWorkflow.approveRequest tara 20 noon leavePending).

Definition leaveRequestApproved : Request.t :=
  Request.mk 20 Request.leave "Family event" Request.approved 4 technical
    (Some 3) (Some noon) None.

(** ** Performance events *)

Inductive Event : Type :=
| TaskCompleted (employeeId taskId : ObjectId) (now : Date)
| LateLogin (employeeId : ObjectId) (loginTime : Date)
| LeaveApproved (employeeId : ObjectId) (now : Date).

Definition handle (e : Event) (st : Store) : Store :=
match e with
| TaskCompleted employeeId taskId now =>
    snd (PerformanceService.onTaskCompleted employeeId taskId now st)
| LateLogin employeeId loginTime =>
    snd (PerformanceService.onLateLogin employeeId loginTime st)
| LeaveApproved employeeId now =>
    snd (PerformanceService.onLeaveApproved employeeId now st)
end.

Definition replay (events : list Event) (st : Store) : Store :=
List.fold_left (fun s e => handle e s) events st.

Definition scoreConsistent (p : Performance.t) : Prop :=
Performance.totalScore p =
  (Performance.taskPoints (Performance.scoreBreakdown p)
   + Performance.lateLoginPenalty (Performance.scoreBreakdown p))%Z.

(** Eve's bucket for January 2025, as [getOrCreatePerformance] creates it. *)
Definition januaryBucket : Performance.t :=
  Performance.mk 1 4 0 0 0 0 1 2025 technical (Performance.mkBreakdown 0 0).

Definition januaryStart : Store :=
  setPerformances [januaryBucket] staff.

(** 09:45 on 31 January 2025 and 09:30:59 on the same day. *)
Definition quarterToTen : Date := mkDate 2025 0 31 35100.
Definition halfPastNine : Date := mkDate 2025 0 31 34259.

(** The counters of the bucket a lookup returns, zero when there is none. *)
Definition lateLoginsOf (o : option Performance.t) : Z :=
match o with Some p => Performance.lateLogins p | None => 0%Z end.

Definition lateLoginPenaltyOf (o : option Performance.t) : Z :=
match o with
| Some p => Performance.lateLoginPenalty (Performance.scoreBreakdown p)
| None => 0%Z
end.

Definition taskPointsOf (o : option Performance.t) : Z :=
match o with
| Some p => Performance.taskPoints (Performance.scoreBreakdown p)
| None => 0%Z
end.

Definition bucket (employeeId : ObjectId) (month year : Z) (st : Store)
  : option Performance.t :=
findOne (PerformanceService.sameBucket employeeId month year) (performances st).

(** Eve's salary for January 2025. *)
Definition eveJanuary : Salary.t :=
  Salary.mk 30 4 1 2025 1000 200 50 1150 "technical" "pending".

Definition payroll : Store := setSalaries [eveJanuary] staff.

(** A body that names [netSalary] and none of the three inputs. *)
Definition netOnly : SalaryController.UpdateBody :=
  SalaryController.mkUpdateBody None None None (Some 1%Z) None None None.

(** * Further operations of the cited files *)

(** [Model.findByIdAndDelete]: the first document with the id is removed. *)
Fixpoint deleteById {Doc : Type} (docId : Doc -> ObjectId) (id : ObjectId)
  (c : list Doc) : list Doc :=
match c with
| [] => []
| d :: rest => if Nat.eqb (docId d) id then rest else d :: deleteById docId id rest
end.

(** ** middleware/rbac.js, [canAccessUser] and [checkDepartmentAccess] *)

Module RbacAccess.

Definition canAccessUser (currentUser targetUser : User.t) : bool :=
let role := roleName (User.role currentUser) in
if String.eqb role "founder" then true
else if String.eqb role "co-founder" then
  negb (String.eqb (roleName (User.role targetUser)) "founder")
else if includes "_head" role then
  String.eqb (roleName (User.role targetUser)) "employee"
  && optDepartment_eqb (User.department targetUser) (getDepartmentFromRole role)
else if String.eqb role "employee" then
  Nat.eqb (User._id currentUser) (User._id targetUser)
else false.

(** What [checkDepartmentAccess] leaves on the request. *)
Record Access : Type := mkAccess {
  canViewAllDepartments : option bool;
  departmentFilter : option (option Department);
  userFilter : option ObjectId;
  userDepartment : option (option Department);
  selfOnly : bool
}.

Definition checkDepartmentAccess (user : User.t) : Access :=
let role := roleName (User.role user) in
if String.eqb role "founder" || String.eqb role "co-founder" then
  mkAccess (Some true) None None None false
else if includes "_head" role then
  let department := getDepartmentFromRole role in
  mkAccess (Some false) (Some department) None (Some department) false
else if String.eqb role "employee" then
  mkAccess (Some false) (Some (User.department user)) (Some (User._id user))
    (Some (User.department user)) true
else mkAccess None None None None false.

End RbacAccess.

(** ** controllers/userController.js, [getUser] and [deleteUser] *)

Module UserAccess.

Definition getUser (currentUser : User.t) (id : ObjectId) (st : Store)
  : Response User.t :=
match findById User._id id (users st) with
| None => Failure 404 "User not found"
| Some targetUser =>
    if negb (RbacAccess.canAccessUser currentUser targetUser)
    then Failure 403 "You do not have permission to access this department."
    else Success 200 targetUser
end.

Definition deleteUser (currentUser : User.t) (id : ObjectId) (st : Store)
  : Response unit * Store :=
match findById User._id id (users st) with
| None => (Failure 404 "User not found", st)
| Some targetUser =>
    let role := roleName (User.role currentUser) in
    if negb (String.eqb role "founder") && negb (String.eqb role "co-founder")
    then (Failure 403 "Only Founder and Co-Founder can delete users", st)
    else
      let currentLevel := getRoleLevel role in
      let targetLevel := getRoleLevel (roleName (User.role targetUser)) in
      if level_le currentLevel targetLevel
      then (Failure 403 "Cannot delete user of same or higher role level", st)
      else (Success 200 tt, setUsers (deleteById User._id id (users st)) st)
end.

End UserAccess.

(** ** controllers/taskController.js, single tasks

    Modelled from the spec: models/Task.js is not part of the sources.  A
    task is created with status pending and needs a title; an update
    validates the status against the four names of the task state machine.
    The fields [description], [priority] and [dueDate] are not part of the
    task record. *)

Module TaskAccess.

Definition statusName (s : Task.Status) : string :=
match s with
| Task.pending => "pending"
| Task.in_progress => "in-progress"
| Task.review => "review"
| Task.completed => "completed"
end.

Definition statusOfName (s : string) : option Task.Status :=
List.find (fun x => String.eqb (statusName x) s)
  [Task.pending; Task.in_progress; Task.review; Task.completed].

(** [getTask]; the assignee is populated, and is null when the user no
    longer exists. *)
Definition getTask (user : User.t) (id : ObjectId) (st : Store) : Response Task.t :=
match findById Task._id id (tasks st) with
| None => Failure 404 "Task not found"
| Some task =>
    let role := roleName (User.role user) in
    if String.eqb role "employee" then
      match findById User._id (Task.assignedTo task) (users st) with
      | None => Failure 500 "Cannot read properties of null"
      | Some assignee =>
          if negb (Nat.eqb (User._id assignee) (User._id user))
          then Failure 403 "Not authorized to view this task"
          else Success 200 task
      end
    else if includes "_head" role then
      if negb (optDepartment_eqb (Task.department task) (getDepartmentFromRole role))
      then Failure 403 "You do not have permission to access this department."
      else Success 200 task
    else Success 200 task
end.

Record CreateBody : Type := mkCreateBody {
  c_title : option string;
  c_assignedTo : option ObjectId
}.

Definition createTask (user : User.t) (b : CreateBody) (st : Store)
  : Response Task.t * Store :=
let role := roleName (User.role user) in
if String.eqb role "employee"
then (Failure 403 "Employees cannot create tasks", st)
else
  match match c_assignedTo b with
        | Some i => findById User._id i (users st)
        | None => None
        end with
  | None => (Failure 404 "Assigned user not found", st)
  | Some assignee =>
      let creatorLevel := getRoleLevel role in
      let assigneeLevel := getRoleLevel (roleName (User.role assignee)) in
      if level_le creatorLevel assigneeLevel
      then (Failure 403 "Can only assign tasks to lower role levels", st)
      else if includes "_head" role
              && negb (String.eqb (roleName (User.role assignee)) "employee")
      then (Failure 403 "Department heads can only assign tasks to employees", st)
      else if includes "_head" role
              && negb (optDepartment_eqb (User.department assignee)
                         (getDepartmentFromRole role))
      then (Failure 403 "You do not have permission to access this department.", st)
      else
        match c_title b with
        | None => (Failure 500 "Task validation failed", st)
        | Some title =>
            if String.eqb title "" then (Failure 500 "Task validation failed", st)
            else
              let task :=
                Task.mk (freshId Task._id (tasks st)) title (User._id assignee)
                  (User._id user) (User.department assignee) Task.pending None in
              (Success 201 task, setTasks (tasks st ++ [task]) st)
        end
  end.

(** The fields of a task that the body of an update may name. *)
Record UpdateBody : Type := mkUpdateBody {
  u_title : option string;
  u_status : option string;
  u_assignedTo : option ObjectId;
  u_completedAt : option Date
}.

(** [Task.findByIdAndUpdate(id, update, { runValidators: true })]. *)
Definition applyUpdate (b : UpdateBody) (k : Task.t) : option Task.t :=
match match u_status b with
      | Some s => statusOfName s
      | None => Some (Task.status k)
      end with
| None => None
| Some status =>
    Some (Task.mk (Task._id k) (orElse (u_title b) (Task.title k))
            (orElse (u_assignedTo b) (Task.assignedTo k)) (Task.assignedBy k)
            (Task.department k) status
            (match u_completedAt b with
             | Some d => Some d
             | None => Task.completedAt k
             end))
end.

Definition isCompleted (s : option string) : bool :=
match s with
| Some x => String.eqb x "completed"
| None => false
end.

(** The body after [req.body.completedAt = new Date()], which the handler
    runs when the status becomes completed. *)
Definition stamp (b : UpdateBody) (task : Task.t) (now : Date) : UpdateBody :=
if isCompleted (u_status b) && negb (Task.Status_eqb (Task.status task) Task.completed)
then mkUpdateBody (u_title b) (u_status b) (u_assignedTo b) (Some now)
else b.

Definition updateTask (user : User.t) (id : ObjectId) (b : UpdateBody) (now : Date)
  (st : Store) : Response Task.t * Store :=
match findById Task._id id (tasks st) with
| None => (Failure 404 "Task not found", st)
| Some task =>
    let role := roleName (User.role user) in
    let update :=
      if String.eqb role "employee" then
        if negb (Nat.eqb (Task.assignedTo task) (User._id user))
        then inl (Failure 403 "Not authorized to update this task")
        else inr (mkUpdateBody None (u_status b) None
                    (if isCompleted (u_status b) then Some now else None))
      else if includes "_head" role then
        if negb (optDepartment_eqb (Task.department task) (getDepartmentFromRole role))
        then inl (Failure 403 "You do not have permission to access this department.")
        else inr (stamp b task now)
      else inr (stamp b task now) in
    match update with
    | inl refusal => (refusal, st)
    | inr u =>
        match applyUpdate u task with
        | None => (Failure 500 "Validation failed", st)
        | Some task => (Success 200 task, setTasks (save Task._id task (tasks st)) st)
        end
    end
end.

Definition deleteTask (user : User.t) (id : ObjectId) (st : Store)
  : Response unit * Store :=
match findById Task._id id (tasks st) with
| None => (Failure 404 "Task not found", st)
| Some task =>
    let role := roleName (User.role user) in
    if String.eqb role "employee"
    then (Failure 403 "Employees cannot delete tasks", st)
    else if includes "_head" role
            && negb (optDepartment_eqb (Task.department task)
                       (getDepartmentFromRole role))
    then (Failure 403 "You do not have permission to access this department.", st)
    else (Success 200 tt, setTasks (deleteById Task._id id (tasks st)) st)
end.

End TaskAccess.

(** Eve's survey before she completes it. *)
Definition surveyOpen : Task.t :=
  Task.mk 11 "Customer survey" 4 3 (Some technical) Task.in_progress None.

Definition surveyAssigned : Store :=
  setTasks [surveyOpen] (setUsers [alice; tara; eve] emptyStore).

Definition surveyReview : Task.t :=
  Task.mk 11 "Customer survey" 4 3 (Some technical) Task.review None.

Definition renameAndReassign : TaskAccess.UpdateBody :=
  TaskAccess.mkUpdateBody (Some "Renamed") (Some "review") (Some 1) None.

(** ** routes/taskRoutes.js, the upload filter and the submission routes *)

Module SubmissionRoutes.

(** [fileFilter] of the upload middleware: [true] when the file is
    admitted. *)
Definition fileFilter (file : TaskRoutes.UploadedFile) : bool :=
let allowedTypes := ["application/pdf"; "text/csv"; "application/vnd.ms-excel"] in
let allowedExtensions := [".pdf"; ".csv"] in
let ext := TaskRoutes.toLowerCase (TaskRoutes.extname (TaskRoutes.originalname file)) in
existsb (String.eqb ext) allowedExtensions
|| existsb (String.eqb (TaskRoutes.mimetype file)) allowedTypes.

Definition submissionOfTask (task : Task.t) (st : Store) : option TaskSubmission.t :=
findOne (fun s => Nat.eqb (TaskSubmission.task s) (Task._id task)) (submissions st).

(** [GET /api/tasks/:id/submission]; the submitting user is populated and
    is null when the user no longer exists. *)
Definition getSubmission (user : User.t) (id : ObjectId) (st : Store)
  : Response TaskSubmission.t :=
match findById Task._id id (tasks st) with
| None => Failure 404 "Task not found"
| Some task =>
    match submissionOfTask task st with
    | None => Failure 404 "No submission found for this task"
    | Some submission =>
        let role := roleName (User.role user) in
        if String.eqb role "founder" || String.eqb role "co-founder"
        then Success 200 submission
        else if includes "_head" role then
          if negb (optDepartment_eqb (Some (TaskSubmission.department submission))
                     (getDepartmentFromRole role))
          then Failure 403 "Not authorized to view submissions outside your department"
          else Success 200 submission
        else if String.eqb role "employee" then
          match findById User._id (TaskSubmission.submittedBy submission) (users st) with
          | None => Failure 500 "Cannot read properties of null"
          | Some submitter =>
              if negb (Nat.eqb (User._id submitter) (User._id user))
              then Failure 403 "Not authorized to view this submission"
              else Success 200 submission
          end
        else Failure 403 "Not authorized to view this submission"
    end
end.

(** [GET /api/tasks/:id/submission/download]; the data of a success is
    the path and the name handed to [res.download]. *)
Definition downloadSubmission (user : User.t) (id : ObjectId) (st : Store)
  : Response (string * string) :=
match findById Task._id id (tasks st) with
| None => Failure 404 "Task not found"
| Some task =>
    match submissionOfTask task st with
    | None => Failure 404 "No submission found for this task"
    | Some submission =>
        let role := roleName (User.role user) in
        let canAccess :=
          if String.eqb role "founder" || String.eqb role "co-founder" then Some true
          else if includes "_head" role then
            Some (optDepartment_eqb (Some (TaskSubmission.department submission))
                    (getDepartmentFromRole role))
          else if String.eqb role "employee" then
            match findById User._id (TaskSubmission.submittedBy submission) (users st) with
            | None => None
            | Some submitter => Some (Nat.eqb (User._id submitter) (User._id user))
            end
          else Some false in
        match canAccess with
        | None => Failure 500 "Cannot read properties of null"
        | Some false => Failure 403 "Not authorized to download this file"
        | Some true =>
            if negb (TaskRoutes.existsSync (TaskSubmission.filePath submission) (files st))
            then Failure 404 "File not found on server"
            else Success 200 (TaskSubmission.filePath submission,
                              TaskSubmission.fileName submission)
        end
    end
end.

End SubmissionRoutes.

(** Eve's survey with her report uploaded, and what the completion
    stores. *)
Definition surveyUploaded : Store :=
  setFiles [TaskRoutes.path report] surveyAssigned.

Definition surveyCompleted : Task.t :=
  Task.mk 11 "Customer survey" 4 3 (Some technical) Task.completed (Some noon).

Definition reportSubmission : TaskSubmission.t :=
  TaskSubmission.mk 1 11 4 "report.pdf" "pdf" 2048 (TaskRoutes.path report)
    noon technical.


(** ** controllers/requestController.js, creating and reading requests *)

Module RequestAccess.

Record CreateBody : Type := mkCreateBody {
  type : option string;
  description : option string
}.

Definition kindOfName (s : string) : option Request.Kind :=
List.find (fun k => String.eqb (Request.kindName k) s)
  [Request.leave; Request.expense; Request.task].

(** [createRequest]; the schema requires a department, trims the
    description, requires what is left not to be empty and limits it to
    1000 characters, and a violation is the 500 of the [catch] clause.
    The optional [metadata] of the body is not part of the record here. *)
Definition createRequest (user : User.t) (b : CreateBody) (st : Store)
  : Response Request.t * Store :=
if negb (String.eqb (roleName (User.role user)) "employee")
then (Failure 403 "Only employees can create requests", st)
else if negb (UserManagementController.truthy (type b))
        || negb (UserManagementController.truthy (description b))
then (Failure 400 "Type and description are required", st)
else
  let validTypes := ["leave"; "expense"; "task"] in
  if negb (existsb (String.eqb (orElse (type b) "")) validTypes)
  then (Failure 400 "Invalid request type. Must be one of: leave, expense, task", st)
  else
    match kindOfName (orElse (type b) ""), User.department user with
    | Some kind, Some department =>
        let description := trim (orElse (description b) "") in
        if String.eqb description "" || Nat.ltb 1000 (String.length description)
        then (Failure 500 "Request validation failed", st)
        else
          let request :=
            Request.mk (freshId Request._id (requests st)) kind
              description Request.pending (User._id user)
              department None None None in
          (Success 201 request, setRequests (requests st ++ [request]) st)
    | _, _ => (Failure 500 "Request validation failed", st)
    end.

(** [getRequest]; the creator is populated and is null when the user no
    longer exists. *)
Definition getRequest (user : User.t) (id : ObjectId) (st : Store)
  : Response Request.t :=
match findById Request._id id (requests st) with
| None => Failure 404 "Request not found"
| Some request =>
    let role := roleName (User.role user) in
    if String.eqb role "employee" then
      match findById User._id (Request.createdBy request) (users st) with
      | None => Failure 500 "Cannot read properties of null"
      | Some creator =>
          if negb (Nat.eqb (User._id creator) (User._id user))
          then Failure 403 "Not authorized to view this request"
          else Success 200 request
      end
    else if includes "_head" role then
      if negb (optDepartment_eqb (Some (Request.department request))
                 (getDepartmentFromRole role))
      then Failure 403 "Not authorized to view requests from other departments"
      else Success 200 request
    else Success 200 request
end.

(** [getMyRequests]; [status] is the optional query parameter. *)
Definition getMyRequests (user : User.t) (status : option string)
  (l : list Request.t) : Response (list Request.t) :=
let query := Request.mkQuery None (Some (User._id user)) None None in
let query :=
  if UserManagementController.truthy status
  then Request.mkQuery None (Some (User._id user)) status None
  else query in
Success 200 (find (Request.matches query) l).

Definition getPendingRequests (user : User.t) (l : list Request.t)
  : Response (list Request.t) :=
let role := roleName (User.role user) in
if String.eqb role "employee"
then Failure 403 "Not authorized to view pending requests"
else
  let query :=
    if includes "_head" role
    then Request.mkQuery (Some (getDepartmentFromRole role)) None (Some "pending") None
    else Request.mkQuery None None (Some "pending") None in
  Success 200 (find (Request.matches query) l).

End RequestAccess.

(** ** controllers/salaryController.js, reading and deleting salaries *)

Module SalaryAccess.

(** The query objects over salaries: [user: id], [user: { $nin: ids }] and
    [department: name]. *)
Record Query : Type := mkQuery {
  q_user : option ObjectId;
  q_userNin : option (list ObjectId);
  q_department : option (option string)
}.

Definition optString_eqb (a b : option string) : bool :=
match a, b with
| Some x, Some y => String.eqb x y
| None, None => true
| _, _ => false
end.

Definition matches (q : Query) (s : Salary.t) : bool :=
User.holds (q_user q) (fun i => Nat.eqb (Salary.user s) i)
&& User.holds (q_userNin q) (fun ids => negb (existsb (Nat.eqb (Salary.user s)) ids))
&& User.holds (q_department q) (fun d => optString_eqb (Some (Salary.department s)) d).

(** [getSalaries]; the default branch of the switch is not reached by a
    stored role. *)
Definition getSalaries (user : User.t) (st : Store) : Response (list Salary.t) :=
let role := roleName (User.role user) in
let query :=
  if String.eqb role "founder" then Some (mkQuery None None None)
  else if String.eqb role "co-founder" then
    let founderUsers :=
      find (User.matches (User.mkQuery None (Some (User.RoleIs "founder")) None))
        (users st) in
    let founderIds := List.map User._id founderUsers in
    Some (mkQuery None (Some founderIds) None)
  else if String.eqb role "technical_head" || String.eqb role "sales_head"
          || String.eqb role "finance_head" then
    Some (mkQuery None None
            (Some (option_map departmentName (getDepartmentFromRole role))))
  else if String.eqb role "employee" then
    Some (mkQuery (Some (User._id user)) None None)
  else None in
match query with
| None => Failure 403 "Invalid role for salary access"
| Some q => Success 200 (find (matches q) (salaries st))
end.

Definition getMySalary (user : User.t) (st : Store) : Response (list Salary.t) :=
Success 200 (find (matches (mkQuery (Some (User._id user)) None None)) (salaries st)).

(** [getSalary]; the owner is populated and is null when the user no
    longer exists. *)
Definition getSalary (user : User.t) (id : ObjectId) (st : Store)
  : Response Salary.t :=
match findById Salary._id id (salaries st) with
| None => Failure 404 "Salary record not found"
| Some salary =>
    let role := roleName (User.role user) in
    let owner := findById User._id (Salary.user salary) (users st) in
    if String.eqb role "employee" then
      match owner with
      | None => Failure 500 "Cannot read properties of null"
      | Some o =>
          if negb (Nat.eqb (User._id o) (User._id user))
          then Failure 403 "Not authorized to view this salary record"
          else Success 200 salary
      end
    else if includes "_head" role then
      if negb (optString_eqb (Some (Salary.department salary))
                 (option_map departmentName (getDepartmentFromRole role)))
      then Failure 403 "You do not have permission to access this department."
      else Success 200 salary
    else if String.eqb role "co-founder" then
      match owner with
      | None => Failure 500 "Cannot read properties of null"
      | Some o =>
          if String.eqb (roleName (User.role o)) "founder"
          then Failure 403 "Not authorized to view founder salary"
          else Success 200 salary
      end
    else Success 200 salary
end.

Definition deleteSalary (user : User.t) (id : ObjectId) (st : Store)
  : Response unit * Store :=
if negb (String.eqb (roleName (User.role user)) "founder")
then (Failure 403 "Only Founder can delete salary records", st)
else
  match findById Salary._id id (salaries st) with
  | None => (Failure 404 "Salary record not found", st)
  | Some _ => (Success 200 tt, setSalaries (deleteById Salary._id id (salaries st)) st)
  end.

(** At most one salary per user, month and year. *)
Definition uniqueSalaryKey (l : list Salary.t) : Prop :=
forall u m y, List.length (find (SalaryController.sameSalaryKey u m y) l) <= 1.

End SalaryAccess.

(** What the salary list selects for an actor: everything for a founder,
    the salaries of users who are not founders for a co-founder, the
    bound department for a head, the own salaries for an employee. *)
Definition salaryVisible (actor : User.t) (st : Store) (s : Salary.t) : bool :=
match User.role actor with
| founder => true
| co_founder =>
    negb (existsb (Nat.eqb (Salary.user s))
            (List.map User._id
               (find (fun u => Role_eqb (User.role u) founder) (users st))))
| employee => Nat.eqb (Salary.user s) (User._id actor)
| head =>
    SalaryAccess.optString_eqb (Some (Salary.department s))
      (option_map departmentName (boundDepartment head))
end.

(** [Model.findOneAndUpdate] with [new: true]: the first document that
    matches is updated and returned, or [null] when none matches. *)
Fixpoint findOneAndUpdate {Doc : Type} (p : Doc -> bool) (f : Doc -> Doc)
  (c : list Doc) : option Doc * list Doc :=
match c with
| [] => (None, [])
| d :: rest =>
    if p d then (Some (f d), f d :: rest)
    else let '(r, rest') := findOneAndUpdate p f rest in (r, d :: rest')
end.

(** [Model.updateMany]: every matching document is updated; the result
    carries the number of documents matched. *)
Definition updateMany {Doc : Type} (p : Doc -> bool) (f : Doc -> Doc)
  (c : list Doc) : nat * list Doc :=
(List.length (List.filter p c), List.map (fun d => if p d then f d else d) c).

(** ** services/notificationService.js, reading and marking *)

Module NotificationReads.

Definition setRead (n : Notification.t) : Notification.t :=
Notification.mk (Notification._id n) (Notification.userId n) (Notification.message n)
  (Notification.type n) true (Notification.relatedEntity n).

(** The query [{ userId, isRead: false }]. *)
Definition unreadOf (userId : ObjectId) (n : Notification.t) : bool :=
Nat.eqb (Notification.userId n) userId && negb (Notification.isRead n).

Definition markAsRead (notificationId userId : ObjectId) (st : Store)
  : option Notification.t * Store :=
let '(notification, l) :=
  findOneAndUpdate
    (fun n => Nat.eqb (Notification._id n) notificationId
              && Nat.eqb (Notification.userId n) userId)
    setRead (notifications st) in
(notification, setNotifications l st).

Definition markAllAsRead (userId : ObjectId) (st : Store) : nat * Store :=
let '(result, l) := updateMany (unreadOf userId) setRead (notifications st) in
(result, setNotifications l st).

Definition getUnreadCount (userId : ObjectId) (st : Store) : nat :=
List.length (find (unreadOf userId) (notifications st)).

Definition notifyLoginSuccess (userId : ObjectId) (userName : string) (st : Store) :=
NotificationService.createNotification userId
  ("Welcome back, " ++ userName ++ "! You have successfully logged in.")%string
  "login_success" None st.

Definition notifyTaskAssigned (userId : ObjectId) (taskTitle : string)
  (taskId : ObjectId) (assignerName : string) (st : Store) :=
NotificationService.createNotification userId
  ("New task " ++ String (ascii_of_nat 34) taskTitle ++ String (ascii_of_nat 34)
     " has been assigned to you by " ++ assignerName ++ ".")%string
  "task_assigned" (Some ("task", taskId)) st.

End NotificationReads.

(** ** services/performanceService.js, the counters behind the score *)

(** The score of a record is what its counters give: ten points a
    completed task, five off a late login. *)
Definition scoreFromCounters (p : Performance.t) : Prop :=
Performance.taskPoints (Performance.scoreBreakdown p)
  = (PerformanceService.TASK_COMPLETED * Performance.tasksCompleted p)%Z /\
Performance.lateLoginPenalty (Performance.scoreBreakdown p)
  = (PerformanceService.LATE_LOGIN * Performance.lateLogins p)%Z /\
Performance.totalScore p
  = (10 * Performance.tasksCompleted p - 5 * Performance.lateLogins p)%Z /\
(0 <= Performance.tasksCompleted p)%Z /\ (0 <= Performance.lateLogins p)%Z /\
(0 <= Performance.approvedLeaves p)%Z.

(** The fields of the unique index [{ employeeId, month, year }]. *)
Definition bucketKey (p : Performance.t) : ObjectId * Z * Z :=
(Performance.employeeId p, Performance.month p, Performance.year p).

Definition oneBucketPerKey (l : list Performance.t) : Prop :=
NoDup (List.map Performance._id l) /\ NoDup (List.map bucketKey l).

Definition approvedLeavesOf (o : option Performance.t) : Z :=
match o with Some p => Performance.approvedLeaves p | None => 0%Z end.

Definition tasksCompletedOf (o : option Performance.t) : Z :=
match o with Some p => Performance.tasksCompleted p | None => 0%Z end.

Definition totalScoreOf (o : option Performance.t) : Z :=
match o with Some p => Performance.totalScore p | None => 0%Z end.

(** ** controllers/userManagementController.js, [getEligibleUsers] *)

Module EligibleUsers.

(** The two role conditions the handler builds: [{ $ne: r }] and
    [{ $in: rs }]. *)
Inductive RoleQuery : Type :=
| RoleNe (r : string)
| RoleIn (rs : list string).

Definition matches (q : option RoleQuery) (u : User.t) : bool :=
match q with
| None => true
| Some (RoleNe r) => negb (String.eqb (roleName (User.role u)) r)
| Some (RoleIn rs) => existsb (String.eqb (roleName (User.role u))) rs
end.

(** The projection [select('name email role department')] keeps every
    field of the user record. *)
Definition getEligibleUsers (currentUser : User.t) (st : Store)
  : Response (list User.t) :=
let role := roleName (User.role currentUser) in
if negb (String.eqb role "founder") && negb (String.eqb role "co-founder")
then Failure 403 "Only Founder and Co-Founder can view users eligible for role change"
else
  let query :=
    if String.eqb role "founder" then Some (RoleNe "founder")
    else if String.eqb role "co-founder" then
      Some (RoleIn ["technical_head"; "sales_head"; "finance_head"; "employee"])
    else None in
  Success 200 (find (matches query) (users st)).

End EligibleUsers.

(** The department a role goes with: none for founder and co-founder, the
    bound one for a head, some department for an employee. *)
Definition departmentFits (r : Role) (d : option Department) : Prop :=
match r with
| founder | co_founder => d = None
| employee => d <> None
| head => d = boundDepartment head
end.

(** * Properties *)

(** ** Collections *)

Section CollectionFacts.
Variable Doc : Type.
Variable docId : Doc -> ObjectId.

Lemma find_spec (p : Doc -> bool) (c : list Doc) (d : Doc) :
  In d (find p c) <-> In d c /\ p d = true.
Proof. unfold find. apply filter_In. Qed.

Lemma findById_Some (id : ObjectId) (c : list Doc) (d : Doc) :
  findById docId id c = Some d -> In d c /\ docId d = id.
Proof.
  unfold findById, findOne. intros H.
  apply find_some in H. destruct H as [Hin Heq].
  split; [exact Hin | now apply Nat.eqb_eq].
Qed.

Lemma save_length (d : Doc) (c : list Doc) :
  List.length (save docId d c) = List.length c.
Proof. unfold save. apply length_map. Qed.
Lemma findById_save (id : ObjectId) (c : list Doc) (x d : Doc) :
  findById docId id c = Some x -> docId d = id ->
  findById docId id (save docId d c) = Some d.
Proof.
  unfold findById, findOne, save. intros H Hd. subst id.
  induction c as [|y c IH]; simpl in *; [discriminate|].
  destruct (Nat.eqb (docId y) (docId d)) eqn:E.
  - simpl. now rewrite Nat.eqb_refl.
  - simpl. rewrite E. now apply IH.
Qed.
End CollectionFacts.

(** ** Roles and departments *)

Lemma Role_eqb_eq (a b : Role) : Role_eqb a b = true <-> a = b.
Proof. destruct a, b; cbv; split; intro H; congruence. Qed.

Lemma Department_eqb_eq (a b : Department) : Department_eqb a b = true <-> a = b.
Proof. destruct a, b; cbv; split; intro H; congruence. Qed.

Lemma optDepartment_eqb_eq (a b : option Department) :
  optDepartment_eqb a b = true <-> a = b.
Proof.
  destruct a as [x|], b as [y|]; simpl; try (split; intro H; congruence).
  rewrite Department_eqb_eq. split; intro H; congruence.
Qed.


Lemma level_values (r : Role) :
  level r = match r with
            | founder => 4
            | co_founder => 3
            | employee => 1
            | _ => 2
            end%Z.
Proof. destruct r; reflexivity. Qed.

(** ** List endpoints *)

Ltac by_role actor :=
  let i := fresh "i" in
  let n := fresh "n" in
  let e := fresh "e" in
  let r := fresh "r" in
  let d := fresh "d" in
  destruct actor as [i n e r d]; destruct r.

Lemma enforceRoleHierarchy_visible (actor u : User.t) :
  User.matches (RoleHierarchy.enforceRoleHierarchy actor) u = userVisible actor u.
Proof.
  by_role actor; destruct u as [ui un ue ur ud];
    unfold userVisible, visibilityFilter, User.matches; simpl;
    try reflexivity;
    try (destruct ur; destruct ud as [[]|]; reflexivity).
  now rewrite !andb_true_r.
Qed.

(** C1, as stated, fails: an employee who asks for the user list gets a
    403 refusal, not the list restricted to the own record; and a
    department head's task list holds every task of the department, also
    one whose assignee is not an employee. *)
Lemma list_endpoints_not_visibilityFilter :
  (userVisible eve eve = true /\
   UserController.getUsers eve [eve]
     = Failure 403 "Employees are not authorized to view user list" /\
   ~ returnsVisibleUsers eve [eve])
  /\
  (TaskController.getTasks tara [roadmap] = Success 200 [roadmap] /\
   taskRecordVisible tara (users staff) roadmap = false).
Proof.
  split.
  - split; [reflexivity|]. split; [reflexivity|].
    intros [l [H _]]. discriminate H.
  - split; reflexivity.
Qed.

(** C1, amended: [enforceRoleHierarchy] computes the visibility filter of
    the specification; [getUsers] returns exactly the users passing it for a
    founder, a co-founder and a department head, and refuses an employee
    with 403; [getTasks] is unrestricted for founder and co-founder, keeps a
    head to the tasks of the bound department and an employee to the tasks
    assigned to them; [getRequests] (without optional parameters) is
    unrestricted for founder and co-founder, keeps a head to the requests of
    the bound department and an employee to the requests they created. *)
Theorem list_endpoints_visibility :
  (forall actor u,
     User.matches (RoleHierarchy.enforceRoleHierarchy actor) u = userVisible actor u) /\
  (forall actor users,
     UserController.getUsers actor users =
       if Role_eqb (User.role actor) employee
       then Failure 403 "Employees are not authorized to view user list"
       else Success 200 (find (userVisible actor) users)) /\
  (forall actor tasks,
     TaskController.getTasks actor tasks = Success 200 (find (taskVisible actor) tasks)) /\
  (forall actor requests,
     RequestController.getRequests actor (RequestController.mkListParams None None) requests
       = Success 200 (find (requestVisible actor) requests)).
Proof.
  split; [exact enforceRoleHierarchy_visible|].
  split; [|split].
  - intros actor users.
    assert (E : forall q, (forall u, User.matches q u = userVisible actor u) ->
                find (User.matches q) users = find (userVisible actor) users).
    { intros q Hq. unfold find. apply filter_ext. exact Hq. }
    pose proof (enforceRoleHierarchy_visible actor) as V.
    by_role actor; unfold UserController.getUsers; simpl;
      try reflexivity; f_equal; apply E; exact V.
  - intros actor tasks. unfold TaskController.getTasks, find.
    f_equal. apply filter_ext. intros k.
    by_role actor; unfold Task.matches, taskVisible; simpl;
      try reflexivity; now rewrite ?andb_true_r.
  - intros actor requests. unfold RequestController.getRequests, find.
    f_equal. apply filter_ext. intros x.
    by_role actor; unfold Request.matches, requestVisible; simpl;
      try reflexivity; now rewrite ?andb_true_r.
Qed.

(** ** Role changes *)

Lemma getRoleLevel_roleName (r : Role) : getRoleLevel (roleName r) = Num (level r).
Proof. now destruct r. Qed.

Lemma validRoles_roleName (s : string) :
  existsb (String.eqb s) UserManagementController.validRoles = true ->
  exists r, s = roleName r.
Proof.
  unfold UserManagementController.validRoles. cbn [existsb].
  rewrite !orb_true_iff, !String.eqb_eq.
  intros [H|[H|[H|[H|[H|[H|H]]]]]]; try discriminate H; subst s;
    [ now exists founder | now exists co_founder | now exists technical_head
    | now exists sales_head | now exists finance_head | now exists employee ].
Qed.

Lemma changeUserRole_success actor targetId req now st c data st' :
  UserManagementController.changeUserRole actor targetId req now st
    = (Success c data, st') ->
  exists target nr r,
    findById User._id targetId (users st) = Some target /\
    UserManagementController.newRole (UserManagementController.body req) = Some nr /\
    nr = roleName r /\
    (level (User.role target) < level (User.role actor))%Z /\
    (level r < level (User.role actor))%Z.
Proof.
  unfold UserManagementController.changeUserRole. intros H.
  destruct (negb (String.eqb (roleName (User.role actor)) "founder")
            && negb (String.eqb (roleName (User.role actor)) "co-founder")); [discriminate|].
  destruct (UserManagementController.newRole (UserManagementController.body req))
    as [nr|] eqn:Enr; [|discriminate].
  destruct (negb (UserManagementController.truthy (Some nr))
            || negb (existsb (String.eqb (orElse (Some nr) ""))
                       UserManagementController.validRoles)) eqn:V; [discriminate|].
  apply orb_false_iff in V. destruct V as [_ V]. apply negb_false_iff in V.
  simpl orElse in V. destruct (validRoles_roleName _ V) as [r Hr]. subst nr.
  destruct (findById User._id targetId (users st)) as [target|]; [|discriminate].
  simpl orElse in H. rewrite !getRoleLevel_roleName in H. cbn [level_le level_ge] in H.
  destruct (level (User.role actor) <=? level (User.role target))%Z eqn:E1;
    [discriminate|].
  destruct (level r >=? level (User.role actor))%Z eqn:E2; [discriminate|].
  exists target, (roleName r), r.
  apply Z.leb_gt in E1. rewrite Z.geb_leb in E2. apply Z.leb_gt in E2.
  repeat split; assumption.
Qed.

Lemma changeUserRole_refusal_unchanged actor targetId req now st c m st' :
  UserManagementController.changeUserRole actor targetId req now st
    = (Failure c m, st') ->
  st' = st.
Proof.
  unfold UserManagementController.changeUserRole. intros H.
  repeat match type of H with
         | (if ?b then _ else _) = _ => destruct b
         | match ?x with _ => _ end = _ => destruct x
         | (let '(_, _) := ?x in _) = _ => destruct x
         end;
    try discriminate H; now inversion H.
Qed.

Lemma updateUser_success actor id b st c data st' :
  UserUpdate.updateUser actor id b st = (Success c data, st') ->
  exists target,
    findById User._id id (users st) = Some target /\
    (level (User.role target) < level (User.role actor))%Z /\
    forall nr, UserUpdate.b_role b = Some nr ->
               exists r, nr = roleName r /\ (level r < level (User.role actor))%Z.
Proof.
  unfold UserUpdate.updateUser. intros H.
  destruct (findById User._id id (users st)) as [target|]; [|discriminate].
  destruct (String.eqb (roleName (User.role actor)) "employee"); [discriminate|].
  rewrite !getRoleLevel_roleName in H. cbn [level_le] in H.
  destruct (level (User.role actor) <=? level (User.role target))%Z eqn:E1;
    [discriminate|].
  match type of H with (if ?b then _ else _) = _ => destruct b; [discriminate|] end.
  match type of H with (if ?b then _ else _) = _ => destruct b eqn:E2; [discriminate|] end.
  exists target. apply Z.leb_gt in E1.
  split; [reflexivity|]. split; [exact E1|].
  intros nr Hnr. rewrite Hnr in E2.
  unfold UserUpdate.applyUpdate, UserUpdate.updateDocument, UserUpdate.orField in H.
  rewrite Hnr in H. cbn [UserUpdate.f_role] in H.
  destruct (RoleChangeService.roleOfName nr) as [r|] eqn:Rn;
    [|cbn in H; discriminate H].
  unfold RoleChangeService.roleOfName in Rn. apply find_some in Rn.
  destruct Rn as [_ Rn]. apply String.eqb_eq in Rn. subst nr.
  exists r. split; [reflexivity|].
  cbn [orElse] in E2. rewrite getRoleLevel_roleName in E2. cbn [level_ge] in E2.
  assert (T : UserManagementController.truthy (Some (roleName r)) = true)
    by now destruct r.
  rewrite T in E2. cbn [andb] in E2.
  rewrite Z.geb_leb in E2. apply Z.leb_gt in E2. exact E2.
Qed.

Lemma updateUser_refusal_unchanged actor id b st c m st' :
  UserUpdate.updateUser actor id b st = (Failure c m, st') ->
  st' = st.
Proof.
  unfold UserUpdate.updateUser. intros H.
  repeat match type of H with
         | (if ?b then _ else _) = _ => destruct b
         | match ?x with _ => _ end = _ => destruct x
         end;
    try discriminate H; now inversion H.
Qed.

(** A role named in the request never escalates: [changeUserRole], and
    [updateUser] on a body that names the role at the top level and has no
    update operator, succeed only when the actor's level is strictly above
    the target's and the new role is one of the six with a level strictly
    below the actor's; when the named role has a level at or above the
    actor's, both refuse and leave the store as it was. *)
Theorem named_role_never_escalates
  (actor : User.t) (targetId : ObjectId) (newRole : string)
  (reason department ip userAgent : option string) (now : Date)
  (name email : option string) (dept : option (option string)) (st : Store) :
  let viaChangeRole :=
    UserManagementController.changeUserRole actor targetId
      (UserManagementController.mkRequest
         (UserManagementController.mkBody (Some newRole) reason department)
         ip userAgent) now st in
  let viaUpdate :=
    UserUpdate.updateUser actor targetId
      (UserUpdate.mkBody name email (Some newRole) dept None) st in
  (succeeded (fst viaChangeRole) = true \/ succeeded (fst viaUpdate) = true ->
   exists target r,
     findById User._id targetId (users st) = Some target /\
     newRole = roleName r /\
     (level (User.role target) < level (User.role actor))%Z /\
     (level r < level (User.role actor))%Z)
  /\
  (forall r, newRole = roleName r ->
     (level r >= level (User.role actor))%Z ->
     succeeded (fst viaChangeRole) = false /\ snd viaChangeRole = st /\
     succeeded (fst viaUpdate) = false /\ snd viaUpdate = st).
Proof.
  intros viaChangeRole viaUpdate.
  assert (A : succeeded (fst viaChangeRole) = true \/ succeeded (fst viaUpdate) = true ->
              exists target r,
                findById User._id targetId (users st) = Some target /\
                newRole = roleName r /\
                (level (User.role target) < level (User.role actor))%Z /\
                (level r < level (User.role actor))%Z).
  { intros [H|H].
    - destruct viaChangeRole as [[c data|c m] st'] eqn:E; [|discriminate H].
      apply changeUserRole_success in E.
      destruct E as [target [nr [r [Hf [Hnr [Hr [L1 L2]]]]]]].
      simpl in Hnr. inversion Hnr; subst nr. now exists target, r.
    - destruct viaUpdate as [[c data|c m] st'] eqn:E; [|discriminate H].
      apply updateUser_success in E.
      destruct E as [target [Hf [L1 L2]]].
      destruct (L2 newRole eq_refl) as [r [Hr L]].
      now exists target, r. }
  split; [exact A|].
  intros r Hr Hge.
  assert (I : forall r', roleName r = roleName r' -> level r' = level r)
    by (intros r' E; destruct r, r'; try discriminate E; reflexivity).
  assert (N1 : succeeded (fst viaChangeRole) = false).
  { destruct (succeeded (fst viaChangeRole)) eqn:S; [|reflexivity].
    destruct A as [t [r' [_ [Hr' [_ L]]]]]; [now left|].
    rewrite Hr in Hr'. rewrite (I r' Hr') in L. lia. }
  assert (N2 : succeeded (fst viaUpdate) = false).
  { destruct (succeeded (fst viaUpdate)) eqn:S; [|reflexivity].
    destruct A as [t [r' [_ [Hr' [_ L]]]]]; [now right|].
    rewrite Hr in Hr'. rewrite (I r' Hr') in L. lia. }
  repeat split; try assumption.
  - destruct viaChangeRole as [[c data|c m] st'] eqn:E; [discriminate N1|].
    now apply changeUserRole_refusal_unchanged in E.
  - destruct viaUpdate as [[c data|c m] st'] eqn:E; [discriminate N2|].
    now apply updateUser_refusal_unchanged in E.
Qed.

(** The founder may make the employee a technical head; the co-founder may
    not make the employee a co-founder. *)
Lemma named_role_never_escalates_witness :
  (exists target r,
     findById User._id 4 (users staff) = Some target /\
     "technical_head" = roleName r /\
     (level (User.role target) < level (User.role alice))%Z /\
     (level r < level (User.role alice))%Z)
  /\
  (succeeded (fst (UserManagementController.changeUserRole carol 4
      (UserManagementController.mkRequest
         (UserManagementController.mkBody (Some "co-founder") None None) None None)
      noon staff)) = false /\
   snd (UserManagementController.changeUserRole carol 4
      (UserManagementController.mkRequest
         (UserManagementController.mkBody (Some "co-founder") None None) None None)
      noon staff) = staff /\
   succeeded (fst (UserUpdate.updateUser carol 4
      (UserUpdate.mkBody None None (Some "co-founder") None None) staff)) = false /\
   snd (UserUpdate.updateUser carol 4
      (UserUpdate.mkBody None None (Some "co-founder") None None) staff) = staff).
Proof.
  split.
  - apply (proj1 (named_role_never_escalates alice 4 "technical_head"
                    None None None None noon None None None staff)).
    left. reflexivity.
  - apply (proj2 (named_role_never_escalates carol 4 "co-founder"
                    None None None None noon None None None staff) co_founder eq_refl).
    vm_compute. discriminate.
Defined.

(** C2 fails on the code: [updateUser] tests the role that the body names
    at the top level and then hands the whole body to
    [findByIdAndUpdate].  The technical head sends
    [{ "$set": { "role": "founder" } }] for Eve, an employee of her
    department: there is no [req.body.role], the test is skipped, and Eve
    is stored as a founder, two levels above the actor.  The same role
    named at the top level is refused with 403 and changes nothing. *)
Theorem updateUser_set_operator_escalates :
  let result := UserUpdate.updateUser tara 4 setRoleFounder staff in
  findById User._id 4 (users staff) = Some eve /\
  User.role eve = employee /\
  fst result = Success 200 (User.mk 4 "Eve" "eve@example.com" founder (Some technical)) /\
  findById User._id 4 (users (snd result))
    = Some (User.mk 4 "Eve" "eve@example.com" founder (Some technical)) /\
  (level founder > level (User.role tara))%Z /\
  UserUpdate.updateUser tara 4 roleFounder staff
    = (Failure 403 "Cannot assign role equal to or higher than your own", staff).
Proof. cbv zeta. repeat split; reflexivity. Qed.

(** ** Task completion *)

(** C3 fails on the code: the handler saves the task as completed before
    it inserts the submission.  Dana was made a co-founder after the audit
    was assigned to her, so she has no department, which the submission
    schema requires: the insert is rejected, the uploaded file is removed
    and the answer is 500, but the task stays completed and has no
    submission. *)
Theorem completeTask_status_survives_failed_insert :
  let result := TaskRoutes.completeTask dana 10 (Some report) noon auditPending in
  findById User._id 5 (users auditPending) = Some dana /\
  fst result = Failure 500 "Internal error" /\
  List.map Task.status (tasks auditPending) = [Task.pending] /\
  List.map Task.status (tasks (snd result)) = [Task.completed] /\
  submissions (snd result) = [] /\
  files auditPending = [TaskRoutes.path report] /\
  files (snd result) = [].
Proof. cbv zeta. repeat split; reflexivity. Qed.

Lemma existsb_false_filter {A} (p : A -> bool) (l : list A) :
  existsb p l = false -> List.filter p l = [].
Proof.
  induction l as [|x l IH]; simpl; [reflexivity|].
  intros H. apply orb_false_iff in H. destruct H as [Hx Hl].
  rewrite Hx. now apply IH.
Qed.

Lemma create_submission_unique i subs s subs' :
  TaskSubmission.create i subs = Some (s, subs') ->
  uniqueOnTask subs -> uniqueOnTask subs'.
Proof.
  unfold TaskSubmission.create. intros H U.
  repeat match type of H with
         | (if ?b then _ else _) = _ => destruct b eqn:?
         | match ?x with _ => _ end = _ => destruct x eqn:?
         end; try discriminate H.
  inversion H; subst; clear H.
  intros id. unfold submissionsOf, find. rewrite filter_app, length_app. simpl.
  destruct (Nat.eqb (TaskSubmission.i_task i) id) eqn:E; simpl.
  - apply Nat.eqb_eq in E. subst id.
    rewrite existsb_false_filter by assumption. simpl. lia.
  - specialize (U id). unfold submissionsOf, find in U. lia.
Qed.

Lemma unlinkAndRefuse_keeps {D} file f (r : Response D) st :
  succeeded r = false ->
  succeeded (fst (TaskRoutes.unlinkAndRefuse file f r st)) = false /\
  submissions (snd (TaskRoutes.unlinkAndRefuse file f r st)) = submissions st /\
  tasks (snd (TaskRoutes.unlinkAndRefuse file f r st)) = tasks st.
Proof.
  intros Hr. unfold TaskRoutes.unlinkAndRefuse, TaskRoutes.onError.
  destruct (TaskRoutes.unlinkSync (TaskRoutes.path f) (files st)); simpl.
  - now repeat split.
  - destruct file as [g|]; [destruct (TaskRoutes.existsSync _ _)|]; simpl;
      now repeat split.
Qed.

Lemma unlinkAndRefuse_present {D} file f (r : Response D) st :
  TaskRoutes.existsSync (TaskRoutes.path f) (files st) = true ->
  fst (TaskRoutes.unlinkAndRefuse file f r st) = r /\
  TaskRoutes.existsSync (TaskRoutes.path f)
    (files (snd (TaskRoutes.unlinkAndRefuse file f r st))) = false.
Proof.
  intros He. unfold TaskRoutes.unlinkAndRefuse, TaskRoutes.unlinkSync.
  rewrite He. simpl. split; [reflexivity|].
  unfold TaskRoutes.existsSync. clear He.
  induction (files st) as [|q l IH]; simpl; [reflexivity|].
  destruct (String.eqb (TaskRoutes.path f) q) eqn:E; simpl; [exact IH|].
  now rewrite E.
Qed.

(** The refusals that come before the task is saved do leave tasks and
    submissions as they were and remove the uploaded file. *)
Lemma completeTask_client_refusal user id f now st code message st' :
  TaskRoutes.existsSync (TaskRoutes.path f) (files st) = true ->
  TaskRoutes.completeTask user id (Some f) now st = (Failure code message, st') ->
  code <> 500 ->
  tasks st' = tasks st /\ submissions st' = submissions st /\
  TaskRoutes.existsSync (TaskRoutes.path f) (files st') = false.
Proof.
  intros Hdisk H Hcode. unfold TaskRoutes.completeTask in H.
  repeat match type of H with
         | (if ?b then _ else _) = _ => destruct b
         | match ?x with _ => _ end = _ =>
             lazymatch x with
             | TaskRoutes.unlinkAndRefuse _ _ _ _ => fail
             | TaskRoutes.onError _ _ => fail
             | _ => destruct x
             end
         end;
    try discriminate H;
    try (unfold TaskRoutes.onError in H; inversion H; subst; now elim Hcode);
    match type of H with
    | TaskRoutes.unlinkAndRefuse ?a ?b ?r ?s = _ =>
        pose proof (unlinkAndRefuse_keeps a b r s eq_refl) as [_ [K1 K2]];
        pose proof (unlinkAndRefuse_present a b r s Hdisk) as [_ K3];
        rewrite H in K1, K2, K3; simpl in K1, K2, K3; now repeat split
    end.
Qed.

(** Every call of the completion endpoint keeps the submissions unique per
    task. *)
Lemma completeTask_unique user id file now st :
  uniqueOnTask (submissions st) ->
  uniqueOnTask (submissions (snd (TaskRoutes.completeTask user id file now st))).
Proof.
  intros U. unfold TaskRoutes.completeTask.
  repeat match goal with
         | |- context [match ?x with _ => _ end] =>
             lazymatch x with
             | context [match _ with _ => _ end] => fail
             | TaskRoutes.unlinkAndRefuse _ _ _ _ => fail
             | TaskRoutes.onError _ _ => fail
             | _ => destruct x eqn:?
             end
         end; simpl;
    try exact U;
    try match goal with
        | |- context [TaskRoutes.unlinkAndRefuse ?a ?b ?r ?s] =>
            rewrite (proj1 (proj2 (unlinkAndRefuse_keeps a b r s eq_refl))); exact U
        | H : TaskSubmission.create _ _ = Some _ |- _ =>
            eapply create_submission_unique; [exact H | exact U]
        | |- context [TaskRoutes.existsSync ?p ?l] =>
            destruct (TaskRoutes.existsSync p l); exact U
        end.
Qed.

Lemma attemptAll_unique (l : list Attempt) (st : Store) :
  uniqueOnTask (submissions st) ->
  uniqueOnTask (submissions (attemptAll l st)).
Proof.
  revert st. induction l as [|a l IH]; intros st U; simpl; [exact U|].
  apply IH. unfold attempt. now apply completeTask_unique.
Qed.

(** C4: on a task whose status is completed, every further completion
    attempt is refused and leaves tasks and submissions as they were; the
    attempt of the assignee with a valid file is refused with the 400
    "Task is already completed"; and whatever attempts follow, no task
    ever has more than one submission. *)
Theorem second_completion_rejected
  (user : User.t) (id : ObjectId) (file : option TaskRoutes.UploadedFile)
  (now : Date) (st : Store) (task : Task.t) :
  findById Task._id id (tasks st) = Some task ->
  Task.status task = Task.completed ->
  uniqueOnTask (submissions st) ->
  let result := TaskRoutes.completeTask user id file now st in
  succeeded (fst result) = false /\
  submissions (snd result) = submissions st /\
  tasks (snd result) = tasks st /\
  (wellFormedAttempt user task file st ->
   fst result = Failure 400 "Task is already completed") /\
  forall attempts : list Attempt,
    uniqueOnTask (submissions (attemptAll attempts (snd result))).
Proof.
  intros Hfind Hdone U result.
  assert (K : succeeded (fst result) = false /\
              submissions (snd result) = submissions st /\
              tasks (snd result) = tasks st).
  { subst result. unfold TaskRoutes.completeTask. rewrite Hfind.
    destruct (negb (Nat.eqb (Task.assignedTo task) (User._id user))).
    - destruct file as [f|]; [|now repeat split].
      now apply unlinkAndRefuse_keeps.
    - destruct file as [f|]; [|now repeat split].
      destruct (negb _ && negb _); [now apply unlinkAndRefuse_keeps|].
      rewrite Hdone. simpl. now apply unlinkAndRefuse_keeps. }
  destruct K as [K1 [K2 K3]].
  repeat split; try assumption.
  - intros [Hassignee [f [Hfile [Hdisk Hext]]]].
    subst result file. unfold TaskRoutes.completeTask.
    rewrite Hfind, Hassignee, Nat.eqb_refl. simpl.
    assert (X : negb (String.eqb (TaskRoutes.toLowerCase
                        (TaskRoutes.extname (TaskRoutes.originalname f))) ".pdf")
                && negb (String.eqb (TaskRoutes.toLowerCase
                        (TaskRoutes.extname (TaskRoutes.originalname f))) ".csv")
                = false).
    { destruct Hext as [E|E]; rewrite E; reflexivity. }
    rewrite X, Hdone. simpl.
    now apply unlinkAndRefuse_present.
  - intros attempts. apply attemptAll_unique. rewrite K2. exact U.
Qed.

Lemma surveyDone_unique : uniqueOnTask (submissions surveyDone).
Proof.
  intros id. unfold submissionsOf, find, surveyDone. cbn -[Nat.eqb].
  destruct (Nat.eqb _ id); cbn; lia.
Qed.

Lemma surveyDone_wellFormed : wellFormedAttempt eve survey (Some report) surveyDone.
Proof.
  split; [reflexivity|]. exists report.
  split; [reflexivity|]. split; [reflexivity|]. left. reflexivity.
Qed.

(** Eve uploads a second file for the survey she already completed. *)
Lemma second_completion_rejected_witness :
  let result := TaskRoutes.completeTask eve 11 (Some report) noon surveyDone in
  succeeded (fst result) = false /\
  submissions (snd result) = [surveySubmission] /\
  tasks (snd result) = [survey] /\
  (wellFormedAttempt eve survey (Some report) surveyDone ->
   fst result = Failure 400 "Task is already completed") /\
  forall attempts : list Attempt,
    uniqueOnTask (submissions (attemptAll attempts (snd result))).
Proof.
  exact (second_completion_rejected eve 11 (Some report) noon surveyDone
           (task := survey) eq_refl eq_refl surveyDone_unique).
Defined.

(** ** Requests *)

Lemma createNotification_requests userId message type related st :
  requests (snd (NotificationService.createNotification userId message type related st))
    = requests st.
Proof.
  unfold NotificationService.createNotification.
  now destruct (_ || _ || _).
Qed.

Lemma onLeaveApproved_requests employeeId now st :
  requests (snd (PerformanceService.onLeaveApproved employeeId now st)) = requests st.
Proof.
  unfold PerformanceService.onLeaveApproved, PerformanceService.getOrCreatePerformance.
  repeat match goal with
         | |- context [match ?x with _ => _ end] =>
             lazymatch x with
             | context [match _ with _ => _ end] => fail
             | _ => destruct x
             end
         end; reflexivity.
Qed.

Lemma mayDecide_spec (user : User.t) (request : Request.t) :
  mayDecide user request <->
  String.eqb (roleName (User.role user)) "employee" = false /\
  includes "_head" (roleName (User.role user))
  && negb (optDepartment_eqb (Some (Request.department request))
             (getDepartmentFromRole (roleName (User.role user)))) = false.
Proof.
  unfold mayDecide, isHead, boundDepartment.
  destruct (User.role user), (Request.department request); cbv;
    (split; [intros [L D]; split; try reflexivity; try discriminate;
               try (specialize (D eq_refl); discriminate D)
            | intros [A B]; split; try reflexivity; try discriminate;
               intros; try reflexivity; discriminate]).
Qed.

Lemma status_not_pending (request : Request.t) :
  negb (String.eqb (Request.statusName (Request.status request)) "pending") = true
  <-> Request.status request <> Request.pending.
Proof.
  destruct (Request.status request); cbv; split; intro H;
    try reflexivity; try discriminate; try congruence.
Qed.

Lemma approveRequest_outcome user id now st request :
  findById Request._id id (requests st) = Some request ->
  let a := RequestWorkflow.approveRequest user id now st in
  let decided :=
    Request.mk (Request._id request) (Request.type request)
      (Request.description request) Request.approved
      (Request.createdBy request) (Request.department request)
      (Some (User._id user)) (Some now) (Request.rejectionReason request) in
  (succeeded (fst a) = true ->
   Request.status request = Request.pending /\ mayDecide user request /\
   RequestWorkflow.populateCreatedBy request st <> None /\
   fst a = Success 200 decided /\
   findById Request._id id (requests (snd a)) = Some decided) /\
  (findById Request._id id (requests (snd a)) = Some request \/
   (Request.status request = Request.pending /\ mayDecide user request /\
    findById Request._id id (requests (snd a)) = Some decided)) /\
  (succeeded (fst a) = false ->
   RequestWorkflow.populateCreatedBy request st <> None -> snd a = st) /\
  (Request.status request <> Request.pending ->
   succeeded (fst a) = false /\ snd a = st /\
   (mayDecide user request ->
    fst a = Failure 400
              ("Request is already " ++ Request.statusName (Request.status request))%string)) /\
  (Request.status request = Request.pending -> mayDecide user request ->
   RequestWorkflow.populateCreatedBy request st <> None ->
   fst a = Success 200 decided).
Proof.
  intros Hfind a decided. subst a. unfold RequestWorkflow.approveRequest. rewrite Hfind.
  pose proof (mayDecide_spec user request) as M.
  destruct (String.eqb (roleName (User.role user)) "employee") eqn:E1.
  { cbn [fst snd succeeded].
    assert (Nd : ~ mayDecide user request)
      by (intros D; apply M in D; destruct D; congruence).
    split; [intros X; discriminate X|].
    split; [now left|]. split; [reflexivity|].
    split; [intros _; split; [reflexivity|]; split; [reflexivity|];
            intros D; now elim Nd|].
    intros _ D. now elim Nd. }
  destruct (includes "_head" (roleName (User.role user)) && negb _) eqn:E2.
  { cbn [fst snd succeeded].
    assert (Nd : ~ mayDecide user request)
      by (intros D; apply M in D; destruct D; congruence).
    split; [intros X; discriminate X|].
    split; [now left|]. split; [reflexivity|].
    split; [intros _; split; [reflexivity|]; split; [reflexivity|];
            intros D; now elim Nd|].
    intros _ D. now elim Nd. }
  assert (D : mayDecide user request) by (apply M; now split).
  destruct (negb (String.eqb (Request.statusName (Request.status request)) "pending"))
    eqn:E3.
  { assert (Np : Request.status request <> Request.pending)
      by (intros X; rewrite X in E3; discriminate E3).
    cbn [fst snd succeeded].
    split; [intros X; discriminate X|].
    split; [now left|]. split; [reflexivity|].
    split; [intros _; split; [reflexivity|]; split; reflexivity|].
    intros X. now elim Np. }
  assert (P : Request.status request = Request.pending).
  { destruct (Request.status request); try reflexivity; discriminate E3. }
  pose proof (findById_Some _ _ _ Hfind) as [_ Hid].
  fold decided.
  assert (Fs : findById Request._id id (requests (RequestWorkflow.saveRequest decided st))
               = Some decided).
  { unfold RequestWorkflow.saveRequest. simpl.
    now apply findById_save with (x := request). }
  destruct (RequestWorkflow.populateCreatedBy request st) as [creator|] eqn:C.
  2:{ cbn [fst snd succeeded].
      split; [intros X; discriminate X|].
      split; [right; split; [exact P|]; split; [exact D | exact Fs]|].
      split; [intros _ X; now elim X|].
      split; [intros X; now elim X|].
      intros _ _ X. now elim X. }
  match goal with
  | |- context [NotificationService.notifyRequestApproved ?u ?k ?i ?n ?s] =>
      pose proof (createNotification_requests u
                    ("Your " ++ k ++ " request has been approved by " ++ n ++ ".")%string
                    "request_approved" (Some ("request", i)) s) as N;
      unfold NotificationService.notifyRequestApproved;
      destruct (NotificationService.createNotification u
                  ("Your " ++ k ++ " request has been approved by " ++ n ++ ".")%string
                  "request_approved" (Some ("request", i)) s) as [o st1]
  end.
  simpl in N.
  set (stf := if String.eqb _ "leave" then _ else st1).
  assert (F : findById Request._id id (requests stf) = Some decided).
  { subst stf.
    destruct (String.eqb _ "leave"); [rewrite onLeaveApproved_requests|];
      rewrite N; exact Fs. }
  change (Request._id decided) with (Request._id request).
  rewrite Hid, F. cbn [fst snd succeeded].
  split; [intros _; split; [exact P|]; split; [exact D|];
          split; [discriminate|]; split; [reflexivity | exact F]|].
  split; [right; split; [exact P|]; split; [exact D | exact F]|].
  split; [intros X; discriminate X|].
  split; [intros X; now elim X|].
  intros _ _ _. reflexivity.
Qed.

Lemma rejectRequest_outcome user id reason now st request :
  findById Request._id id (requests st) = Some request ->
  let r := RequestWorkflow.rejectRequest user id reason now st in
  let decided :=
    Request.mk (Request._id request) (Request.type request)
      (Request.description request) Request.rejected
      (Request.createdBy request) (Request.department request)
      (Some (User._id user)) (Some now) (Some (trim (orElse reason ""))) in
  (succeeded (fst r) = true ->
   Request.status request = Request.pending /\ mayDecide user request /\
   RequestWorkflow.populateCreatedBy request st <> None /\
   String.length (trim (orElse reason "")) <= 500 /\
   fst r = Success 200 decided /\
   findById Request._id id (requests (snd r)) = Some decided) /\
  (findById Request._id id (requests (snd r)) = Some request \/
   (Request.status request = Request.pending /\ mayDecide user request /\
    findById Request._id id (requests (snd r)) = Some decided)) /\
  (succeeded (fst r) = false ->
   RequestWorkflow.populateCreatedBy request st <> None -> snd r = st) /\
  (Request.status request <> Request.pending ->
   succeeded (fst r) = false /\ snd r = st /\
   (mayDecide user request ->
    fst r = Failure 400
              ("Request is already " ++ Request.statusName (Request.status request))%string)) /\
  (Request.status request = Request.pending -> mayDecide user request ->
   RequestWorkflow.populateCreatedBy request st <> None ->
   String.length (trim (orElse reason "")) <= 500 ->
   fst r = Success 200 decided).
Proof.
  intros Hfind r decided. subst r. unfold RequestWorkflow.rejectRequest. rewrite Hfind.
  pose proof (mayDecide_spec user request) as M.
  destruct (String.eqb (roleName (User.role user)) "employee") eqn:E1.
  { cbn [fst snd succeeded].
    assert (Nd : ~ mayDecide user request)
      by (intros D; apply M in D; destruct D; congruence).
    split; [intros X; discriminate X|].
    split; [now left|]. split; [reflexivity|].
    split; [intros _; split; [reflexivity|]; split; [reflexivity|];
            intros D; now elim Nd|].
    intros _ D. now elim Nd. }
  destruct (includes "_head" (roleName (User.role user)) && negb _) eqn:E2.
  { cbn [fst snd succeeded].
    assert (Nd : ~ mayDecide user request)
      by (intros D; apply M in D; destruct D; congruence).
    split; [intros X; discriminate X|].
    split; [now left|]. split; [reflexivity|].
    split; [intros _; split; [reflexivity|]; split; [reflexivity|];
            intros D; now elim Nd|].
    intros _ D. now elim Nd. }
  assert (D : mayDecide user request) by (apply M; now split).
  destruct (negb (String.eqb (Request.statusName (Request.status request)) "pending"))
    eqn:E3.
  { assert (Np : Request.status request <> Request.pending)
      by (intros X; rewrite X in E3; discriminate E3).
    cbn [fst snd succeeded].
    split; [intros X; discriminate X|].
    split; [now left|]. split; [reflexivity|].
    split; [intros _; split; [reflexivity|]; split; reflexivity|].
    intros X. now elim Np. }
  assert (P : Request.status request = Request.pending).
  { destruct (Request.status request); try reflexivity; discriminate E3. }
  cbv zeta.
  destruct (Nat.ltb 500 (String.length (trim (orElse reason "")))) eqn:Len.
  { apply Nat.ltb_lt in Len. cbn [fst snd succeeded].
    split; [intros X; discriminate X|].
    split; [now left|]. split; [reflexivity|].
    split; [intros X; now elim X|].
    intros _ _ _ X. lia. }
  apply Nat.ltb_ge in Len.
  pose proof (findById_Some _ _ _ Hfind) as [_ Hid].
  fold decided.
  assert (Fs : findById Request._id id (requests (RequestWorkflow.saveRequest decided st))
               = Some decided).
  { unfold RequestWorkflow.saveRequest. simpl.
    now apply findById_save with (x := request). }
  destruct (RequestWorkflow.populateCreatedBy request st) as [creator|] eqn:C.
  2:{ cbn [fst snd succeeded].
      split; [intros X; discriminate X|].
      split; [right; split; [exact P|]; split; [exact D | exact Fs]|].
      split; [intros _ X; now elim X|].
      split; [intros X; now elim X|].
      intros _ _ X. now elim X. }
  unfold NotificationService.notifyRequestRejected.
  match goal with
  | |- context [NotificationService.createNotification ?u ?m ?k ?e ?s] =>
      pose proof (createNotification_requests u m k e s) as N;
      destruct (NotificationService.createNotification u m k e s) as [o st1]
  end.
  simpl in N.
  assert (F : findById Request._id id (requests st1) = Some decided).
  { rewrite N. exact Fs. }
  change (Request._id decided) with (Request._id request).
  rewrite Hid, F. cbn [fst snd succeeded].
  split; [intros _; split; [exact P|]; split; [exact D|];
          split; [discriminate|]; split; [exact Len|];
          split; [reflexivity | exact F]|].
  split; [right; split; [exact P|]; split; [exact D | exact F]|].
  split; [intros X; discriminate X|].
  split; [intros X; now elim X|].
  intros _ _ _ _. reflexivity.
Qed.

(** C5: the stored status of a request changes only by an approve or
    reject call on a pending request by an actor above the employee level
    who, as a department head, is bound to the request's department, and
    then to approved, respectively rejected; a call that succeeds is such
    a call.  On a request that is approved or rejected every approve or
    reject call is refused and leaves the store as it was, and for an
    actor who may decide the refusal is the 400 "Request is already ...".
    A refused call on a request whose creator is still stored leaves the
    store as it was. *)
Theorem request_transitions_only_from_pending
  (user : User.t) (id : ObjectId) (reason : option string) (now : Date)
  (st : Store) (request : Request.t) :
  findById Request._id id (requests st) = Some request ->
  let a := RequestWorkflow.approveRequest user id now st in
  let r := RequestWorkflow.rejectRequest user id reason now st in
  (succeeded (fst a) = true ->
   Request.status request = Request.pending /\ mayDecide user request /\
   exists q, findById Request._id id (requests (snd a)) = Some q /\
             Request.status q = Request.approved) /\
  (succeeded (fst r) = true ->
   Request.status request = Request.pending /\ mayDecide user request /\
   exists q, findById Request._id id (requests (snd r)) = Some q /\
             Request.status q = Request.rejected) /\
  (exists q, findById Request._id id (requests (snd a)) = Some q /\
     (Request.status q <> Request.status request ->
      Request.status request = Request.pending /\ mayDecide user request /\
      Request.status q = Request.approved)) /\
  (exists q, findById Request._id id (requests (snd r)) = Some q /\
     (Request.status q <> Request.status request ->
      Request.status request = Request.pending /\ mayDecide user request /\
      Request.status q = Request.rejected)) /\
  (succeeded (fst a) = false ->
   RequestWorkflow.populateCreatedBy request st <> None -> snd a = st) /\
  (succeeded (fst r) = false ->
   RequestWorkflow.populateCreatedBy request st <> None -> snd r = st) /\
  (Request.status request <> Request.pending ->
   succeeded (fst a) = false /\ snd a = st /\
   succeeded (fst r) = false /\ snd r = st /\
   (mayDecide user request ->
    fst a = Failure 400
              ("Request is already " ++ Request.statusName (Request.status request))%string /\
    fst r = Failure 400
              ("Request is already " ++ Request.statusName (Request.status request))%string)).
Proof.
  intros Hfind a r.
  destruct (approveRequest_outcome user id now st Hfind) as [A1 [A2 [A3 [A4 _]]]].
  destruct (rejectRequest_outcome user id reason now st Hfind) as [R1 [R2 [R3 [R4 _]]]].
  fold a in A1, A2, A3, A4. fold r in R1, R2, R3, R4.
  split; [|split; [|split; [|split; [|split; [exact A3|split; [exact R3|]]]]]].
  - intros S. destruct (A1 S) as [P [D [_ [_ F]]]].
    split; [exact P|]. split; [exact D|].
    eexists. split; [exact F | reflexivity].
  - intros S. destruct (R1 S) as [P [D [_ [_ [_ F]]]]].
    split; [exact P|]. split; [exact D|].
    eexists. split; [exact F | reflexivity].
  - destruct A2 as [F|[P [D F]]].
    + exists request. split; [exact F|]. intros X. now elim X.
    + eexists. split; [exact F|]. intros _.
      split; [exact P|]. split; [exact D | reflexivity].
  - destruct R2 as [F|[P [D F]]].
    + exists request. split; [exact F|]. intros X. now elim X.
    + eexists. split; [exact F|]. intros _.
      split; [exact P|]. split; [exact D | reflexivity].
  - intros Hn. destruct (A4 Hn) as [Af [As Am]]. destruct (R4 Hn) as [Rf [Rs Rm]].
    split; [exact Af|]. split; [exact As|].
    split; [exact Rf|]. split; [exact Rs|].
    intros D. split; [exact (Am D) | exact (Rm D)].
Qed.

(** The technical head approves Eve's pending leave request; the founder's
    later rejection of the approved request is refused and changes
    nothing. *)
Lemma request_transitions_only_from_pending_witness :
  (Request.status leaveRequest = Request.pending /\ mayDecide tara leaveRequest /\
   exists q,
     findById Request._id 20
       (requests (snd (RequestWorkflow.approveRequest tara 20 noon leavePending)))
       = Some q /\
     Request.status q = Request.approved)
  /\
  (RequestWorkflow.rejectRequest alice 20 (Some "Too late") noon leaveApproved
   = (Failure 400 "Request is already approved", leaveApproved)).
Proof.
  split.
  - apply (proj1 (@request_transitions_only_from_pending tara 20 None noon
                    leavePending leaveRequest eq_refl)).
    reflexivity.
  - pose proof (proj2 (proj2 (proj2 (proj2 (proj2 (proj2
        (@request_transitions_only_from_pending alice 20 (Some "Too late") noon
           leaveApproved leaveRequestApproved eq_refl))))))) as T.
    cbv zeta in T.
    assert (Hn : Request.status leaveRequestApproved <> Request.pending)
      by discriminate.
    destruct (T Hn) as [_ [_ [_ [S M]]]].
    assert (D : mayDecide alice leaveRequestApproved)
      by (split; [reflexivity | discriminate]).
    destruct (M D) as [_ R].
    rewrite (surjective_pairing (RequestWorkflow.rejectRequest _ _ _ _ _)).
    rewrite R, S. reflexivity.
Defined.

(** ** Performance scores *)

Section SaveFacts.
Variable Doc : Type.
Variable docId : Doc -> ObjectId.
Variable P : Doc -> Prop.

Lemma save_Forall (d : Doc) (c : list Doc) :
  Forall P c -> P d -> Forall P (save docId d c).
Proof.
  intros Hc Hd. unfold save. apply Forall_forall. intros x Hx.
  apply in_map_iff in Hx. destruct Hx as [y [Hy Hin]].
  destruct (Nat.eqb (docId y) (docId d)); subst x; [exact Hd|].
  eapply Forall_forall; eassumption.
Qed.

Lemma save_In (d x : Doc) (c : list Doc) :
  In x (save docId d c) -> x = d \/ In x c.
Proof.
  unfold save. intros Hx. apply in_map_iff in Hx. destruct Hx as [y [Hy Hin]].
  destruct (Nat.eqb (docId y) (docId d)); subst x; [now left | now right].
Qed.
End SaveFacts.

Lemma getOrCreatePerformance_consistent employeeId month year department st p st1 :
  PerformanceService.getOrCreatePerformance employeeId month year department st
    = Some (p, st1) ->
  Forall scoreConsistent (performances st) ->
  Forall scoreConsistent (performances st1) /\ scoreConsistent p.
Proof.
  unfold PerformanceService.getOrCreatePerformance. intros H C.
  destruct (findOne _ (performances st)) as [q|] eqn:F.
  - inversion H; subst. split; [exact C|].
    apply find_some in F. destruct F as [Hin _].
    eapply Forall_forall; eassumption.
  - destruct (_ || _); [discriminate|]. inversion H; subst. simpl.
    split; [|reflexivity].
    apply Forall_app. split; [exact C|]. constructor; [reflexivity | constructor].
Qed.

Lemma handle_consistent (e : Event) (st : Store) :
  Forall scoreConsistent (performances st) ->
  Forall scoreConsistent (performances (handle e st)).
Proof.
  intros C. destruct e as [employeeId taskId now | employeeId loginTime | employeeId now];
    simpl.
  - unfold PerformanceService.onTaskCompleted.
    destruct (findById _ _ _) as [u|]; [|exact C].
    destruct (User.department u) as [d|]; [|exact C].
    destruct (PerformanceService.getOrCreatePerformance _ _ _ _ _) as [[p st1]|] eqn:G;
      [|exact C].
    destruct (getOrCreatePerformance_consistent _ _ _ _ _ G C) as [C1 _].
    simpl. apply save_Forall; [exact C1 | reflexivity].
  - unfold PerformanceService.onLateLogin.
    destruct (negb _); [exact C|].
    destruct (findById _ _ _) as [u|]; [|exact C].
    destruct (User.department u) as [d|]; [|exact C].
    destruct (PerformanceService.getOrCreatePerformance _ _ _ _ _) as [[p st1]|] eqn:G;
      [|exact C].
    destruct (getOrCreatePerformance_consistent _ _ _ _ _ G C) as [C1 _].
    simpl. apply save_Forall; [exact C1 | reflexivity].
  - unfold PerformanceService.onLeaveApproved.
    destruct (findById _ _ _) as [u|]; [|exact C].
    destruct (User.department u) as [d|]; [|exact C].
    destruct (PerformanceService.getOrCreatePerformance _ _ _ _ _) as [[p st1]|] eqn:G;
      [|exact C].
    destruct (getOrCreatePerformance_consistent _ _ _ _ _ G C) as [C1 Cp].
    simpl. apply save_Forall; [exact C1 | exact Cp].
Qed.

(** C6: starting from buckets whose total is the sum of the two breakdown
    fields (a bucket created at zero is one), the total of every bucket is
    that sum after any sequence of [onTaskCompleted], [onLateLogin] and
    [onLeaveApproved] calls; and the record that [onTaskCompleted] or
    [onLateLogin] writes has its total computed from the two fields,
    whatever was stored before. *)
Theorem totalScore_never_drifts (events : list Event) (st : Store) :
  Forall scoreConsistent (performances st) ->
  Forall scoreConsistent (performances (replay events st)) /\
  (forall employeeId taskId now s p,
     fst (PerformanceService.onTaskCompleted employeeId taskId now s) = Some p ->
     scoreConsistent p) /\
  (forall employeeId loginTime s p,
     fst (PerformanceService.onLateLogin employeeId loginTime s) = Some p ->
     scoreConsistent p).
Proof.
  intros C. split; [|split].
  - revert st C. induction events as [|e l IH]; intros st C; simpl; [exact C|].
    apply IH. now apply handle_consistent.
  - intros employeeId taskId now s p. unfold PerformanceService.onTaskCompleted.
    destruct (findById _ _ _) as [u|]; [|discriminate].
    destruct (User.department u) as [d|]; [|discriminate].
    destruct (PerformanceService.getOrCreatePerformance _ _ _ _ _) as [[q st1]|];
      [|discriminate].
    simpl. intros H. inversion H; subst. reflexivity.
  - intros employeeId loginTime s p. unfold PerformanceService.onLateLogin.
    destruct (negb _); [discriminate|].
    destruct (findById _ _ _) as [u|]; [|discriminate].
    destruct (User.department u) as [d|]; [|discriminate].
    destruct (PerformanceService.getOrCreatePerformance _ _ _ _ _) as [[q st1]|];
      [|discriminate].
    simpl. intros H. inversion H; subst. reflexivity.
Qed.

(** January 2025 for Eve: two completed tasks, one late login, one leave. *)
Lemma totalScore_never_drifts_witness :
  Forall scoreConsistent
    (performances
       (replay [TaskCompleted 4 10 noon; LateLogin 4 quarterToTen;
                LeaveApproved 4 noon; TaskCompleted 4 11 noon] januaryStart)).
Proof.
  apply (totalScore_never_drifts
           [TaskCompleted 4 10 noon; LateLogin 4 quarterToTen;
            LeaveApproved 4 noon; TaskCompleted 4 11 noon] januaryStart).
  repeat constructor.
Defined.

Lemma isLateLogin_after_0930 (t : Date) :
  PerformanceService.isLateLogin t = true <-> (570 < minuteOfDay t)%Z.
Proof.
  unfold PerformanceService.isLateLogin, PerformanceService.isLateLoginAt,
    PerformanceService.LATE_LOGIN_THRESHOLD_HOUR,
    PerformanceService.LATE_LOGIN_THRESHOLD_MINUTE, minuteOfDay.
  assert (M : (0 <= getMinutes t < 60)%Z)
    by (unfold getMinutes; apply Z.mod_pos_bound; lia).
  destruct (Z.gtb_spec (getHours t) 9) as [H|H]; [split; [lia | reflexivity]|].
  destruct (Z.eqb_spec (getHours t) 9) as [E|E]; cbn [andb].
  - destruct (Z.gtb_spec (getMinutes t) 30); split; intros; try lia;
      try reflexivity; try congruence.
  - split; [congruence | lia].
Qed.

Lemma minuteOfDay_seconds (t : Date) :
  minuteOfDay t = ((secondOfDay t mod 86400) / 60)%Z.
Proof.
  unfold minuteOfDay, getHours, getMinutes.
  set (s := (secondOfDay t mod 86400)%Z).
  replace 3600%Z with (60 * 60)%Z by reflexivity.
  rewrite <- Z.div_div by lia.
  pose proof (Z.div_mod (s / 60) 60). lia.
Qed.

Lemma findOne_save_same (p p' : Performance.t) (c : list Performance.t)
  (test : Performance.t -> bool) :
  findOne test c = Some p -> Performance._id p' = Performance._id p ->
  test p' = true ->
  findOne test (save Performance._id p' c) = Some p'.
Proof.
  unfold findOne, save. intros F I T.
  induction c as [|x c IH]; simpl in *; [discriminate|].
  destruct (Nat.eqb (Performance._id x) (Performance._id p')) eqn:E.
  - now rewrite T.
  - destruct (test x) eqn:Tx.
    + inversion F; subst x. rewrite I, Nat.eqb_refl in E. discriminate.
    + now apply IH.
Qed.

Lemma findOne_app_new {A} (test : A -> bool) (c : list A) (x : A) :
  findOne test c = None -> test x = true -> findOne test (c ++ [x]) = Some x.
Proof.
  unfold findOne. intros F T.
  induction c as [|y c IH]; simpl in *; [now rewrite T|].
  destruct (test y); [discriminate|]. now apply IH.
Qed.

Lemma save_In_new (d z x : Performance.t) (c : list Performance.t) :
  Performance._id z = Performance._id d ->
  In x (save Performance._id d (c ++ [z])) -> x = d \/ In x c.
Proof.
  unfold save. intros I Hx. apply in_map_iff in Hx. destruct Hx as [y [Hy Hin]].
  apply in_app_or in Hin. destruct Hin as [Hin|[Hz|[]]].
  - destruct (Nat.eqb _ _); subst x; [now left | now right].
  - subst y. rewrite I, Nat.eqb_refl in Hy. now left.
Qed.

Lemma sameBucket_true employeeId month year p :
  PerformanceService.sameBucket employeeId month year p = true <->
  Performance.employeeId p = employeeId /\ Performance.month p = month /\
  Performance.year p = year.
Proof.
  unfold PerformanceService.sameBucket.
  rewrite !andb_true_iff, Nat.eqb_eq, !Z.eqb_eq. tauto.
Qed.

(** C7: for an employee who is found and has a department, [onLateLogin]
    adds 1 to [lateLogins] and -5 to [lateLoginPenalty] when the clock
    reading of the login is after 09:30, and leaves the store as it was
    when the reading is 09:30 or earlier; the bucket it writes is the one
    of the login timestamp's own month and year, and no other bucket is
    modified. *)
Theorem onLateLogin_penalises_after_0930
  (employeeId : ObjectId) (loginTime : Date) (st : Store)
  (user : User.t) (department : Department) :
  findById User._id employeeId (users st) = Some user ->
  User.department user = Some department ->
  let month := (getMonth loginTime + 1)%Z in
  let year := getFullYear loginTime in
  let before := bucket employeeId month year st in
  let result := PerformanceService.onLateLogin employeeId loginTime st in
  ((570 < minuteOfDay loginTime)%Z ->
   exists p,
     fst result = Some p /\
     bucket employeeId month year (snd result) = Some p /\
     Performance.employeeId p = employeeId /\
     Performance.month p = month /\ Performance.year p = year /\
     Performance.lateLogins p = (lateLoginsOf before + 1)%Z /\
     Performance.lateLoginPenalty (Performance.scoreBreakdown p)
       = (lateLoginPenaltyOf before + -5)%Z /\
     Performance.taskPoints (Performance.scoreBreakdown p) = taskPointsOf before /\
     Performance.totalScore p = (taskPointsOf before + (lateLoginPenaltyOf before + -5))%Z /\
     forall q, In q (performances (snd result)) -> q = p \/ In q (performances st))
  /\
  ((minuteOfDay loginTime <= 570)%Z -> result = (None, st)).
Proof.
  intros Hfind Hdept month year before result. split.
  - intros Hlate. apply isLateLogin_after_0930 in Hlate.
    subst result. unfold PerformanceService.onLateLogin.
    rewrite Hlate, Hfind, Hdept. cbn [negb].
    unfold PerformanceService.getOrCreatePerformance.
    fold month. fold year.
    change (findOne (PerformanceService.sameBucket employeeId month year) (performances st))
      with before.
    destruct before as [p0|] eqn:B.
    + pose proof B as K. apply find_some in K. destruct K as [_ K].
      apply sameBucket_true in K. destruct K as [K1 [K2 K3]].
      eexists. split; [reflexivity|]. cbn [fst snd].
      split.
      { unfold bucket, PerformanceService.savePerformance. simpl.
        apply findOne_save_same with (p := p0); [exact B | reflexivity |].
        apply sameBucket_true. simpl. now repeat split. }
      simpl. repeat split; try assumption; try reflexivity.
      intros q Hq. now apply save_In in Hq.
    + assert (V : (month <? 1)%Z || (12 <? month)%Z = false).
      { subst month. unfold getMonth.
        pose proof (Z.mod_pos_bound (monthIndex loginTime) 12).
        apply orb_false_iff. split; apply Z.ltb_ge; lia. }
      rewrite V.
      eexists. split; [reflexivity|]. cbn [fst snd].
      split.
      { unfold bucket, PerformanceService.savePerformance. simpl.
        eapply findOne_save_same;
          [apply findOne_app_new; [exact B|] | reflexivity |];
          apply sameBucket_true; simpl; now repeat split. }
      simpl. repeat split; try reflexivity.
      intros q Hq. now apply save_In_new in Hq.
  - intros Hearly. subst result. unfold PerformanceService.onLateLogin.
    destruct (PerformanceService.isLateLogin loginTime) eqn:L; [|reflexivity].
    apply isLateLogin_after_0930 in L. lia.
Qed.

(** Eve logs in at 09:45 on 31 January 2025: her January bucket gets one
    late login and a penalty of -5.  A login at 09:30:59 changes nothing. *)
Lemma onLateLogin_penalises_after_0930_witness :
  (exists p,
     fst (PerformanceService.onLateLogin 4 quarterToTen januaryStart) = Some p /\
     bucket 4 1 2025 (snd (PerformanceService.onLateLogin 4 quarterToTen januaryStart))
       = Some p /\
     Performance.lateLogins p = 1%Z /\
     Performance.lateLoginPenalty (Performance.scoreBreakdown p) = (-5)%Z /\
     Performance.totalScore p = (-5)%Z)
  /\
  PerformanceService.onLateLogin 4 halfPastNine januaryStart = (None, januaryStart).
Proof.
  split.
  - destruct (proj1 (@onLateLogin_penalises_after_0930 4 quarterToTen januaryStart
                       eve technical eq_refl eq_refl) eq_refl)
      as [p [H1 [H2 [_ [_ [_ [H3 [H4 [_ [H5 _]]]]]]]]]].
    exists p. repeat split; assumption.
  - apply (proj2 (@onLateLogin_penalises_after_0930 4 halfPastNine januaryStart
                    eve technical eq_refl eq_refl)).
    vm_compute. discriminate.
Defined.

(** The rules of the accumulator on the January bucket: two completed
    tasks, one late login and one approved leave give 2, 1, 1 and a total
    of 15. *)
Example january_replay :
  List.map (fun p => (Performance.tasksCompleted p, Performance.lateLogins p,
                      Performance.approvedLeaves p, Performance.totalScore p))
    (performances
       (replay [TaskCompleted 4 10 noon; LateLogin 4 quarterToTen;
                LeaveApproved 4 noon; TaskCompleted 4 11 noon] januaryStart))
  = [(2, 1, 1, 15)%Z].
Proof. reflexivity. Qed.

(** ** Role change audit log *)

(** C9: when the old role equals the new role, [logRoleChange] returns
    [null] to its caller and leaves the store, and so the audit log and
    the notifications, exactly as they were. *)
Theorem logRoleChange_same_role_noop (p : RoleChangeService.Params) (now : Date)
  (st : Store) :
  RoleChangeService.oldRole p = RoleChangeService.newRole p ->
  RoleChangeService.logRoleChange p now st = (None, st) /\
  roleChangeLogs (snd (RoleChangeService.logRoleChange p now st)) = roleChangeLogs st /\
  notifications (snd (RoleChangeService.logRoleChange p now st)) = notifications st.
Proof.
  intros H. unfold RoleChangeService.logRoleChange.
  rewrite H, String.eqb_refl. now repeat split.
Qed.

Lemma logRoleChange_same_role_noop_witness :
  RoleChangeService.logRoleChange
    (RoleChangeService.mkParams 4 "employee" "employee" 1 (Some "Alice") None None None)
    noon staff = (None, staff).
Proof.
  apply (@logRoleChange_same_role_noop
           (RoleChangeService.mkParams 4 "employee" "employee" 1 (Some "Alice")
              None None None) noon staff).
  reflexivity.
Defined.

(** A change of role, for comparison, writes one log entry and one
    notification. *)
Example logRoleChange_writes_entry :
  let st := snd (RoleChangeService.logRoleChange
                   (RoleChangeService.mkParams 4 "employee" "technical_head" 1
                      (Some "Alice") None None None) noon staff) in
  List.length (roleChangeLogs st) = 1 /\ List.length (notifications st) = 1.
Proof. cbv zeta. split; reflexivity. Qed.

(** ** Salaries *)

(** C10: an actor who is neither founder nor co-founder is refused by
    [createSalary] and by [updateSalary] with 403 and the store is left as
    it was, whatever the target; [canAssignSalary] is false for such an
    actor against every target role. *)
Theorem salary_mutation_top_two_only
  (user : User.t) (create : SalaryController.CreateBody)
  (id : ObjectId) (update : SalaryController.UpdateBody) (st : Store) :
  User.role user <> founder -> User.role user <> co_founder ->
  SalaryController.createSalary user create st
    = (Failure 403 "Only Founder and Co-Founder can create salary records", st) /\
  SalaryController.updateSalary user id update st
    = (Failure 403 "Only Founder and Co-Founder can update salary records", st) /\
  forall targetRole, canAssignSalary (roleName (User.role user)) targetRole = false.
Proof.
  intros F C.
  unfold SalaryController.createSalary, SalaryController.updateSalary, canAssignSalary.
  destruct (User.role user); try (now elim F); try (now elim C);
    now repeat split.
Qed.

(** The technical head outranks Eve, an employee of her own department,
    and still can neither create nor update Eve's salary. *)
Lemma salary_mutation_top_two_only_witness :
  canViewRole (roleName (User.role tara)) (roleName (User.role eve)) = true /\
  SalaryController.createSalary tara
    (SalaryController.mkCreateBody (Some 4) (Some 2%Z) (Some 2025%Z)
       (Some (Js.Number 1000)) None None)
    payroll
    = (Failure 403 "Only Founder and Co-Founder can create salary records", payroll) /\
  SalaryController.updateSalary tara 30
    (SalaryController.mkUpdateBody (Some 2000%Z) None None None None None None) payroll
    = (Failure 403 "Only Founder and Co-Founder can update salary records", payroll).
Proof.
  split; [reflexivity|].
  destruct (@salary_mutation_top_two_only tara
              (SalaryController.mkCreateBody (Some 4) (Some 2%Z) (Some 2025%Z)
                 (Some (Js.Number 1000)) None None)
              30
              (SalaryController.mkUpdateBody (Some 2000%Z) None None None None None None)
              payroll) as [H1 [H2 _]]; try discriminate.
  split; assumption.
Defined.

(** What a successful [createSalary] has gone through. *)
Lemma createSalary_inv user b st c s st' :
  SalaryController.createSalary user b st = (Success c s, st') ->
  exists target m y basicValue basic allowances deductions net,
    SalaryController.userId b = Some (User._id target) /\
    findById User._id (User._id target) (users st) = Some target /\
    negb (String.eqb (roleName (User.role user)) "founder")
    && negb (String.eqb (roleName (User.role user)) "co-founder") = false /\
    (level (User.role target) < level (User.role user))%Z /\
    SalaryController.month b = Some m /\ SalaryController.year b = Some y /\
    findOne (SalaryController.sameSalaryKey (User._id target) m y) (salaries st) = None /\
    SalaryController.basicSalary b = Some basicValue /\
    Js.castNumber basicValue = Some (Some basic) /\
    Js.castNumber (Js.orZero (SalaryController.allowances b)) = Some (Some allowances) /\
    Js.castNumber (Js.orZero (SalaryController.deductions b)) = Some (Some deductions) /\
    Js.castNumber (Js.sub (Js.add basicValue (Js.orZero (SalaryController.allowances b)))
                     (Js.orZero (SalaryController.deductions b))) = Some (Some net) /\
    s = Salary.mk (freshId Salary._id (salaries st)) (User._id target) m y basic
          allowances deductions net
          (match User.department target with
           | Some d => departmentName d
           | None => "management"
           end) "pending" /\
    c = 201 /\ st' = setSalaries (salaries st ++ [s]) st.
Proof.
  unfold SalaryController.createSalary. intros H.
  destruct (negb (String.eqb (roleName (User.role user)) "founder")
            && negb (String.eqb (roleName (User.role user)) "co-founder")) eqn:G;
    [discriminate|].
  destruct (SalaryController.userId b) as [i|] eqn:Ei; [|discriminate].
  destruct (findById User._id i (users st)) as [target|] eqn:F; [|discriminate].
  rewrite !getRoleLevel_roleName in H. cbn [level_le] in H.
  destruct (level (User.role user) <=? level (User.role target))%Z eqn:L;
    [discriminate|].
  destruct (SalaryController.month b) as [m|] eqn:Em; [|discriminate].
  destruct (SalaryController.year b) as [y|] eqn:Ey; [|discriminate].
  destruct (findOne _ (salaries st)) eqn:Fo; [discriminate|].
  destruct (SalaryController.basicSalary b) as [basicValue|] eqn:Eb;
    [|cbn in H; discriminate].
  cbn [option_map] in H.
  destruct (Js.castNumber basicValue) as [[basic|]|] eqn:Cb; try discriminate.
  destruct (Js.castNumber (Js.orZero (SalaryController.allowances b)))
    as [[allowances|]|] eqn:Ca; try discriminate.
  destruct (Js.castNumber (Js.orZero (SalaryController.deductions b)))
    as [[deductions|]|] eqn:Cd; try discriminate.
  destruct (Js.castNumber (Js.sub _ _)) as [[net|]|] eqn:Cn; try discriminate.
  destruct (findById_Some _ _ _ F) as [_ I]. subst i.
  inversion H; subst c s st'; clear H.
  apply Z.leb_gt in L.
  exists target, m, y, basicValue, basic, allowances, deductions, net.
  repeat split; assumption.
Qed.

(** [createSalary] stores a record whose net salary is the sum when the
    amounts of the body are numbers. *)
Lemma createSalary_consistent user b st c s st' basic a d :
  SalaryController.basicSalary b = Some (Js.Number basic) ->
  Js.orZero (SalaryController.allowances b) = Js.Number a ->
  Js.orZero (SalaryController.deductions b) = Js.Number d ->
  SalaryController.createSalary user b st = (Success c s, st') ->
  SalaryController.netSalaryConsistent s /\ salaries st' = salaries st ++ [s] /\
  Salary.basicSalary s = basic /\ Salary.allowances s = a /\ Salary.deductions s = d.
Proof.
  intros Hb Ha Hd H. apply createSalary_inv in H.
  destruct H as [target [m [y [bv [basic' [a' [d' [net H]]]]]]]].
  destruct H as [_ [_ [_ [_ [_ [_ [_ [Eb [Cb [Ca [Cd [Cn [Hs [_ Hst]]]]]]]]]]]]]].
  rewrite Hb in Eb. inversion Eb; subst bv.
  rewrite Ha in Ca, Cn. rewrite Hd in Cd, Cn. simpl in Cb, Ca, Cd, Cn.
  inversion Cb; inversion Ca; inversion Cd; inversion Cn. subst.
  unfold SalaryController.netSalaryConsistent. simpl. repeat split.
Qed.

(** An update that names at least one of the three inputs stores a record
    whose net salary is the sum, the missing inputs being the stored
    ones. *)
Lemma updateSalary_recomputes user id b st c s st' :
  SalaryController.isSome (SalaryController.u_basicSalary b)
  || SalaryController.isSome (SalaryController.u_allowances b)
  || SalaryController.isSome (SalaryController.u_deductions b) = true ->
  SalaryController.updateSalary user id b st = (Success c s, st') ->
  SalaryController.netSalaryConsistent s.
Proof.
  unfold SalaryController.updateSalary. intros Hin H.
  repeat match type of H with
         | (if ?b then _ else _) = _ => destruct b
         | match ?x with _ => _ end = _ => destruct x
         end; try discriminate H.
  inversion H; subst.
  unfold SalaryController.netSalaryConsistent, SalaryController.updateData.
  rewrite Hin. reflexivity.
Qed.

(** C8 fails on the code: the update document is a copy of the request
    body, so a body that names [netSalary] and none of the three inputs is
    stored as it is.  The founder's update of Eve's record with
    [{ netSalary: 1 }] succeeds and leaves 1000, 200, 50 and a net salary
    of 1. *)
Theorem updateSalary_stores_body_netSalary :
  let result := SalaryController.updateSalary alice 30 netOnly payroll in
  SalaryController.netSalaryConsistent eveJanuary /\
  succeeded (fst result) = true /\
  List.map (fun s => (Salary.basicSalary s, Salary.allowances s,
                      Salary.deductions s, Salary.netSalary s))
    (salaries (snd result)) = [(1000, 200, 50, 1)%Z] /\
  ~ Forall SalaryController.netSalaryConsistent (salaries (snd result)).
Proof.
  cbv zeta. split; [reflexivity|]. split; [reflexivity|]. split; [reflexivity|].
  intros H. inversion H as [|s l Hs _]; subst. discriminate Hs.
Qed.

(** * Further properties *)

(** ** The role order *)



(** ** Single users *)

(** The check of a single user and the filter of the user list agree:
    [canAccessUser] accepts exactly the users that the filter of
    [enforceRoleHierarchy] matches, which is the visibility predicate. *)
Theorem canAccessUser_agrees_with_filter (currentUser targetUser : User.t) :
  RbacAccess.canAccessUser currentUser targetUser
    = User.matches (RoleHierarchy.enforceRoleHierarchy currentUser) targetUser /\
  RbacAccess.canAccessUser currentUser targetUser = userVisible currentUser targetUser.
Proof.
  assert (E : RbacAccess.canAccessUser currentUser targetUser
              = userVisible currentUser targetUser).
  { by_role currentUser; destruct targetUser as [ui un ue ur ud];
      unfold RbacAccess.canAccessUser, userVisible, visibilityFilter; simpl;
      try reflexivity.
    apply Nat.eqb_sym. }
  split; [|exact E].
  rewrite E. symmetry. apply enforceRoleHierarchy_visible.
Qed.

Lemma getUsers_selects (actor : User.t) (l : list User.t) :
  User.role actor <> employee ->
  UserController.getUsers actor l = Success 200 (find (userVisible actor) l).
Proof.
  intros Hrole.
  assert (E : forall q, (forall u, User.matches q u = userVisible actor u) ->
              find (User.matches q) l = find (userVisible actor) l).
  { intros q Hq. unfold find. apply filter_ext. exact Hq. }
  pose proof (enforceRoleHierarchy_visible actor) as V.
  by_role actor; unfold UserController.getUsers; simpl;
    try (now elim Hrole); f_equal; apply E; exact V.
Qed.

(** [getUser] answers 404 for an unknown id, 403 for a user outside the
    actor's visibility and 200 otherwise; for a founder, a co-founder and a
    department head the users it returns are exactly those of the list of
    [getUsers], while an employee, who is refused the list, can read the
    own record and no other. *)
Theorem getUser_agrees_with_getUsers (currentUser : User.t) (id : ObjectId)
  (st : Store) :
  (findById User._id id (users st) = None ->
   UserAccess.getUser currentUser id st = Failure 404 "User not found") /\
  (forall t, findById User._id id (users st) = Some t ->
     UserAccess.getUser currentUser id st =
       if userVisible currentUser t then Success 200 t
       else Failure 403 "You do not have permission to access this department.") /\
  (User.role currentUser <> employee ->
   forall t, UserAccess.getUser currentUser id st = Success 200 t <->
     findById User._id id (users st) = Some t /\
     exists l, UserController.getUsers currentUser (users st) = Success 200 l /\ In t l) /\
  (User.role currentUser = employee ->
   forall t, UserAccess.getUser currentUser id st = Success 200 t <->
     findById User._id id (users st) = Some t /\ id = User._id currentUser).
Proof.
  assert (G : forall t, findById User._id id (users st) = Some t ->
     UserAccess.getUser currentUser id st =
       if userVisible currentUser t then Success 200 t
       else Failure 403 "You do not have permission to access this department.").
  { intros t F. unfold UserAccess.getUser. rewrite F.
    rewrite (proj2 (canAccessUser_agrees_with_filter currentUser t)).
    now destruct (userVisible currentUser t). }
  split; [|split; [exact G|split]].
  - intros F. unfold UserAccess.getUser. now rewrite F.
  - intros Hrole t.
    pose proof (getUsers_selects currentUser (users st) Hrole) as Hl.
    split.
    + intros H. destruct (findById User._id id (users st)) as [u|] eqn:F.
      * rewrite (G u eq_refl) in H.
        destruct (userVisible currentUser u) eqn:V; [|discriminate].
        inversion H; subst u. split; [reflexivity|].
        eexists. split; [exact Hl|]. apply find_spec. split; [|exact V].
        now apply (findById_Some _ _ _ F).
      * unfold UserAccess.getUser in H. rewrite F in H. discriminate.
    + intros [F [l [Hg Hin]]]. rewrite Hl in Hg. inversion Hg; subst l.
      apply find_spec in Hin. rewrite (G t F). now rewrite (proj2 Hin).
  - intros Hrole t. split.
    + intros H. destruct (findById User._id id (users st)) as [u|] eqn:F.
      * rewrite (G u eq_refl) in H.
        destruct (userVisible currentUser u) eqn:V; [|discriminate].
        inversion H; subst u. split; [reflexivity|].
        unfold userVisible, visibilityFilter in V. rewrite Hrole in V.
        apply Nat.eqb_eq in V. rewrite <- V.
        symmetry. now apply (findById_Some _ _ _ F).
      * unfold UserAccess.getUser in H. rewrite F in H. discriminate.
    + intros [F Hid]. rewrite (G t F).
      unfold userVisible, visibilityFilter. rewrite Hrole.
      destruct (findById_Some _ _ _ F) as [_ I]. rewrite I, Hid, Nat.eqb_refl.
      reflexivity.
Qed.

Lemma deleteById_length {Doc : Type} (docId : Doc -> ObjectId) (id : ObjectId)
  (c : list Doc) (d : Doc) :
  findById docId id c = Some d ->
  S (List.length (deleteById docId id c)) = List.length c.
Proof.
  unfold findById, findOne.
  induction c as [|x c IH]; simpl; [discriminate|].
  destruct (Nat.eqb (docId x) id); [reflexivity|].
  intros H. simpl. f_equal. now apply IH.
Qed.

Lemma deleteById_In {Doc : Type} (docId : Doc -> ObjectId) (id : ObjectId)
  (c : list Doc) (x : Doc) :
  In x (deleteById docId id c) -> In x c.
Proof.
  induction c as [|y c IH]; simpl; [tauto|].
  destruct (Nat.eqb (docId y) id); [now right|].
  intros [H|H]; [now left | right; now apply IH].
Qed.

Lemma deleteById_other {Doc : Type} (docId : Doc -> ObjectId) (id : ObjectId)
  (c : list Doc) (x : Doc) :
  In x c -> docId x <> id -> In x (deleteById docId id c).
Proof.
  induction c as [|y c IH]; simpl; [tauto|].
  intros [H|H] Hne.
  - subst y. destruct (Nat.eqb (docId x) id) eqn:E;
      [apply Nat.eqb_eq in E; now elim Hne | now left].
  - destruct (Nat.eqb (docId y) id); [exact H | right; now apply IH].
Qed.

(** [deleteUser] succeeds exactly when the target exists, the actor is
    founder or co-founder and the actor's level is strictly above the
    target's; it then removes one user, the target, and keeps every user
    with another id; a refusal changes nothing.  So a founder is never
    deleted, and a co-founder deletes neither a founder nor a
    co-founder. *)
Theorem deleteUser_outcome (currentUser : User.t) (id : ObjectId) (st : Store) :
  let result := UserAccess.deleteUser currentUser id st in
  (succeeded (fst result) = true <->
   exists t, findById User._id id (users st) = Some t /\
             (User.role currentUser = founder \/ User.role currentUser = co_founder) /\
             (level (User.role t) < level (User.role currentUser))%Z) /\
  (succeeded (fst result) = false -> snd result = st) /\
  (succeeded (fst result) = true ->
   S (List.length (users (snd result))) = List.length (users st) /\
   (forall u, In u (users (snd result)) -> In u (users st)) /\
   (forall u, In u (users st) -> User._id u <> id -> In u (users (snd result)))) /\
  (forall t, findById User._id id (users st) = Some t ->
     User.role t = founder \/
     (User.role t = co_founder /\ User.role currentUser <> founder) ->
     succeeded (fst result) = false).
Proof.
  intros result.
  assert (Top : User.role currentUser = founder \/ User.role currentUser = co_founder ->
                negb (String.eqb (roleName (User.role currentUser)) "founder")
                && negb (String.eqb (roleName (User.role currentUser)) "co-founder")
                = false)
    by (intros [H|H]; rewrite H; reflexivity).
  assert (Low : ~ (User.role currentUser = founder \/ User.role currentUser = co_founder) ->
                negb (String.eqb (roleName (User.role currentUser)) "founder")
                && negb (String.eqb (roleName (User.role currentUser)) "co-founder")
                = true)
    by (intros H; destruct (User.role currentUser); try reflexivity;
        elim H; [now left | now right]).
  assert (Dec : (User.role currentUser = founder \/ User.role currentUser = co_founder)
                \/ ~ (User.role currentUser = founder \/ User.role currentUser = co_founder))
    by (destruct (User.role currentUser);
        try (left; now left); try (left; now right);
        right; intros [H|H]; discriminate).
  subst result. unfold UserAccess.deleteUser.
  destruct (findById User._id id (users st)) as [t|] eqn:F.
  2:{ simpl. repeat split; try discriminate.
      intros [u [Hu _]]. discriminate Hu. }
  destruct Dec as [Hr|Hr].
  2:{ rewrite (Low Hr). simpl. repeat split; try discriminate; try reflexivity.
      intros [u [_ [Hu _]]]. now elim Hr. }
  rewrite (Top Hr). rewrite !getRoleLevel_roleName. cbn [level_le].
  destruct (level (User.role currentUser) <=? level (User.role t))%Z eqn:E;
    [apply Z.leb_le in E | apply Z.leb_gt in E]; simpl.
  - repeat split; try discriminate; try reflexivity.
    intros [u [Hu [_ Hl]]]. inversion Hu; subst u. lia.
  - split; [split; [intros _; now exists t | reflexivity]|].
    split; [discriminate|].
    split.
    + intros _. split; [now apply deleteById_length with (d := t)|].
      split; [intros u; apply deleteById_In | intros u; apply deleteById_other].
    + intros u Hu Hrole. inversion Hu; subst u.
      destruct Hrole as [Ht|[Ht Hn]]; rewrite Ht in E.
      * destruct (User.role currentUser); cbv in E; discriminate E.
      * destruct (User.role currentUser); cbv in E; try discriminate E.
        now elim Hn.
Qed.

(** ** Single tasks *)

Lemma getTasks_selects (actor : User.t) (l : list Task.t) :
  TaskController.getTasks actor l = Success 200 (find (taskVisible actor) l).
Proof.
  unfold TaskController.getTasks, find. f_equal. apply filter_ext. intros k.
  by_role actor; unfold Task.matches, taskVisible; simpl;
    try reflexivity; now rewrite ?andb_true_r.
Qed.

(** [getTask] answers 404 for an unknown id.  For a task that exists (and,
    when an employee asks, whose assignee still exists) it succeeds exactly
    when the task passes the filter of the task list, returns that task,
    and otherwise answers 403; whatever it returns is in the list of
    [getTasks].  An employee asking for a task whose assignee was deleted
    gets 500. *)
Theorem getTask_agrees_with_getTasks (user : User.t) (id : ObjectId) (st : Store) :
  (findById Task._id id (tasks st) = None ->
   TaskAccess.getTask user id st = Failure 404 "Task not found") /\
  (forall t, findById Task._id id (tasks st) = Some t ->
     (User.role user = employee ->
      exists a, findById User._id (Task.assignedTo t) (users st) = Some a) ->
     succeeded (TaskAccess.getTask user id st) = taskVisible user t /\
     (taskVisible user t = true -> TaskAccess.getTask user id st = Success 200 t) /\
     (taskVisible user t = false -> statusCode (TaskAccess.getTask user id st) = 403)) /\
  (forall t, TaskAccess.getTask user id st = Success 200 t ->
     exists l, TaskController.getTasks user (tasks st) = Success 200 l /\ In t l) /\
  (forall t, User.role user = employee ->
     findById Task._id id (tasks st) = Some t ->
     findById User._id (Task.assignedTo t) (users st) = None ->
     statusCode (TaskAccess.getTask user id st) = 500).
Proof.
  assert (A : forall t, findById Task._id id (tasks st) = Some t ->
     (User.role user = employee ->
      exists a, findById User._id (Task.assignedTo t) (users st) = Some a) ->
     TaskAccess.getTask user id st =
       if taskVisible user t then Success 200 t
       else Failure 403
              (if Role_eqb (User.role user) employee
               then "Not authorized to view this task"
               else "You do not have permission to access this department.")).
  { intros t F Ha. unfold TaskAccess.getTask. rewrite F.
    destruct (User.role user) eqn:R; unfold taskVisible; rewrite R; simpl;
      try reflexivity;
      try (unfold boundDepartment; simpl;
           now destruct (optDepartment_eqb (Task.department t) _)).
    destruct (Ha eq_refl) as [a Fa]. rewrite Fa.
    destruct (findById_Some _ _ _ Fa) as [_ I]. rewrite I.
    now destruct (Nat.eqb (Task.assignedTo t) (User._id user)). }
  split; [|split; [|split]].
  - intros F. unfold TaskAccess.getTask. now rewrite F.
  - intros t F Ha. rewrite (A t F Ha).
    destruct (taskVisible user t); simpl; repeat split; congruence.
  - intros t H. exists (find (taskVisible user) (tasks st)).
    split; [apply getTasks_selects|].
    unfold TaskAccess.getTask in H.
    destruct (findById Task._id id (tasks st)) as [k|] eqn:F; [|discriminate].
    destruct (findById_Some _ _ _ F) as [Hin _].
    assert (V : taskVisible user k = true /\ k = t).
    { destruct (User.role user) eqn:R; unfold taskVisible; rewrite R;
        simpl in H; unfold boundDepartment; simpl.
      - inversion H; now split.
      - inversion H; now split.
      - destruct (optDepartment_eqb (Task.department k) _); [|discriminate].
        inversion H; now split.
      - destruct (optDepartment_eqb (Task.department k) _); [|discriminate].
        inversion H; now split.
      - destruct (optDepartment_eqb (Task.department k) _); [|discriminate].
        inversion H; now split.
      - destruct (findById User._id (Task.assignedTo k) (users st)) as [a|] eqn:Fa;
          [|discriminate].
        destruct (findById_Some _ _ _ Fa) as [_ I]. rewrite I in H.
        destruct (Nat.eqb (Task.assignedTo k) (User._id user)); [|discriminate].
        inversion H; now split. }
    destruct V as [V E]. subst k. apply find_spec. now split.
  - intros t R F Fa. unfold TaskAccess.getTask. rewrite F, R. simpl.
    now rewrite Fa.
Qed.

(** A task is created only by a non-employee whose level is strictly above
    the assignee's, and by a department head only for an employee of the
    bound department.  The new task is appended to the collection, is
    assigned to the named user by the creator, copies the assignee's
    department, and is visible to its creator and to an assignee who is an
    employee.  A refusal leaves the store as it was. *)
Theorem createTask_outcome (user : User.t) (b : TaskAccess.CreateBody) (st : Store) :
  let result := TaskAccess.createTask user b st in
  (forall c k, fst result = Success c k ->
     exists assignee,
       TaskAccess.c_assignedTo b = Some (User._id assignee) /\
       findById User._id (User._id assignee) (users st) = Some assignee /\
       User.role user <> employee /\
       (level (User.role assignee) < level (User.role user))%Z /\
       (isHead (User.role user) = true ->
        User.role assignee = employee /\
        User.department assignee = boundDepartment (User.role user)) /\
       Task.assignedTo k = User._id assignee /\
       Task.assignedBy k = User._id user /\
       Task.department k = User.department assignee /\
       tasks (snd result) = tasks st ++ [k] /\
       taskVisible user k = true /\
       (User.role assignee = employee -> taskVisible assignee k = true)) /\
  (succeeded (fst result) = false -> snd result = st).
Proof.
  intros result. subst result. unfold TaskAccess.createTask.
  destruct (String.eqb (roleName (User.role user)) "employee") eqn:Eemp.
  { simpl. split; [discriminate | reflexivity]. }
  destruct (TaskAccess.c_assignedTo b) as [i|] eqn:Ei;
    [|simpl; split; [discriminate | reflexivity]].
  destruct (findById User._id i (users st)) as [assignee|] eqn:F;
    [|simpl; split; [discriminate | reflexivity]].
  rewrite !getRoleLevel_roleName. cbn [level_le].
  destruct (level (User.role user) <=? level (User.role assignee))%Z eqn:L.
  { simpl. split; [discriminate | reflexivity]. }
  apply Z.leb_gt in L.
  fold (isHead (User.role user)).
  destruct (isHead (User.role user)
            && negb (String.eqb (roleName (User.role assignee)) "employee")) eqn:H1.
  { simpl. split; [discriminate | reflexivity]. }
  destruct (isHead (User.role user)
            && negb (optDepartment_eqb (User.department assignee)
                       (getDepartmentFromRole (roleName (User.role user))))) eqn:H2.
  { simpl. split; [discriminate | reflexivity]. }
  destruct (TaskAccess.c_title b) as [title|];
    [|simpl; split; [discriminate | reflexivity]].
  destruct (String.eqb title ""); [simpl; split; [discriminate | reflexivity]|].
  simpl. split; [|discriminate].
  intros c k H. inversion H; subst c k; clear H.
  destruct (findById_Some _ _ _ F) as [_ I].
  assert (Hhead : isHead (User.role user) = true ->
                  User.role assignee = employee /\
                  User.department assignee = boundDepartment (User.role user)).
  { intros Hh. rewrite Hh in H1, H2. simpl in H1, H2.
    apply negb_false_iff in H1, H2. split.
    - now apply Role_eqb_eq.
    - now apply optDepartment_eqb_eq. }
  exists assignee. rewrite I. simpl.
  repeat split; try assumption; try reflexivity.
  - intros R. rewrite R in Eemp. discriminate.
  - now apply Hhead.
  - now apply Hhead.
  - unfold taskVisible. simpl.
    destruct (User.role user) eqn:R; try reflexivity;
      try (apply optDepartment_eqb_eq; now apply Hhead).
    discriminate.
  - intros R. unfold taskVisible. rewrite R. simpl. rewrite I. apply Nat.eqb_refl.
Qed.

Lemma save_other {Doc : Type} (docId : Doc -> ObjectId) (d x : Doc) (c : list Doc) :
  In x c -> docId x <> docId d -> In x (save docId d c).
Proof.
  intros Hin Hne. unfold save. apply in_map_iff. exists x. split; [|exact Hin].
  destruct (Nat.eqb (docId x) (docId d)) eqn:E; [|reflexivity].
  apply Nat.eqb_eq in E. now elim Hne.
Qed.

(** An employee's [updateTask] reaches only a task assigned to them and
    changes nothing but its status and completion time: title, assignee,
    assigner and department stay, whatever the body names, and every task
    with another id stays in the collection.  A refusal leaves the store
    as it was. *)
Theorem updateTask_employee_status_only
  (user : User.t) (id : ObjectId) (b : TaskAccess.UpdateBody) (now : Date)
  (st : Store) :
  User.role user = employee ->
  let result := TaskAccess.updateTask user id b now st in
  (forall c k, fst result = Success c k ->
     exists old,
       findById Task._id id (tasks st) = Some old /\
       Task.assignedTo old = User._id user /\
       Task._id k = Task._id old /\ Task.title k = Task.title old /\
       Task.assignedTo k = Task.assignedTo old /\
       Task.assignedBy k = Task.assignedBy old /\
       Task.department k = Task.department old /\
       tasks (snd result) = save Task._id k (tasks st) /\
       (forall x, In x (tasks st) -> Task._id x <> id -> In x (tasks (snd result)))) /\
  (succeeded (fst result) = false -> snd result = st) /\
  users (snd result) = users st /\ submissions (snd result) = submissions st.
Proof.
  intros R result. subst result. unfold TaskAccess.updateTask.
  destruct (findById Task._id id (tasks st)) as [old|] eqn:F;
    [|simpl; repeat split; discriminate].
  rewrite R. simpl.
  destruct (Nat.eqb (Task.assignedTo old) (User._id user)) eqn:A; simpl;
    [|repeat split; discriminate].
  destruct (TaskAccess.applyUpdate _ old) as [k|] eqn:U; simpl;
    [|repeat split; discriminate].
  unfold TaskAccess.applyUpdate in U. simpl in U.
  destruct (match TaskAccess.u_status b with
            | Some s => TaskAccess.statusOfName s
            | None => Some (Task.status old)
            end) as [s|]; [|discriminate].
  inversion U; subst k; clear U. simpl.
  destruct (findById_Some _ _ _ F) as [_ I].
  repeat split; try discriminate.
  intros c k H. inversion H; subst c k; clear H. simpl.
  exists old. apply Nat.eqb_eq in A.
  repeat split; try assumption; try reflexivity.
  intros x Hx Hne. apply save_other; [exact Hx|]. simpl. congruence.
Qed.

(** Eve sends a new title, a new assignee and the status review for her
    survey: only the status changes. *)
Lemma updateTask_employee_status_only_witness :
  fst (TaskAccess.updateTask eve 11 renameAndReassign noon surveyAssigned)
    = Success 200 surveyReview /\
  exists old,
    findById Task._id 11 (tasks surveyAssigned) = Some old /\
    Task.assignedTo old = User._id eve /\
    Task.title surveyReview = Task.title old /\
    Task.assignedTo surveyReview = Task.assignedTo old.
Proof.
  split; [reflexivity|].
  destruct (proj1 (@updateTask_employee_status_only eve 11 renameAndReassign
                     noon surveyAssigned eq_refl) 200 surveyReview eq_refl)
    as [old [H1 [H2 [_ [H3 [H4 _]]]]]].
  exists old. repeat split; assumption.
Defined.

(** The assignee can complete a task through [updateTask] with no file:
    an employee's update with status completed on their own task
    succeeds, stores the task as completed at the time of the call and
    creates no submission. *)
Theorem updateTask_completes_without_submission
  (user : User.t) (id : ObjectId) (b : TaskAccess.UpdateBody) (now : Date)
  (st : Store) (old : Task.t) :
  User.role user = employee ->
  findById Task._id id (tasks st) = Some old ->
  Task.assignedTo old = User._id user ->
  TaskAccess.u_status b = Some "completed" ->
  let result := TaskAccess.updateTask user id b now st in
  exists k,
    fst result = Success 200 k /\
    Task.status k = Task.completed /\ Task.completedAt k = Some now /\
    findById Task._id id (tasks (snd result)) = Some k /\
    submissions (snd result) = submissions st /\
    submissionsOf id (submissions (snd result)) = submissionsOf id (submissions st).
Proof.
  intros R F A S result. subst result. unfold TaskAccess.updateTask.
  rewrite F, R. simpl. rewrite A, Nat.eqb_refl. simpl.
  unfold TaskAccess.applyUpdate. rewrite S. simpl.
  eexists. split; [reflexivity|]. simpl.
  repeat split.
  apply findById_save with (x := old); [exact F|].
  simpl. now apply (findById_Some _ _ _ F).
Qed.

(** Eve marks her survey completed without uploading anything. *)
Lemma updateTask_completes_without_submission_witness :
  exists k,
    fst (TaskAccess.updateTask eve 11
           (TaskAccess.mkUpdateBody None (Some "completed") None None) noon
           surveyAssigned) = Success 200 k /\
    Task.status k = Task.completed /\
    submissions (snd (TaskAccess.updateTask eve 11
           (TaskAccess.mkUpdateBody None (Some "completed") None None) noon
           surveyAssigned)) = [].
Proof.
  destruct (@updateTask_completes_without_submission eve 11
              (TaskAccess.mkUpdateBody None (Some "completed") None None) noon
              surveyAssigned surveyOpen eq_refl eq_refl eq_refl eq_refl)
    as [k [H1 [H2 [_ [_ [H3 _]]]]]].
  exists k. repeat split; assumption.
Defined.

(** [deleteTask] succeeds exactly when the task exists, the actor is not
    an employee and, for a department head, the task belongs to the bound
    department; it then removes one task and keeps every task with another
    id.  A refusal leaves the store as it was. *)
Theorem deleteTask_outcome (user : User.t) (id : ObjectId) (st : Store) :
  let result := TaskAccess.deleteTask user id st in
  (succeeded (fst result) = true <->
   exists t, findById Task._id id (tasks st) = Some t /\
             User.role user <> employee /\
             (isHead (User.role user) = true ->
              Task.department t = boundDepartment (User.role user))) /\
  (succeeded (fst result) = false -> snd result = st) /\
  (succeeded (fst result) = true ->
   S (List.length (tasks (snd result))) = List.length (tasks st) /\
   (forall x, In x (tasks (snd result)) -> In x (tasks st)) /\
   (forall x, In x (tasks st) -> Task._id x <> id -> In x (tasks (snd result)))).
Proof.
  intros result. subst result. unfold TaskAccess.deleteTask.
  destruct (findById Task._id id (tasks st)) as [t|] eqn:F.
  2:{ simpl. repeat split; try discriminate. intros [u [Hu _]]. discriminate Hu. }
  fold (isHead (User.role user)). unfold boundDepartment.
  destruct (String.eqb (roleName (User.role user)) "employee") eqn:E.
  { simpl. repeat split; try discriminate.
    intros [u [_ [Hne _]]]. destruct (User.role user); try discriminate E.
    now elim Hne. }
  destruct (isHead (User.role user)
            && negb (optDepartment_eqb (Task.department t)
                       (getDepartmentFromRole (roleName (User.role user))))) eqn:H.
  { simpl. repeat split; try discriminate.
    intros [u [Hu [_ Hd]]]. inversion Hu; subst u.
    apply andb_true_iff in H. destruct H as [Hh Hn].
    apply negb_true_iff in Hn. rewrite (Hd Hh) in Hn.
    assert (X : optDepartment_eqb (getDepartmentFromRole (roleName (User.role user)))
                  (getDepartmentFromRole (roleName (User.role user))) = true)
      by now apply optDepartment_eqb_eq.
    congruence. }
  simpl. split; [split; [intros _|reflexivity]|split; [discriminate|intros _]].
  - exists t. split; [reflexivity|]. split.
    + intros R. rewrite R in E. discriminate.
    + intros Hh. rewrite Hh in H. simpl in H. apply negb_false_iff in H.
      now apply optDepartment_eqb_eq.
  - split; [now apply deleteById_length with (d := t)|].
    split; [intros x; apply deleteById_In | intros x; apply deleteById_other].
Qed.

(** ** Task completion, uploads and submissions *)

Lemma create_submission_fields i c s c' :
  TaskSubmission.create i c = Some (s, c') ->
  c' = c ++ [s] /\
  TaskSubmission.task s = TaskSubmission.i_task i /\
  TaskSubmission.submittedBy s = TaskSubmission.i_submittedBy i /\
  TaskSubmission.fileName s = TaskSubmission.i_fileName i /\
  TaskSubmission.filePath s = TaskSubmission.i_filePath i /\
  TaskSubmission.fileType s = TaskSubmission.i_fileType i /\
  (TaskSubmission.fileType s = "pdf" \/ TaskSubmission.fileType s = "csv") /\
  Some (TaskSubmission.department s) = TaskSubmission.i_department i /\
  existsb (fun x => Nat.eqb (TaskSubmission.task x) (TaskSubmission.i_task i)) c = false.
Proof.
  unfold TaskSubmission.create. intros H.
  destruct (String.eqb (TaskSubmission.i_fileName i) ""); [discriminate|].
  destruct (String.eqb (TaskSubmission.i_fileType i) "pdf") eqn:Ep;
    destruct (String.eqb (TaskSubmission.i_fileType i) "csv") eqn:Ec;
    simpl in H; try discriminate;
    (destruct (String.eqb (TaskSubmission.i_filePath i) ""); [discriminate|];
     destruct (TaskSubmission.i_department i) as [d|]; [|discriminate];
     destruct (existsb _ c) eqn:Ex; [discriminate|];
     inversion H; subst; simpl; repeat split; try reflexivity;
     apply String.eqb_eq in Ep || apply String.eqb_eq in Ec; tauto).
Qed.

Lemma unlinkAndRefuse_not_success {D} file f (r : Response D) st c d st' :
  succeeded r = false ->
  TaskRoutes.unlinkAndRefuse file f r st = (Success c d, st') -> False.
Proof.
  intros Hr H. pose proof (unlinkAndRefuse_keeps file f r st Hr) as [K _].
  rewrite H in K. discriminate K.
Qed.

(** A successful completion: the caller is the assignee, the task was not
    completed and had no submission, and the upload has a PDF or CSV
    extension.  Afterwards the task is stored as completed at the time of
    the call, exactly one submission exists for the task, it records the
    task, the user, the file's name and path and the type pdf or csv, and
    the uploaded file is still on disk. *)
Theorem completeTask_success
  (user : User.t) (id : ObjectId) (file : option TaskRoutes.UploadedFile)
  (now : Date) (st st' : Store) (c : nat) (k : Task.t) (s : TaskSubmission.t) :
  TaskRoutes.completeTask user id file now st = (Success c (k, s), st') ->
  exists old f,
    findById Task._id id (tasks st) = Some old /\ file = Some f /\
    Task.assignedTo old = User._id user /\
    Task.status old <> Task.completed /\
    submissionsOf id (submissions st) = [] /\
    Task.status k = Task.completed /\ Task.completedAt k = Some now /\
    tasks st' = save Task._id k (tasks st) /\
    submissions st' = submissions st ++ [s] /\
    submissionsOf id (submissions st') = [s] /\
    TaskSubmission.task s = id /\
    TaskSubmission.submittedBy s = User._id user /\
    TaskSubmission.fileName s = TaskRoutes.originalname f /\
    TaskSubmission.filePath s = TaskRoutes.path f /\
    (TaskSubmission.fileType s = "pdf" \/ TaskSubmission.fileType s = "csv") /\
    User.department user = Some (TaskSubmission.department s) /\
    files st' = files st.
Proof.
  unfold TaskRoutes.completeTask. intros H.
  destruct (findById Task._id id (tasks st)) as [old|] eqn:F.
  2:{ destruct file; [now apply unlinkAndRefuse_not_success in H | discriminate]. }
  destruct (findById_Some _ _ _ F) as [_ I].
  destruct (negb (Nat.eqb (Task.assignedTo old) (User._id user))) eqn:A.
  { destruct file; [now apply unlinkAndRefuse_not_success in H | discriminate]. }
  apply negb_false_iff, Nat.eqb_eq in A.
  destruct file as [f|]; [|discriminate].
  destruct (negb _ && negb _); [now apply unlinkAndRefuse_not_success in H|].
  destruct (Task.Status_eqb (Task.status old) Task.completed) eqn:Sd;
    [now apply unlinkAndRefuse_not_success in H|].
  destruct (findOne _ (submissions st)) eqn:Fs;
    [now apply unlinkAndRefuse_not_success in H|].
  destruct (TaskSubmission.create _ _) as [[s0 subs]|] eqn:C.
  2:{ unfold TaskRoutes.onError in H. discriminate. }
  inversion H; subst k s st'; clear H.
  apply create_submission_fields in C. simpl in C.
  destruct C as [C1 [C2 [C3 [C4 [C5 [C6 [C7 [C8 C9]]]]]]]].
  rewrite I in *.
  assert (E : submissionsOf id (submissions st) = []).
  { unfold submissionsOf, find. now apply existsb_false_filter. }
  exists old, f. simpl.
  repeat split; try assumption; try reflexivity; try congruence.
  - intros X. rewrite X in Sd. discriminate.
  - unfold submissionsOf, find in *. rewrite C1, filter_app, E. simpl.
    now rewrite C2, Nat.eqb_refl.
Qed.

(** Eve completes her survey with report.pdf. *)
Lemma completeTask_success_witness :
  TaskRoutes.completeTask eve 11 (Some report) noon surveyUploaded
    = (Success 200 (surveyCompleted, reportSubmission),
       snd (TaskRoutes.completeTask eve 11 (Some report) noon surveyUploaded)) /\
  submissionsOf 11
    (submissions (snd (TaskRoutes.completeTask eve 11 (Some report) noon surveyUploaded)))
    = [reportSubmission] /\
  files (snd (TaskRoutes.completeTask eve 11 (Some report) noon surveyUploaded))
    = files surveyUploaded.
Proof.
  assert (E : TaskRoutes.completeTask eve 11 (Some report) noon surveyUploaded
              = (Success 200 (surveyCompleted, reportSubmission),
                 snd (TaskRoutes.completeTask eve 11 (Some report) noon surveyUploaded)))
    by reflexivity.
  split; [exact E|].
  destruct (completeTask_success _ _ _ _ _ E) as [old [f K]].
  decompose [and] K. split; assumption.
Defined.

(** The upload filter admits every file the completion handler accepts,
    but not the other way round: the filter also admits a file by its MIME
    type alone, and the handler, which looks at the extension only, then
    refuses the assignee with 400, leaves task and submissions as they
    were and removes the file that was written. *)
Theorem fileFilter_admits_more_than_handler :
  (forall user id f now st st' c d,
     TaskRoutes.completeTask user id (Some f) now st = (Success c d, st') ->
     SubmissionRoutes.fileFilter f = true) /\
  (forall user id f now st task,
     findById Task._id id (tasks st) = Some task ->
     Task.assignedTo task = User._id user ->
     TaskRoutes.existsSync (TaskRoutes.path f) (files st) = true ->
     TaskRoutes.toLowerCase (TaskRoutes.extname (TaskRoutes.originalname f)) <> ".pdf" ->
     TaskRoutes.toLowerCase (TaskRoutes.extname (TaskRoutes.originalname f)) <> ".csv" ->
     let result := TaskRoutes.completeTask user id (Some f) now st in
     fst result = Failure 400 "Only PDF and CSV files are allowed" /\
     tasks (snd result) = tasks st /\ submissions (snd result) = submissions st /\
     TaskRoutes.existsSync (TaskRoutes.path f) (files (snd result)) = false) /\
  (forall f, TaskRoutes.mimetype f = "text/csv" -> SubmissionRoutes.fileFilter f = true).
Proof.
  split; [|split].
  - intros user id f now st st' c d H. unfold TaskRoutes.completeTask in H.
    destruct (findById Task._id id (tasks st)) as [old|];
      [|now apply unlinkAndRefuse_not_success in H].
    destruct (negb (Nat.eqb (Task.assignedTo old) (User._id user)));
      [now apply unlinkAndRefuse_not_success in H|].
    unfold SubmissionRoutes.fileFilter. cbn [existsb].
    destruct (String.eqb (TaskRoutes.toLowerCase
                (TaskRoutes.extname (TaskRoutes.originalname f))) ".pdf") eqn:Ep;
      [reflexivity|].
    destruct (String.eqb (TaskRoutes.toLowerCase
                (TaskRoutes.extname (TaskRoutes.originalname f))) ".csv") eqn:Ec;
      [reflexivity|].
    simpl in H. now apply unlinkAndRefuse_not_success in H.
  - intros user id f now st task F A D Np Nc result. subst result.
    unfold TaskRoutes.completeTask. rewrite F, A, Nat.eqb_refl. simpl.
    apply String.eqb_neq in Np, Nc. rewrite Np, Nc. simpl.
    pose proof (unlinkAndRefuse_keeps (Some f) f
                  (Failure 400 "Only PDF and CSV files are allowed"
                   : Response (Task.t * TaskSubmission.t)) st eq_refl) as [_ [K1 K2]].
    pose proof (unlinkAndRefuse_present (Some f) f
                  (Failure 400 "Only PDF and CSV files are allowed"
                   : Response (Task.t * TaskSubmission.t)) st D) as [K3 K4].
    now repeat split.
  - intros f M. unfold SubmissionRoutes.fileFilter. rewrite M.
    apply orb_true_iff. right. reflexivity.
Qed.

(** Downloading a submission is gated exactly as viewing it: the download
    answers 403 when and only when the view does; whoever may view the
    submission gets the file under its stored path and name, or 404 when
    the file is no longer on disk; and nothing is downloaded that could
    not be viewed. *)
Theorem download_gated_as_view (user : User.t) (id : ObjectId) (st : Store) :
  (statusCode (SubmissionRoutes.downloadSubmission user id st) = 403 <->
   statusCode (SubmissionRoutes.getSubmission user id st) = 403) /\
  (forall s, SubmissionRoutes.getSubmission user id st = Success 200 s ->
     SubmissionRoutes.downloadSubmission user id st =
       if TaskRoutes.existsSync (TaskSubmission.filePath s) (files st)
       then Success 200 (TaskSubmission.filePath s, TaskSubmission.fileName s)
       else Failure 404 "File not found on server") /\
  (forall d, SubmissionRoutes.downloadSubmission user id st = Success 200 d ->
     exists s, SubmissionRoutes.getSubmission user id st = Success 200 s /\
               d = (TaskSubmission.filePath s, TaskSubmission.fileName s)).
Proof.
  unfold SubmissionRoutes.downloadSubmission, SubmissionRoutes.getSubmission.
  destruct (findById Task._id id (tasks st)) as [task|];
    [|simpl; repeat split; try discriminate; intros; discriminate].
  destruct (SubmissionRoutes.submissionOfTask task st) as [sub|];
    [|simpl; repeat split; try discriminate; intros; discriminate].
  destruct (User.role user); simpl;
    try destruct (Department_eqb (TaskSubmission.department sub) _);
    try (destruct (findById User._id (TaskSubmission.submittedBy sub) (users st))
           as [submitter|];
         [destruct (Nat.eqb (User._id submitter) (User._id user))|]);
    simpl;
    destruct (TaskRoutes.existsSync (TaskSubmission.filePath sub) (files st)) eqn:E;
    simpl;
    (split; [split; intros H; try reflexivity; try discriminate H; exact H|]);
    (split; [intros s H; try discriminate H; inversion H; subst s; now rewrite E
            | intros d H; try discriminate H; inversion H; subst d;
              exists sub; now split]).
Qed.







(** ** Creating and reading requests *)

Lemma kindOfName_name (s : string) (k : Request.Kind) :
  RequestAccess.kindOfName s = Some k -> s = Request.kindName k.
Proof.
  unfold RequestAccess.kindOfName. intros H. apply find_some in H.
  destruct H as [_ H]. apply String.eqb_eq in H. now symmetry.
Qed.

Lemma truthy_Some (v : option string) :
  UserManagementController.truthy v = true -> exists s, v = Some s /\ s <> "".
Proof.
  destruct v as [s|]; simpl; [|discriminate].
  intros H. exists s. split; [reflexivity|].
  apply negb_true_iff in H. now apply String.eqb_neq.
Qed.

(** Only an employee who has a department creates a request, and only of
    type leave, expense or task with a description.  The new request
    holds the description trimmed, which is not empty and has at most
    1000 characters, is pending, carries the creator and the creator's
    department and no decision, and is appended to the collection; the
    creator finds it under
    [getMyRequests], and a department head finds it among the pending
    requests exactly when bound to the creator's department.  A refusal
    leaves the store as it was. *)
Theorem createRequest_outcome (user : User.t) (b : RequestAccess.CreateBody)
  (st : Store) :
  let result := RequestAccess.createRequest user b st in
  (forall c r, fst result = Success c r ->
     User.role user = employee /\
     RequestAccess.type b = Some (Request.kindName (Request.type r)) /\
     (exists given, RequestAccess.description b = Some given /\
                    Request.description r = trim given) /\
     Request.description r <> "" /\
     String.length (Request.description r) <= 1000 /\
     User.department user = Some (Request.department r) /\
     Request.status r = Request.pending /\
     Request.createdBy r = User._id user /\
     Request.approvedBy r = None /\
     requests (snd result) = requests st ++ [r] /\
     (exists l, RequestAccess.getMyRequests user None (requests (snd result))
                  = Success 200 l /\ In r l) /\
     (forall head, isHead (User.role head) = true ->
        exists l, RequestAccess.getPendingRequests head (requests (snd result))
                    = Success 200 l /\
                  (In r l <-> boundDepartment (User.role head)
                              = Some (Request.department r)))) /\
  (succeeded (fst result) = false -> snd result = st).
Proof.
  intros result. subst result. unfold RequestAccess.createRequest.
  destruct (negb (String.eqb (roleName (User.role user)) "employee")) eqn:E;
    [simpl; split; [discriminate | reflexivity]|].
  destruct (UserManagementController.truthy (RequestAccess.type b)) eqn:Tt;
    [|simpl; split; [discriminate | reflexivity]].
  destruct (UserManagementController.truthy (RequestAccess.description b)) eqn:Td;
    [|simpl; split; [discriminate | reflexivity]].
  cbn [negb orb].
  destruct (negb (existsb _ _)); [simpl; split; [discriminate | reflexivity]|].
  destruct (RequestAccess.kindOfName _) as [kind|] eqn:K;
    [|simpl; split; [discriminate | reflexivity]].
  destruct (User.department user) as [d|] eqn:D;
    [|simpl; split; [discriminate | reflexivity]].
  cbv zeta.
  destruct (String.eqb (trim (orElse (RequestAccess.description b) "")) "") eqn:V1;
    [simpl; split; [discriminate | reflexivity]|].
  destruct (Nat.ltb 1000 _) eqn:V2; [simpl; split; [discriminate | reflexivity]|].
  simpl. split; [|discriminate].
  intros c r H. inversion H; subst c r; clear H. simpl.
  destruct (truthy_Some _ Tt) as [s [Hs _]].
  destruct (truthy_Some _ Td) as [ds [Hd _]].
  rewrite Hs in K. simpl in K. apply kindOfName_name in K.
  apply String.eqb_neq in V1. apply Nat.ltb_ge in V2.
  split.
  { apply negb_false_iff in E. now apply Role_eqb_eq. }
  split; [now rewrite Hs, K|].
  split; [exists ds; split; [exact Hd | now rewrite Hd]|].
  split; [exact V1|]. split; [exact V2|].
  repeat split.
  - eexists. split; [reflexivity|]. apply find_spec. split.
    + apply in_or_app. right. now left.
    + unfold Request.matches. simpl. now rewrite Nat.eqb_refl.
  - intros head Hh. unfold RequestAccess.getPendingRequests, boundDepartment.
    destruct (User.role head); try discriminate Hh; simpl;
      (eexists; split; [reflexivity|]);
      rewrite find_spec; unfold Request.matches; simpl; rewrite !andb_true_r;
      (split; [intros [_ M]; apply Department_eqb_eq in M; now rewrite M
              | intros M; split; [apply in_or_app; right; now left
                                 | inversion M; now apply Department_eqb_eq]]).
Qed.

Lemma getRequests_selects (actor : User.t) (l : list Request.t) :
  RequestController.getRequests actor (RequestController.mkListParams None None) l
    = Success 200 (find (requestVisible actor) l).
Proof.
  unfold RequestController.getRequests, find. f_equal. apply filter_ext. intros x.
  by_role actor; unfold Request.matches, requestVisible; simpl;
    try reflexivity; now rewrite ?andb_true_r.
Qed.

(** The pending list is the request list with the status filter: for
    everyone but an employee, who is refused with 403,
    [getPendingRequests] returns what [getRequests] returns for
    [status=pending], namely the pending requests visible to the actor. *)
Theorem getPendingRequests_is_filtered_list (user : User.t) (l : list Request.t) :
  RequestAccess.getPendingRequests user l =
    (if Role_eqb (User.role user) employee
     then Failure 403 "Not authorized to view pending requests"
     else RequestController.getRequests user
            (RequestController.mkListParams (Some "pending") None) l) /\
  (forall out r, RequestAccess.getPendingRequests user l = Success 200 out ->
     (In r out <-> In r l /\ requestVisible user r = true /\
                   Request.status r = Request.pending)).
Proof.
  split.
  - by_role user; reflexivity.
  - intros out r H. revert H.
    unfold RequestAccess.getPendingRequests.
    by_role user; simpl; intros H; try discriminate H;
      inversion H; subst out; clear H;
      rewrite find_spec; unfold Request.matches, requestVisible; simpl;
      rewrite ?andb_true_r;
      (split; [intros [Hin M]; split; [exact Hin|];
               try (apply andb_true_iff in M; destruct M as [M1 M]);
               (split; [try reflexivity; try exact M1|]);
               destruct (Request.status r); try reflexivity; discriminate M
              | intros [Hin [V S]]; split; [exact Hin|];
                rewrite S; simpl; rewrite ?andb_true_r; try reflexivity; exact V]).
Qed.

(** [getRequest] answers 404 for an unknown id; for a request that exists
    (and, when an employee asks, whose creator still exists) it succeeds
    exactly when the request passes the filter of the request list and
    answers 403 otherwise, so that whatever it returns is in the list of
    [getRequests]. *)
Theorem getRequest_agrees_with_getRequests (user : User.t) (id : ObjectId)
  (st : Store) :
  (findById Request._id id (requests st) = None ->
   RequestAccess.getRequest user id st = Failure 404 "Request not found") /\
  (forall r, findById Request._id id (requests st) = Some r ->
     (User.role user = employee ->
      exists a, findById User._id (Request.createdBy r) (users st) = Some a) ->
     succeeded (RequestAccess.getRequest user id st) = requestVisible user r /\
     (requestVisible user r = true ->
      RequestAccess.getRequest user id st = Success 200 r /\
      exists l, RequestController.getRequests user
                  (RequestController.mkListParams None None) (requests st)
                  = Success 200 l /\ In r l) /\
     (requestVisible user r = false ->
      statusCode (RequestAccess.getRequest user id st) = 403)).
Proof.
  split.
  - intros F. unfold RequestAccess.getRequest. now rewrite F.
  - intros r F Ha.
    assert (A : RequestAccess.getRequest user id st =
                if requestVisible user r then Success 200 r
                else Failure 403
                       (if Role_eqb (User.role user) employee
                        then "Not authorized to view this request"
                        else "Not authorized to view requests from other departments")).
    { unfold RequestAccess.getRequest. rewrite F.
      destruct (User.role user) eqn:R; unfold requestVisible; rewrite R; simpl;
        try reflexivity;
        try (unfold boundDepartment; simpl;
             now destruct (Department_eqb (Request.department r) _)).
      destruct (Ha eq_refl) as [a Fa]. rewrite Fa.
      destruct (findById_Some _ _ _ Fa) as [_ I]. rewrite I.
      now destruct (Nat.eqb (Request.createdBy r) (User._id user)). }
    rewrite A. destruct (requestVisible user r) eqn:V; simpl.
    + split; [reflexivity|]. split; [|discriminate].
      intros _. split; [reflexivity|].
      eexists. split; [apply getRequests_selects|].
      apply find_spec. split; [|exact V]. now apply (findById_Some _ _ _ F).
    + split; [reflexivity|]. split; [discriminate | reflexivity].
Qed.





(** ** Creating, reading and deleting salaries *)







Lemma NoDup_map_eq {A B} (f : A -> B) (l : list A) (a b : A) :
  NoDup (List.map f l) -> In a l -> In b l -> f a = f b -> a = b.
Proof.
  induction l as [|x l IH]; simpl; [tauto|].
  intros N Ha Hb E. inversion N as [|y ys Hn N']; subst.
  destruct Ha as [Ha|Ha], Hb as [Hb|Hb]; subst.
  - reflexivity.
  - elim Hn. rewrite E. now apply in_map.
  - elim Hn. rewrite <- E. now apply in_map.
  - now apply IH.
Qed.

Lemma getSalaries_selects (actor : User.t) (st : Store) :
  SalaryAccess.getSalaries actor st
    = Success 200 (find (salaryVisible actor st) (salaries st)).
Proof.
  unfold SalaryAccess.getSalaries, find.
  by_role actor; simpl; f_equal; apply filter_ext; intros s;
    unfold SalaryAccess.matches, salaryVisible; simpl;
    rewrite ?andb_true_r; try reflexivity.
  do 3 f_equal. unfold find. apply filter_ext. intros u.
  unfold User.matches. simpl. now rewrite andb_true_r.
Qed.

Lemma owner_is_founder (st : Store) (i : ObjectId) (o : User.t) :
  NoDup (List.map User._id (users st)) ->
  findById User._id i (users st) = Some o ->
  existsb (Nat.eqb i)
    (List.map User._id (find (fun u => Role_eqb (User.role u) founder) (users st)))
  = String.eqb (roleName (User.role o)) "founder".
Proof.
  intros N F. destruct (findById_Some _ _ _ F) as [Hin I].
  destruct (String.eqb (roleName (User.role o)) "founder") eqn:R.
  - apply existsb_exists. exists i. split; [|apply Nat.eqb_refl].
    apply in_map_iff. exists o. split; [exact I|].
    apply find_spec. split; [exact Hin | exact R].
  - destruct (existsb _ _) eqn:X; [|reflexivity].
    apply existsb_exists in X. destruct X as [j [Hj Ej]].
    apply Nat.eqb_eq in Ej. subst j.
    apply in_map_iff in Hj. destruct Hj as [u [Iu Hu]].
    apply find_spec in Hu. destruct Hu as [Hu Ru].
    assert (u = o) by (apply (NoDup_map_eq User._id (users st)); congruence).
    subst u. unfold Role_eqb in Ru. simpl in Ru. congruence.
Qed.

(** The salary list and the single salary agree: with user ids unique and
    the owner of the record still stored, [getSalary] succeeds exactly on
    the records that [getSalaries] lists for the actor, returns the
    record, and otherwise answers 403.  In particular a co-founder sees a
    founder's salary neither in the list nor alone. *)
Theorem getSalary_agrees_with_getSalaries
  (user : User.t) (id : ObjectId) (st : Store) (s : Salary.t) (owner : User.t) :
  NoDup (List.map User._id (users st)) ->
  findById Salary._id id (salaries st) = Some s ->
  findById User._id (Salary.user s) (users st) = Some owner ->
  (succeeded (SalaryAccess.getSalary user id st) = true <->
   exists l, SalaryAccess.getSalaries user st = Success 200 l /\ In s l) /\
  (succeeded (SalaryAccess.getSalary user id st) = true ->
   SalaryAccess.getSalary user id st = Success 200 s) /\
  (succeeded (SalaryAccess.getSalary user id st) = false ->
   statusCode (SalaryAccess.getSalary user id st) = 403) /\
  (User.role user = co_founder -> User.role owner = founder ->
   statusCode (SalaryAccess.getSalary user id st) = 403).
Proof.
  intros N F Fo.
  assert (A : SalaryAccess.getSalary user id st =
              if salaryVisible user st s then Success 200 s
              else Failure 403
                     (match User.role user with
                      | employee => "Not authorized to view this salary record"
                      | co_founder => "Not authorized to view founder salary"
                      | _ => "You do not have permission to access this department."
                      end)).
  { unfold SalaryAccess.getSalary. rewrite F, Fo.
    destruct (findById_Some _ _ _ Fo) as [_ I].
    destruct (User.role user) eqn:R; unfold salaryVisible; rewrite R; simpl;
      try reflexivity;
      try (unfold boundDepartment; simpl;
           now destruct (String.eqb (Salary.department s) _)).
    - rewrite (@owner_is_founder st _ _ N Fo).
      now destruct (String.eqb (roleName (User.role owner)) "founder").
    - rewrite I. now destruct (Nat.eqb (Salary.user s) (User._id user)). }
  destruct (findById_Some _ _ _ F) as [Hin _].
  rewrite A, getSalaries_selects.
  destruct (salaryVisible user st s) eqn:V; simpl.
  - repeat split; try discriminate.
    + intros _. eexists. split; [reflexivity|]. apply find_spec. now split.
    + intros Rc Rf. unfold salaryVisible in V. rewrite Rc in V.
      rewrite (@owner_is_founder st _ _ N Fo), Rf in V. discriminate.
  - repeat split; try discriminate.
    intros [l [H Hl]]. inversion H; subst l. apply find_spec in Hl.
    destruct Hl as [_ Hl]. congruence.
Qed.

Lemma getSalary_agrees_with_getSalaries_witness :
  (succeeded (SalaryAccess.getSalary tara 30 payroll) = true <->
   exists l, SalaryAccess.getSalaries tara payroll = Success 200 l /\ In eveJanuary l) /\
  (succeeded (SalaryAccess.getSalary tara 30 payroll) = true ->
   SalaryAccess.getSalary tara 30 payroll = Success 200 eveJanuary) /\
  (succeeded (SalaryAccess.getSalary tara 30 payroll) = false ->
   statusCode (SalaryAccess.getSalary tara 30 payroll) = 403) /\
  (User.role tara = co_founder -> User.role eve = founder ->
   statusCode (SalaryAccess.getSalary tara 30 payroll) = 403).
Proof.
  apply (@getSalary_agrees_with_getSalaries tara 30 payroll eveJanuary eve).
  - simpl. repeat constructor; simpl; intuition discriminate.
  - reflexivity.
  - reflexivity.
Defined.

Lemma deleteById_filter_length {Doc : Type} (docId : Doc -> ObjectId) (id : ObjectId)
  (p : Doc -> bool) (c : list Doc) :
  List.length (filter p (deleteById docId id c)) <= List.length (filter p c).
Proof.
  induction c as [|x c IH]; simpl; [lia|].
  destruct (Nat.eqb (docId x) id); simpl.
  - destruct (p x); simpl; lia.
  - destruct (p x); simpl; lia.
Qed.

(** Only a founder deletes a salary: [deleteSalary] succeeds exactly when
    the actor is a founder and the record exists; a co-founder, who may
    create and update salaries, is answered 403.  On success one record,
    the one with the id, is removed, every record with another id is kept,
    and a collection with one salary per user, month and year stays so;
    a refusal leaves the store as it was. *)
Theorem deleteSalary_outcome (user : User.t) (id : ObjectId) (st : Store) :
  let result := SalaryAccess.deleteSalary user id st in
  (succeeded (fst result) = true <->
   User.role user = founder /\
   exists s, findById Salary._id id (salaries st) = Some s) /\
  (User.role user <> founder -> statusCode (fst result) = 403) /\
  (succeeded (fst result) = false -> snd result = st) /\
  (succeeded (fst result) = true ->
   S (List.length (salaries (snd result))) = List.length (salaries st) /\
   (forall x, In x (salaries (snd result)) -> In x (salaries st)) /\
   (forall x, In x (salaries st) -> Salary._id x <> id ->
              In x (salaries (snd result))) /\
   users (snd result) = users st /\
   (SalaryAccess.uniqueSalaryKey (salaries st) ->
    SalaryAccess.uniqueSalaryKey (salaries (snd result)))).
Proof.
  intros result. subst result. unfold SalaryAccess.deleteSalary.
  destruct (String.eqb (roleName (User.role user)) "founder") eqn:E; simpl.
  2:{ repeat split; try discriminate.
      intros [R _]. rewrite R in E. discriminate. }
  assert (R : User.role user = founder)
    by (destruct (User.role user); try discriminate E; reflexivity).
  destruct (findById Salary._id id (salaries st)) as [s|] eqn:F; simpl.
  2:{ repeat split; try discriminate; try congruence.
      intros [_ [s Hs]]. discriminate Hs. }
  split; [split; [intros _; split; [exact R | now exists s] | reflexivity]|].
  split; [congruence|]. split; [discriminate|]. intros _.
  split; [now apply deleteById_length with (d := s)|].
  split; [intros x; apply deleteById_In|].
  split; [intros x; apply deleteById_other|].
  split; [reflexivity|].
  intros U u m y. unfold find.
  eapply Nat.le_trans; [apply deleteById_filter_length | apply U].
Qed.

(** ** Notifications *)

Lemma unreadOf_setRead userId n :
  NotificationReads.unreadOf userId (NotificationReads.setRead n) = false.
Proof. unfold NotificationReads.unreadOf. simpl. apply andb_false_r. Qed.

Lemma unreadOf_other userId v n :
  Notification.userId n = userId ->
  v <> userId ->
  NotificationReads.unreadOf v (NotificationReads.setRead n)
  = NotificationReads.unreadOf v n.
Proof.
  intros U Hv. unfold NotificationReads.unreadOf. simpl. rewrite U.
  destruct (Nat.eqb userId v) eqn:E; [|reflexivity].
  apply Nat.eqb_eq in E. now elim Hv.
Qed.

(** [markAllAsRead] reports the number of unread notifications of the
    user, leaves the user with no unread notification, changes no other
    user's unread count, keeps the notifications and their order, and
    finds nothing to do when run again. *)
Theorem markAllAsRead_clears_unread (userId : ObjectId) (st : Store) :
  let result := NotificationReads.markAllAsRead userId st in
  fst result = NotificationReads.getUnreadCount userId st /\
  NotificationReads.getUnreadCount userId (snd result) = 0 /\
  (forall v, v <> userId ->
     NotificationReads.getUnreadCount v (snd result)
     = NotificationReads.getUnreadCount v st) /\
  List.map Notification._id (notifications (snd result))
  = List.map Notification._id (notifications st) /\
  List.map Notification.message (notifications (snd result))
  = List.map Notification.message (notifications st) /\
  NotificationReads.markAllAsRead userId (snd result) = (0, snd result).
Proof.
  intros result. subst result.
  unfold NotificationReads.markAllAsRead, NotificationReads.getUnreadCount, updateMany, find.
  simpl. set (l := notifications st).
  assert (Z0 : forall l, filter (NotificationReads.unreadOf userId)
                 (List.map (fun d => if NotificationReads.unreadOf userId d
                                     then NotificationReads.setRead d else d) l) = []).
  { intros l0. induction l0 as [|n l0 IH]; simpl; [reflexivity|].
    destruct (NotificationReads.unreadOf userId n) eqn:E.
    - now rewrite unreadOf_setRead.
    - now rewrite E. }
  assert (Id : forall l, Forall (fun d => NotificationReads.unreadOf userId d = false) l ->
                 List.map (fun d => if NotificationReads.unreadOf userId d
                                     then NotificationReads.setRead d else d) l = l).
  { intros l0 H. induction H as [|n l0 Hn _ IH]; simpl; [reflexivity|].
    now rewrite Hn, IH. }
  split; [reflexivity|]. split; [now rewrite Z0|].
  split; [|split; [|split]].
  - intros v Hv. f_equal. induction l as [|n l IH]; simpl; [reflexivity|].
    destruct (NotificationReads.unreadOf userId n) eqn:E.
    + unfold NotificationReads.unreadOf in E. apply andb_true_iff in E.
      destruct E as [E _]. apply Nat.eqb_eq in E.
      rewrite (unreadOf_other n E Hv).
      assert (V : NotificationReads.unreadOf v n = false).
      { unfold NotificationReads.unreadOf. rewrite E.
        destruct (Nat.eqb userId v) eqn:X; [|reflexivity].
        apply Nat.eqb_eq in X. now elim Hv. }
      now rewrite V.
    + destruct (NotificationReads.unreadOf v n); now rewrite IH.
  - rewrite map_map. apply map_ext. intros n.
    now destruct (NotificationReads.unreadOf userId n).
  - rewrite map_map. apply map_ext. intros n.
    now destruct (NotificationReads.unreadOf userId n).
  - rewrite Z0. simpl. f_equal. rewrite Id; [now destruct st|].
    apply Forall_forall. intros n Hn.
    destruct (NotificationReads.unreadOf userId n) eqn:E; [|reflexivity].
    assert (X : In n (filter (NotificationReads.unreadOf userId)
                 (List.map (fun d => if NotificationReads.unreadOf userId d
                                     then NotificationReads.setRead d else d) l)))
      by (apply filter_In; now split).
    rewrite Z0 in X. destruct X.
Qed.

Lemma findOneAndUpdate_setRead (notificationId userId : ObjectId)
  (l : list Notification.t) :
  let p := fun n => Nat.eqb (Notification._id n) notificationId
                    && Nat.eqb (Notification.userId n) userId in
  let r := fst (findOneAndUpdate p NotificationReads.setRead l) in
  let l' := snd (findOneAndUpdate p NotificationReads.setRead l) in
  (forall n, r = Some n ->
     In n l' /\ exists old, In old l /\ p old = true /\ n = NotificationReads.setRead old) /\
  (r = None -> l' = l /\ forall n, In n l -> p n = false) /\
  (forall v, v <> userId ->
     filter (NotificationReads.unreadOf v) l' = filter (NotificationReads.unreadOf v) l) /\
  List.length (filter (NotificationReads.unreadOf userId) l')
    <= List.length (filter (NotificationReads.unreadOf userId) l) /\
  List.length (filter (NotificationReads.unreadOf userId) l)
    <= S (List.length (filter (NotificationReads.unreadOf userId) l')) /\
  List.map Notification._id l' = List.map Notification._id l.
Proof.
  intros p. induction l as [|x l IH]; simpl.
  - split; [discriminate|]. split; [intros _; split; [reflexivity | intros n []]|].
    split; [reflexivity|]. split; [lia|]. split; [lia | reflexivity].
  - destruct (p x) eqn:Px; simpl.
    + assert (U : Notification.userId x = userId).
      { unfold p in Px. apply andb_true_iff in Px. destruct Px as [_ Px].
        now apply Nat.eqb_eq in Px. }
      split; [|split; [discriminate|split; [|split; [|split]]]].
      * intros n H. inversion H; subst n. split; [now left|].
        exists x. repeat split; [now left | exact Px].
      * intros v Hv. rewrite (unreadOf_other x U Hv).
        assert (V : NotificationReads.unreadOf v x = false).
        { unfold NotificationReads.unreadOf. rewrite U.
          destruct (Nat.eqb userId v) eqn:X; [|reflexivity].
          apply Nat.eqb_eq in X. now elim Hv. }
        now rewrite V.
      * rewrite unreadOf_setRead.
        destruct (NotificationReads.unreadOf userId x); simpl; lia.
      * rewrite unreadOf_setRead.
        destruct (NotificationReads.unreadOf userId x); simpl; lia.
      * reflexivity.
    + destruct (findOneAndUpdate p NotificationReads.setRead l) as [r l'] eqn:F.
      simpl in *. destruct IH as [I1 [I2 [I3 [I4 [I5 I6]]]]].
      split; [|split; [|split; [|split; [|split]]]].
      * intros n H. destruct (I1 n H) as [Hin [old [Ho [Po Eo]]]].
        split; [now right|]. exists old. repeat split; [now right | exact Po | exact Eo].
      * intros H. destruct (I2 H) as [E A]. split; [now rewrite E|].
        intros n [Hn|Hn]; [now subst n | now apply A].
      * intros v Hv. rewrite (I3 v Hv). reflexivity.
      * destruct (NotificationReads.unreadOf userId x); simpl; lia.
      * destruct (NotificationReads.unreadOf userId x); simpl; lia.
      * now rewrite I6.
Qed.

(** [markAsRead] touches only a notification of the user who asks: it
    returns a notification exactly when one with the id belongs to the
    user, and the one returned has the id, the user and [isRead] set; for
    another user's notification it returns [null] and changes nothing.
    No other user's unread count changes, the caller's count drops by at
    most one, and the notifications keep their ids and order. *)
Theorem markAsRead_own_only (notificationId userId : ObjectId) (st : Store) :
  let result := NotificationReads.markAsRead notificationId userId st in
  (forall n, fst result = Some n ->
     Notification._id n = notificationId /\ Notification.userId n = userId /\
     Notification.isRead n = true /\ In n (notifications (snd result))) /\
  (fst result = None <->
   forall n, In n (notifications st) -> Notification._id n = notificationId ->
             Notification.userId n <> userId) /\
  (fst result = None -> snd result = st) /\
  (forall v, v <> userId ->
     NotificationReads.getUnreadCount v (snd result)
     = NotificationReads.getUnreadCount v st) /\
  NotificationReads.getUnreadCount userId (snd result)
    <= NotificationReads.getUnreadCount userId st /\
  NotificationReads.getUnreadCount userId st
    <= S (NotificationReads.getUnreadCount userId (snd result)) /\
  List.map Notification._id (notifications (snd result))
  = List.map Notification._id (notifications st).
Proof.
  intros result. subst result.
  unfold NotificationReads.markAsRead, NotificationReads.getUnreadCount, find.
  pose proof (findOneAndUpdate_setRead notificationId userId (notifications st)) as H.
  cbv zeta in H.
  destruct (findOneAndUpdate _ NotificationReads.setRead (notifications st)) as [r l'] eqn:F.
  simpl in *. destruct H as [H1 [H2 [H3 [H4 [H5 H6]]]]].
  split; [|split; [|split; [|split; [|split; [|split]]]]].
  - intros n Hn. destruct (H1 n Hn) as [Hin [old [_ [Po Eo]]]].
    apply andb_true_iff in Po. destruct Po as [Pi Pu].
    apply Nat.eqb_eq in Pi. apply Nat.eqb_eq in Pu. subst n. simpl.
    repeat split; assumption.
  - split.
    + intros Hr n Hin Hid Hu. destruct (H2 Hr) as [_ A].
      specialize (A n Hin). rewrite Hid, Hu, !Nat.eqb_refl in A. discriminate.
    + intros A. destruct r as [n|]; [|reflexivity].
      destruct (H1 n eq_refl) as [_ [old [Ho [Po _]]]].
      apply andb_true_iff in Po. destruct Po as [Pi Pu].
      apply Nat.eqb_eq in Pi. apply Nat.eqb_eq in Pu.
      elim (A old Ho Pi Pu).
  - intros Hr. destruct (H2 Hr) as [E _]. rewrite E. now destruct st.
  - intros v Hv. now rewrite (H3 v Hv).
  - exact H4.
  - exact H5.
  - exact H6.
Qed.

Lemma freshId_fresh {Doc : Type} (docId : Doc -> ObjectId) (c : list Doc) (d : Doc) :
  In d c -> docId d < freshId docId c.
Proof.
  unfold freshId. induction c as [|x c IH]; simpl; [tauto|].
  intros [H|H]; [subst x; lia | specialize (IH H); lia].
Qed.

Lemma findOneAndUpdate_app_new {Doc : Type} (p : Doc -> bool) (f : Doc -> Doc)
  (c : list Doc) (x : Doc) :
  (forall d, In d c -> p d = false) ->
  findOneAndUpdate p f (c ++ [x])
  = if p x then (Some (f x), c ++ [f x]) else (None, c ++ [x]).
Proof.
  induction c as [|y c IH]; simpl; intros A.
  - now destruct (p x).
  - rewrite (A y (or_introl eq_refl)), IH by (intros d Hd; apply A; now right).
    now destruct (p x).
Qed.

(** An empty message or a type outside the schema's list makes
    [createNotification] return [null], and whenever it returns [null]
    nothing is stored.  A created notification is appended under an id no
    stored notification has, is unread and raises the unread count of its
    user alone by one; another user cannot mark it as read, and once its
    owner marks it the unread count is what it was before. *)
Theorem createNotification_round_trip (userId : ObjectId) (message type : string)
  (related : option (string * ObjectId)) (st : Store) :
  let result := NotificationService.createNotification userId message type related st in
  (message = "" \/ ~ In type Notification.types -> fst result = None) /\
  (fst result = None -> snd result = st) /\
  (forall n, fst result = Some n ->
     Notification.userId n = userId /\
     Notification.type n = type /\ Notification.isRead n = false /\
     notifications (snd result) = notifications st ++ [n] /\
     (forall m, In m (notifications st) -> Notification._id m <> Notification._id n) /\
     NotificationReads.getUnreadCount userId (snd result)
     = S (NotificationReads.getUnreadCount userId st) /\
     (forall v, v <> userId ->
        NotificationReads.getUnreadCount v (snd result)
        = NotificationReads.getUnreadCount v st /\
        NotificationReads.markAsRead (Notification._id n) v (snd result)
        = (None, snd result)) /\
     fst (NotificationReads.markAsRead (Notification._id n) userId (snd result))
     = Some (NotificationReads.setRead n) /\
     NotificationReads.getUnreadCount userId
       (snd (NotificationReads.markAsRead (Notification._id n) userId (snd result)))
     = NotificationReads.getUnreadCount userId st).
Proof.
  intros result. subst result. unfold NotificationService.createNotification.
  assert (T : existsb (String.eqb type) Notification.types = true
              <-> In type Notification.types).
  { rewrite existsb_exists. split.
    - intros [x [Hx E]]. apply String.eqb_eq in E. now subst x.
    - intros H. exists type. split; [exact H | apply String.eqb_refl]. }
  cbv zeta.
  match goal with
  | |- context [if ?g then _ else _] => destruct g eqn:Guard
  end.
  { cbn [fst snd]. split; [reflexivity|]. split; [reflexivity|].
    intros n X. discriminate X. }
  apply orb_false_iff in Guard. destruct Guard as [Guard _].
  apply orb_false_iff in Guard. destruct Guard as [Guard Et].
  apply orb_false_iff in Guard. destruct Guard as [Em _].
  apply negb_false_iff in Et.
  cbn [fst snd].
  split; [|split; [discriminate|]].
  { intros [H|H]; [subst message; discriminate Em | elim H; now apply T]. }
  intros n Hn. inversion Hn; subst n; clear Hn. simpl.
  set (n := Notification.mk _ userId (trim message) type false related).
  assert (Fr : forall m, In m (notifications st) -> Notification._id m <> Notification._id n).
  { intros m Hm E. apply (freshId_fresh Notification._id) in Hm.
    rewrite E in Hm. simpl in Hm. lia. }
  assert (Cn : forall v, List.length (find (NotificationReads.unreadOf v)
                                        (notifications st ++ [n]))
                 = (if Nat.eqb userId v then 1 else 0)
                   + List.length (find (NotificationReads.unreadOf v) (notifications st))).
  { intros v. unfold find. rewrite filter_app, length_app. simpl.
    unfold NotificationReads.unreadOf at 2. simpl.
    destruct (Nat.eqb userId v); simpl; lia. }
  assert (No : forall v d, In d (notifications st) ->
                 Nat.eqb (Notification._id d) (Notification._id n)
                 && Nat.eqb (Notification.userId d) v = false).
  { intros v d Hd. destruct (Nat.eqb (Notification._id d) (Notification._id n)) eqn:E;
      [|reflexivity]. apply Nat.eqb_eq in E. elim (Fr d Hd E). }
  unfold NotificationReads.getUnreadCount, NotificationReads.markAsRead.
  destruct st as [us ts ss fs rs sa ps ls ns]. simpl in *.
  repeat split; try assumption.
  - rewrite Cn, Nat.eqb_refl. reflexivity.
  - rewrite Cn. destruct (Nat.eqb userId v) eqn:E; [|reflexivity].
    apply Nat.eqb_eq in E. now elim H.
  - rewrite findOneAndUpdate_app_new by (intros d Hd; now apply No).
    simpl. rewrite Nat.eqb_refl. simpl.
    destruct (Nat.eqb userId v) eqn:E; [|reflexivity].
    apply Nat.eqb_eq in E. now elim H.
  - rewrite findOneAndUpdate_app_new by (intros d Hd; now apply No).
    simpl. now rewrite !Nat.eqb_refl.
  - rewrite findOneAndUpdate_app_new by (intros d Hd; now apply No).
    simpl. rewrite !Nat.eqb_refl. simpl.
    unfold find. rewrite filter_app. simpl. rewrite unreadOf_setRead.
    now rewrite app_nil_r.
Qed.

(** ** Performance counters *)

Lemma getOrCreatePerformance_Forall (P : Performance.t -> Prop)
  employeeId month year department st p st1 :
  (forall id, P (Performance.mk id employeeId 0 0 0 0 month year department
                   (Performance.mkBreakdown 0 0))) ->
  PerformanceService.getOrCreatePerformance employeeId month year department st
    = Some (p, st1) ->
  Forall P (performances st) ->
  Forall P (performances st1) /\ P p.
Proof.
  unfold PerformanceService.getOrCreatePerformance. intros N H C.
  destruct (findOne _ (performances st)) as [q|] eqn:F.
  - inversion H; subst. split; [exact C|].
    apply find_some in F. destruct F as [Hin _].
    eapply Forall_forall; eassumption.
  - destruct (_ || _); [discriminate|]. inversion H; subst. simpl.
    split; [|apply N].
    apply Forall_app. split; [exact C|]. constructor; [apply N | constructor].
Qed.

Lemma scoreFromCounters_fresh id employeeId month year department :
  scoreFromCounters (Performance.mk id employeeId 0 0 0 0 month year department
                       (Performance.mkBreakdown 0 0)).
Proof. unfold scoreFromCounters. simpl. repeat split; lia. Qed.

Lemma handle_scoreFromCounters (e : Event) (st : Store) :
  Forall scoreFromCounters (performances st) ->
  Forall scoreFromCounters (performances (handle e st)).
Proof.
  intros C. destruct e as [employeeId taskId now | employeeId loginTime | employeeId now];
    simpl.
  - unfold PerformanceService.onTaskCompleted.
    destruct (findById _ _ _) as [u|]; [|exact C].
    destruct (User.department u) as [d|]; [|exact C].
    destruct (PerformanceService.getOrCreatePerformance _ _ _ _ _) as [[p st1]|] eqn:G;
      [|exact C].
    destruct (@getOrCreatePerformance_Forall scoreFromCounters _ _ _ _ _ _ _
                (fun id => scoreFromCounters_fresh id _ _ _ _) G C) as [C1 Cp].
    simpl. apply save_Forall; [exact C1|].
    unfold scoreFromCounters, PerformanceService.TASK_COMPLETED,
      PerformanceService.LATE_LOGIN in *. cbn -[Z.mul Z.add Z.sub]. lia.
  - unfold PerformanceService.onLateLogin.
    destruct (negb _); [exact C|].
    destruct (findById _ _ _) as [u|]; [|exact C].
    destruct (User.department u) as [d|]; [|exact C].
    destruct (PerformanceService.getOrCreatePerformance _ _ _ _ _) as [[p st1]|] eqn:G;
      [|exact C].
    destruct (@getOrCreatePerformance_Forall scoreFromCounters _ _ _ _ _ _ _
                (fun id => scoreFromCounters_fresh id _ _ _ _) G C) as [C1 Cp].
    simpl. apply save_Forall; [exact C1|].
    unfold scoreFromCounters, PerformanceService.TASK_COMPLETED,
      PerformanceService.LATE_LOGIN in *. cbn -[Z.mul Z.add Z.sub]. lia.
  - unfold PerformanceService.onLeaveApproved.
    destruct (findById _ _ _) as [u|]; [|exact C].
    destruct (User.department u) as [d|]; [|exact C].
    destruct (PerformanceService.getOrCreatePerformance _ _ _ _ _) as [[p st1]|] eqn:G;
      [|exact C].
    destruct (@getOrCreatePerformance_Forall scoreFromCounters _ _ _ _ _ _ _
                (fun id => scoreFromCounters_fresh id _ _ _ _) G C) as [C1 Cp].
    simpl. apply save_Forall; [exact C1|].
    unfold scoreFromCounters, PerformanceService.TASK_COMPLETED,
      PerformanceService.LATE_LOGIN in *. cbn -[Z.mul Z.add Z.sub]. lia.
Qed.

(** The score is a function of the counters: when every stored record has
    10 points a completed task, -5 a late login and their sum as total
    (a store without records is such a one), the same holds after any
    sequence of [onTaskCompleted], [onLateLogin] and [onLeaveApproved]
    calls; approved leaves never enter the score, and the total never
    exceeds ten times the tasks completed. *)
Theorem score_follows_counters (events : list Event) (st : Store) :
  Forall scoreFromCounters (performances st) ->
  Forall scoreFromCounters (performances (replay events st)) /\
  forall p, In p (performances (replay events st)) ->
    Performance.totalScore p
      = (10 * Performance.tasksCompleted p - 5 * Performance.lateLogins p)%Z /\
    (Performance.totalScore p <= 10 * Performance.tasksCompleted p)%Z.
Proof.
  intros C.
  assert (A : Forall scoreFromCounters (performances (replay events st))).
  { revert st C. induction events as [|e l IH]; intros st C; simpl; [exact C|].
    apply IH. now apply handle_scoreFromCounters. }
  split; [exact A|]. intros p Hp.
  rewrite Forall_forall in A. specialize (A p Hp).
  unfold scoreFromCounters in A. lia.
Qed.

Lemma score_follows_counters_witness :
  Forall scoreFromCounters (performances staff) /\
  Forall scoreFromCounters
    (performances (replay [TaskCompleted 4 10 noon; LateLogin 4 quarterToTen;
                           LeaveApproved 4 noon] staff)).
Proof.
  split; [constructor|].
  apply (proj1 (@score_follows_counters
           [TaskCompleted 4 10 noon; LateLogin 4 quarterToTen; LeaveApproved 4 noon]
           staff (Forall_nil _))).
Defined.

Lemma save_ids {Doc : Type} (docId : Doc -> ObjectId) (d : Doc) (c : list Doc) :
  List.map docId (save docId d c) = List.map docId c.
Proof.
  unfold save. rewrite map_map. apply map_ext. intros x.
  destruct (Nat.eqb (docId x) (docId d)) eqn:E; [|reflexivity].
  apply Nat.eqb_eq in E. now rewrite E.
Qed.

Lemma save_keys (p p' : Performance.t) (c : list Performance.t) :
  NoDup (List.map Performance._id c) -> In p c ->
  Performance._id p' = Performance._id p -> bucketKey p' = bucketKey p ->
  List.map bucketKey (save Performance._id p' c) = List.map bucketKey c.
Proof.
  intros N Hp I K. unfold save. rewrite map_map. apply map_ext_in. intros x Hx.
  destruct (Nat.eqb (Performance._id x) (Performance._id p')) eqn:E; [|reflexivity].
  apply Nat.eqb_eq in E.
  assert (x = p) by (apply (NoDup_map_eq Performance._id c); congruence).
  now subst x.
Qed.

Lemma sameBucket_key employeeId month year p :
  PerformanceService.sameBucket employeeId month year p = true <->
  bucketKey p = (employeeId, month, year).
Proof.
  rewrite sameBucket_true. unfold bucketKey. split.
  - intros [A [B C]]. now rewrite A, B, C.
  - intros H. inversion H. now repeat split.
Qed.

Lemma getOrCreatePerformance_oneBucket employeeId month year department st p st1 :
  PerformanceService.getOrCreatePerformance employeeId month year department st
    = Some (p, st1) ->
  oneBucketPerKey (performances st) ->
  oneBucketPerKey (performances st1) /\ In p (performances st1) /\
  bucketKey p = (employeeId, month, year) /\
  exists extra, performances st1 = performances st ++ extra.
Proof.
  unfold PerformanceService.getOrCreatePerformance. intros H [Ni Nk].
  destruct (findOne _ (performances st)) as [q|] eqn:F.
  - inversion H; subst. apply find_some in F. destruct F as [Hin K].
    apply sameBucket_key in K.
    repeat split; try assumption. exists []. now rewrite app_nil_r.
  - destruct (_ || _); [discriminate|]. inversion H; subst. simpl.
    split; [split|split; [|split]].
    + rewrite map_app. simpl. apply NoDup_app; [exact Ni | repeat constructor; now simpl |].
      intros i Hi [E|[]]. apply in_map_iff in Hi. destruct Hi as [d [Ed Hd]].
      apply (freshId_fresh Performance._id) in Hd. lia.
    + rewrite map_app. simpl. apply NoDup_app; [exact Nk | repeat constructor; now simpl |].
      intros k Hk [E|[]]. apply in_map_iff in Hk. destruct Hk as [d [Ed Hd]].
      unfold findOne in F. apply (find_none _ _ F) in Hd.
      assert (X : PerformanceService.sameBucket employeeId month year d = true)
        by (apply sameBucket_key; now rewrite Ed, <- E).
      congruence.
    + apply in_or_app. right. now left.
    + reflexivity.
    + now eexists.
Qed.

Lemma handle_oneBucket (e : Event) (st : Store) :
  oneBucketPerKey (performances st) ->
  oneBucketPerKey (performances (handle e st)) /\
  exists extra,
    List.map Performance._id (performances (handle e st))
    = List.map Performance._id (performances st) ++ extra.
Proof.
  intros C.
  assert (Same : oneBucketPerKey (performances st) /\
                 exists extra, List.map Performance._id (performances st)
                               = List.map Performance._id (performances st) ++ extra)
    by (split; [exact C | exists []; now rewrite app_nil_r]).
  destruct e as [employeeId taskId now | employeeId loginTime | employeeId now]; simpl.
  - unfold PerformanceService.onTaskCompleted.
    destruct (findById _ _ _) as [u|]; [|exact Same].
    destruct (User.department u) as [d|]; [|exact Same].
    destruct (PerformanceService.getOrCreatePerformance _ _ _ _ _) as [[p st1]|] eqn:G;
      [|exact Same].
    destruct (getOrCreatePerformance_oneBucket _ _ _ _ _ G C) as [[Ni Nk] [Hp [_ [x Ex]]]].
    simpl. rewrite save_ids. split; [split|].
    + now rewrite save_ids.
    + erewrite save_keys; [exact Nk | exact Ni | exact Hp | reflexivity | reflexivity].
    + exists (List.map Performance._id x). now rewrite Ex, map_app.
  - unfold PerformanceService.onLateLogin.
    destruct (negb _); [exact Same|].
    destruct (findById _ _ _) as [u|]; [|exact Same].
    destruct (User.department u) as [d|]; [|exact Same].
    destruct (PerformanceService.getOrCreatePerformance _ _ _ _ _) as [[p st1]|] eqn:G;
      [|exact Same].
    destruct (getOrCreatePerformance_oneBucket _ _ _ _ _ G C) as [[Ni Nk] [Hp [_ [x Ex]]]].
    simpl. rewrite save_ids. split; [split|].
    + now rewrite save_ids.
    + erewrite save_keys; [exact Nk | exact Ni | exact Hp | reflexivity | reflexivity].
    + exists (List.map Performance._id x). now rewrite Ex, map_app.
  - unfold PerformanceService.onLeaveApproved.
    destruct (findById _ _ _) as [u|]; [|exact Same].
    destruct (User.department u) as [d|]; [|exact Same].
    destruct (PerformanceService.getOrCreatePerformance _ _ _ _ _) as [[p st1]|] eqn:G;
      [|exact Same].
    destruct (getOrCreatePerformance_oneBucket _ _ _ _ _ G C) as [[Ni Nk] [Hp [_ [x Ex]]]].
    simpl. rewrite save_ids. split; [split|].
    + now rewrite save_ids.
    + erewrite save_keys; [exact Nk | exact Ni | exact Hp | reflexivity | reflexivity].
    + exists (List.map Performance._id x). now rewrite Ex, map_app.
Qed.

(** The service keeps one record per employee, month and year: from a
    collection with distinct ids and distinct (employee, month, year)
    keys, any sequence of [onTaskCompleted], [onLateLogin] and
    [onLeaveApproved] calls leaves ids and keys distinct, so the unique
    index of the schema is never violated; no record is removed, new ones
    are appended after the old. *)
Theorem replay_keeps_one_bucket (events : list Event) (st : Store) :
  oneBucketPerKey (performances st) ->
  oneBucketPerKey (performances (replay events st)) /\
  exists extra,
    List.map Performance._id (performances (replay events st))
    = List.map Performance._id (performances st) ++ extra.
Proof.
  revert st. induction events as [|e l IH]; intros st C; simpl.
  - split; [exact C | exists []; now rewrite app_nil_r].
  - destruct (@handle_oneBucket e st C) as [C1 [x1 E1]].
    destruct (IH _ C1) as [C2 [x2 E2]].
    split; [exact C2|]. exists (x1 ++ x2). now rewrite E2, E1, app_assoc.
Qed.

Lemma replay_keeps_one_bucket_witness :
  oneBucketPerKey (performances januaryStart) /\
  oneBucketPerKey
    (performances (replay [TaskCompleted 4 10 noon; LateLogin 4 quarterToTen] januaryStart)).
Proof.
  assert (C : oneBucketPerKey (performances januaryStart)).
  { split; simpl; repeat constructor; simpl; tauto. }
  split; [exact C|].
  apply (proj1 (@replay_keeps_one_bucket
                  [TaskCompleted 4 10 noon; LateLogin 4 quarterToTen] januaryStart C)).
Defined.

Lemma savePerformance_frame (p : Performance.t) (st : Store) :
  (forall q, In q (performances st) -> Performance._id q <> Performance._id p ->
             In q (performances (PerformanceService.savePerformance p st))) /\
  List.map Performance._id (performances (PerformanceService.savePerformance p st))
  = List.map Performance._id (performances st).
Proof.
  unfold PerformanceService.savePerformance. destruct st; simpl. split.
  - intros q Hq Hn. now apply save_other.
  - apply save_ids.
Qed.

Lemma month_in_range (d : Date) :
  (getMonth d + 1 <? 1)%Z || (12 <? getMonth d + 1)%Z = false.
Proof.
  unfold getMonth. pose proof (Z.mod_pos_bound (monthIndex d) 12).
  apply orb_false_iff. split; apply Z.ltb_ge; lia.
Qed.

(** A completed task is worth ten points: for an employee who is found
    and has a department, [onTaskCompleted] adds 1 to [tasksCompleted] and
    10 to [taskPoints] of the bucket of the current month and year
    (created at zero when missing), recomputes the total, and leaves the
    late logins, the leaves, the users and every other bucket alone.  For
    an unknown employee or one without a department it returns [null] and
    changes nothing. *)
Theorem onTaskCompleted_awards_ten
  (employeeId taskId : ObjectId) (now : Date) (st : Store) :
  let month := (getMonth now + 1)%Z in
  let year := getFullYear now in
  let before := bucket employeeId month year st in
  let result := PerformanceService.onTaskCompleted employeeId taskId now st in
  (forall user department,
     findById User._id employeeId (users st) = Some user ->
     User.department user = Some department ->
     exists p,
       fst result = Some p /\
       bucket employeeId month year (snd result) = Some p /\
       Performance.employeeId p = employeeId /\
       Performance.month p = month /\ Performance.year p = year /\
       Performance.tasksCompleted p = (tasksCompletedOf before + 1)%Z /\
       Performance.taskPoints (Performance.scoreBreakdown p)
         = (taskPointsOf before + 10)%Z /\
       Performance.lateLoginPenalty (Performance.scoreBreakdown p)
         = lateLoginPenaltyOf before /\
       Performance.lateLogins p = lateLoginsOf before /\
       Performance.approvedLeaves p = approvedLeavesOf before /\
       Performance.totalScore p
         = (taskPointsOf before + 10 + lateLoginPenaltyOf before)%Z /\
       users (snd result) = users st /\
       (forall q, In q (performances (snd result)) -> q = p \/ In q (performances st)) /\
       (forall q, In q (performances st) -> Performance._id q <> Performance._id p ->
                  In q (performances (snd result))) /\
       List.map Performance._id (performances (snd result))
       = List.map Performance._id (performances st)
         ++ match before with
            | Some _ => []
            | None => [Performance._id p]
            end) /\
  (findById User._id employeeId (users st) = None -> result = (None, st)) /\
  (forall user, findById User._id employeeId (users st) = Some user ->
                User.department user = None -> result = (None, st)).
Proof.
  intros month year before result. subst result.
  unfold PerformanceService.onTaskCompleted.
  split; [|split].
  - intros user department Hfind Hdept. rewrite Hfind, Hdept.
    unfold PerformanceService.getOrCreatePerformance.
    fold month. fold year.
    change (findOne (PerformanceService.sameBucket employeeId month year) (performances st))
      with before.
    destruct before as [p0|] eqn:B.
    + pose proof B as K. apply find_some in K. destruct K as [_ K].
      apply sameBucket_true in K. destruct K as [K1 [K2 K3]].
      eexists. split; [reflexivity|]. cbn [fst snd].
      split.
      { unfold bucket, PerformanceService.savePerformance. simpl.
        apply findOne_save_same with (p := p0); [exact B | reflexivity |].
        apply sameBucket_true. simpl. now repeat split. }
      match goal with
      | |- context [PerformanceService.savePerformance ?rec ?s] =>
          pose proof (savePerformance_frame rec s) as [W1 W2]
      end.
      simpl. repeat split; try assumption; try reflexivity;
        first [ exact W1
              | rewrite app_nil_r; exact W2
              | intros q Hq; now apply save_In in Hq ].
    + subst month. rewrite month_in_range.
      eexists. split; [reflexivity|]. cbn [fst snd].
      split.
      { unfold bucket, PerformanceService.savePerformance. simpl.
        eapply findOne_save_same;
          [apply findOne_app_new; [exact B|] | reflexivity |];
          apply sameBucket_true; simpl; now repeat split. }
      match goal with
      | |- context [PerformanceService.savePerformance ?rec ?s] =>
          pose proof (savePerformance_frame rec s) as [W1 W2]
      end.
      cbn [performances setPerformances] in W1, W2. rewrite map_app in W2.
      simpl. repeat split; try reflexivity;
        first [ exact W2
              | intros q Hq Hn; apply W1; [apply in_or_app; now left | exact Hn]
              | intros q Hq; now apply save_In_new in Hq ].
  - intros H. now rewrite H.
  - intros user H D. now rewrite H, D.
Qed.

(** An approved leave costs nothing: for an employee who is found and has
    a department, [onLeaveApproved] adds 1 to [approvedLeaves] of the
    bucket of the current month and year (created at zero when missing)
    and leaves the total, the breakdown, the other counters, the users and
    every other bucket alone.  For an unknown employee or one without a
    department it returns [null] and changes nothing. *)
Theorem onLeaveApproved_costs_nothing
  (employeeId : ObjectId) (now : Date) (st : Store) :
  let month := (getMonth now + 1)%Z in
  let year := getFullYear now in
  let before := bucket employeeId month year st in
  let result := PerformanceService.onLeaveApproved employeeId now st in
  (forall user department,
     findById User._id employeeId (users st) = Some user ->
     User.department user = Some department ->
     exists p,
       fst result = Some p /\
       bucket employeeId month year (snd result) = Some p /\
       Performance.employeeId p = employeeId /\
       Performance.month p = month /\ Performance.year p = year /\
       Performance.approvedLeaves p = (approvedLeavesOf before + 1)%Z /\
       Performance.totalScore p = totalScoreOf before /\
       Performance.taskPoints (Performance.scoreBreakdown p) = taskPointsOf before /\
       Performance.lateLoginPenalty (Performance.scoreBreakdown p)
         = lateLoginPenaltyOf before /\
       Performance.tasksCompleted p = tasksCompletedOf before /\
       Performance.lateLogins p = lateLoginsOf before /\
       users (snd result) = users st /\
       (forall q, In q (performances (snd result)) -> q = p \/ In q (performances st)) /\
       (forall q, In q (performances st) -> Performance._id q <> Performance._id p ->
                  In q (performances (snd result))) /\
       List.map Performance._id (performances (snd result))
       = List.map Performance._id (performances st)
         ++ match before with
            | Some _ => []
            | None => [Performance._id p]
            end) /\
  (findById User._id employeeId (users st) = None -> result = (None, st)) /\
  (forall user, findById User._id employeeId (users st) = Some user ->
                User.department user = None -> result = (None, st)).
Proof.
  intros month year before result. subst result.
  unfold PerformanceService.onLeaveApproved.
  split; [|split].
  - intros user department Hfind Hdept. rewrite Hfind, Hdept.
    unfold PerformanceService.getOrCreatePerformance.
    fold month. fold year.
    change (findOne (PerformanceService.sameBucket employeeId month year) (performances st))
      with before.
    destruct before as [p0|] eqn:B.
    + pose proof B as K. apply find_some in K. destruct K as [_ K].
      apply sameBucket_true in K. destruct K as [K1 [K2 K3]].
      eexists. split; [reflexivity|]. cbn [fst snd].
      split.
      { unfold bucket, PerformanceService.savePerformance. simpl.
        apply findOne_save_same with (p := p0); [exact B | reflexivity |].
        apply sameBucket_true. simpl. now repeat split. }
      match goal with
      | |- context [PerformanceService.savePerformance ?rec ?s] =>
          pose proof (savePerformance_frame rec s) as [W1 W2]
      end.
      simpl. repeat split; try assumption; try reflexivity;
        first [ exact W1
              | rewrite app_nil_r; exact W2
              | intros q Hq; now apply save_In in Hq ].
    + subst month. rewrite month_in_range.
      eexists. split; [reflexivity|]. cbn [fst snd].
      split.
      { unfold bucket, PerformanceService.savePerformance. simpl.
        eapply findOne_save_same;
          [apply findOne_app_new; [exact B|] | reflexivity |];
          apply sameBucket_true; simpl; now repeat split. }
      match goal with
      | |- context [PerformanceService.savePerformance ?rec ?s] =>
          pose proof (savePerformance_frame rec s) as [W1 W2]
      end.
      cbn [performances setPerformances] in W1, W2. rewrite map_app in W2.
      simpl. repeat split; try reflexivity;
        first [ exact W2
              | intros q Hq Hn; apply W1; [apply in_or_app; now left | exact Hn]
              | intros q Hq; now apply save_In_new in Hq ].
  - intros H. now rewrite H.
  - intros user H D. now rewrite H, D.
Qed.

(** ** Role changes with audit *)

Lemma roleOfName_roleName (r : Role) :
  RoleChangeService.roleOfName (roleName r) = Some r.
Proof. now destruct r. Qed.

Lemma roleOfName_Some (s : string) (r : Role) :
  RoleChangeService.roleOfName s = Some r -> s = roleName r.
Proof.
  unfold RoleChangeService.roleOfName. intros H. apply find_some in H.
  destruct H as [_ H]. apply String.eqb_eq in H. now symmetry.
Qed.

Lemma createNotification_frame userId message type related st :
  let r := NotificationService.createNotification userId message type related st in
  users (snd r) = users st /\ roleChangeLogs (snd r) = roleChangeLogs st /\
  List.length (notifications (snd r)) <= S (List.length (notifications st)).
Proof.
  unfold NotificationService.createNotification.
  destruct (_ || _ || _); simpl; repeat split; try lia.
  rewrite length_app. simpl. lia.
Qed.

Lemma logRoleChange_users p now st :
  users (snd (RoleChangeService.logRoleChange p now st)) = users st.
Proof.
  unfold RoleChangeService.logRoleChange.
  destruct (String.eqb _ _); [reflexivity|].
  destruct (RoleChangeService.createLog p now (roleChangeLogs st)) as [[e logs]|];
    [|reflexivity].
  unfold NotificationService.notifyRoleChanged.
  match goal with
  | |- context [NotificationService.createNotification ?a ?b ?c ?d ?s] =>
      pose proof (createNotification_frame a b c d s) as F;
      destruct (NotificationService.createNotification a b c d s) as [x s']
  end.
  simpl in *. now destruct F as [F _].
Qed.

Lemma trimStart_length (s : string) : String.length (trimStart s) <= String.length s.
Proof.
  induction s as [|c s IH]; simpl; [lia|].
  destruct (isWhiteSpace c); simpl; lia.
Qed.

Lemma trimEnd_length (s : string) : String.length (trimEnd s) <= String.length s.
Proof.
  induction s as [|c s IH]; simpl; [lia|].
  destruct (trimEnd s); [destruct (isWhiteSpace c)|]; simpl in *; lia.
Qed.

(** Trimming never makes a string longer. *)
Lemma trim_length (s : string) : String.length (trim s) <= String.length s.
Proof.
  unfold trim. pose proof (trimEnd_length (trimStart s)).
  pose proof (trimStart_length s). lia.
Qed.

Lemma logRoleChange_entry p now st o n :
  RoleChangeService.oldRole p <> RoleChangeService.newRole p ->
  RoleChangeService.roleOfName (RoleChangeService.oldRole p) = Some o ->
  RoleChangeService.roleOfName (RoleChangeService.newRole p) = Some n ->
  String.length (orElse (RoleChangeService.reason p) "") <= 500 ->
  exists entry,
    fst (RoleChangeService.logRoleChange p now st) = Some entry /\
    roleChangeLogs (snd (RoleChangeService.logRoleChange p now st))
      = roleChangeLogs st ++ [entry] /\
    RoleChangeLog.changedUserId entry = RoleChangeService.changedUserId p /\
    RoleChangeLog.oldRole entry = o /\ RoleChangeLog.newRole entry = n /\
    RoleChangeLog.changedBy entry = RoleChangeService.changedBy p /\
    RoleChangeLog.changedAt entry = now /\
    RoleChangeLog.userSnapshot entry = RoleChangeService.userSnapshot p /\
    List.length (notifications (snd (RoleChangeService.logRoleChange p now st)))
      <= S (List.length (notifications st)).
Proof.
  intros Hne Ho Hn Hr. unfold RoleChangeService.logRoleChange.
  apply String.eqb_neq in Hne. rewrite Hne.
  unfold RoleChangeService.createLog. rewrite Ho, Hn.
  cbv zeta.
  assert (Ht : Nat.ltb 500 (String.length (trim (orElse (RoleChangeService.reason p) "")))
               = false).
  { apply Nat.ltb_ge. pose proof (trim_length (orElse (RoleChangeService.reason p) "")).
    lia. }
  rewrite Ht.
  unfold NotificationService.notifyRoleChanged.
  match goal with
  | |- context [NotificationService.createNotification ?a ?b ?c ?d ?s] =>
      pose proof (createNotification_frame a b c d s) as F;
      destruct (NotificationService.createNotification a b c d s) as [x s']
  end.
  simpl in *. destruct F as [_ [F1 F2]].
  eexists. split; [reflexivity|]. rewrite F1. repeat split. exact F2.
Qed.

Lemma changeUserRole_inv actor targetId req now st c data st' :
  UserManagementController.changeUserRole actor targetId req now st
    = (Success c data, st') ->
  exists target nr r d audit,
    findById User._id targetId (users st) = Some target /\
    UserManagementController.newRole (UserManagementController.body req) = Some nr /\
    RoleChangeService.roleOfName nr = Some r /\
    UserManagementController.resolveDepartment nr target
      (UserManagementController.body req) = inr (Some d) /\
    roleName (User.role target) <> nr /\
    (level (User.role target) < level (User.role actor))%Z /\
    (level r < level (User.role actor))%Z /\
    c = 200 /\
    data = UserManagementController.mkRoleChanged (User._id target) (User.name target)
             (User.email target) (roleName (User.role target)) nr d /\
    st' = snd (RoleChangeService.logRoleChange
                 (RoleChangeService.mkParams targetId (roleName (User.role target)) nr
                    (User._id actor) (Some (User.name actor))
                    (Some (orElse (UserManagementController.reason
                                     (UserManagementController.body req)) ""))
                    (Some (RoleChangeLog.mkSnapshot (User.name target)
                             (User.email target) (User.department target)))
                    (Some audit))
                 now
                 (setUsers (save User._id
                              (User.mk (User._id target) (User.name target)
                                 (User.email target) r d) (users st)) st)).
Proof.
  unfold UserManagementController.changeUserRole. intros H.
  destruct (negb (String.eqb (roleName (User.role actor)) "founder")
            && negb (String.eqb (roleName (User.role actor)) "co-founder")); [discriminate|].
  destruct (UserManagementController.newRole (UserManagementController.body req))
    as [nr|] eqn:Enr; [|discriminate].
  destruct (negb (UserManagementController.truthy (Some nr))
            || negb (existsb (String.eqb (orElse (Some nr) ""))
                       UserManagementController.validRoles)) eqn:V; [discriminate|].
  apply orb_false_iff in V. destruct V as [_ V]. apply negb_false_iff in V.
  simpl orElse in V. destruct (validRoles_roleName _ V) as [r Hr]. subst nr.
  destruct (findById User._id targetId (users st)) as [target|]; [|discriminate].
  simpl orElse in H.
  rewrite !getRoleLevel_roleName in H. cbn [level_le level_ge] in H.
  destruct (level (User.role actor) <=? level (User.role target))%Z eqn:E1;
    [discriminate|].
  destruct (level r >=? level (User.role actor))%Z eqn:E2; [discriminate|].
  destruct (String.eqb (roleName (User.role target)) (roleName r)) eqn:E3;
    [discriminate|].
  destruct (UserManagementController.resolveDepartment (roleName r) target
              (UserManagementController.body req)) as [m|nd] eqn:R; [discriminate|].
  rewrite roleOfName_roleName in H.
  destruct nd as [d|]; [|discriminate].
  cbn [User._id User.name User.email User.department] in H.
  match type of H with
  | (let '(_, _) := ?x in _) = _ => destruct x as [e st2] eqn:L
  end.
  inversion H; subst c data st'; clear H.
  apply Z.leb_gt in E1. rewrite Z.geb_leb in E2. apply Z.leb_gt in E2.
  apply String.eqb_neq in E3.
  exists target, (roleName r), r, d. eexists.
  repeat split; try assumption; try reflexivity.
  - apply roleOfName_roleName.
  - now rewrite L.
Qed.

Lemma resolveDepartment_fits nr target b r d :
  RoleChangeService.roleOfName nr = Some r ->
  UserManagementController.resolveDepartment nr target b = inr (Some d) ->
  departmentFits r d.
Proof.
  intros Rn R. apply roleOfName_Some in Rn. subst nr.
  unfold UserManagementController.resolveDepartment in R.
  destruct r; simpl in R; unfold departmentFits, boundDepartment; simpl;
    try (inversion R; reflexivity);
    try (destruct (UserManagementController.truthy _ && _); inversion R; reflexivity).
  destruct (User.department target) as [t|];
    destruct (UserManagementController.truthy (UserManagementController.department b));
    try discriminate R;
    try (destruct (UserManagementController.departmentOfName _); [|discriminate R]);
    inversion R; discriminate.
Qed.

(** After a successful [changeUserRole] the target is stored with the new
    role, which differs from the old one and lies below the actor's, and
    with the department that goes with it: none for founder and
    co-founder, the bound department for a head, some department for an
    employee.  Name, email and id stay, no user is added or removed, every
    other user is kept, and the response reports the old role, the new
    role and the stored department.  A refusal leaves the store as it
    was. *)
Theorem changeUserRole_department_follows_role
  (actor : User.t) (targetId : ObjectId) (req : UserManagementController.Request)
  (now : Date) (st : Store) :
  let result := UserManagementController.changeUserRole actor targetId req now st in
  (forall c data, fst result = Success c data ->
     exists target r d,
       findById User._id targetId (users st) = Some target /\
       findById User._id targetId (users (snd result))
         = Some (User.mk targetId (User.name target) (User.email target) r d) /\
       r <> User.role target /\
       (level r < level (User.role actor))%Z /\
       (level (User.role target) < level (User.role actor))%Z /\
       departmentFits r d /\
       c = 200 /\
       UserManagementController.oldRole data = roleName (User.role target) /\
       UserManagementController.newRole' data = roleName r /\
       UserManagementController.department' data = d /\
       List.length (users (snd result)) = List.length (users st) /\
       (forall u, In u (users st) -> User._id u <> targetId ->
                  In u (users (snd result)))) /\
  (succeeded (fst result) = false -> snd result = st).
Proof.
  intros result. subst result.
  destruct (UserManagementController.changeUserRole actor targetId req now st)
    as [resp st'] eqn:E. simpl. split.
  - intros c data Hr. subst resp.
    destruct (changeUserRole_inv _ _ _ _ _ E)
      as [target [nr [r [d [audit [F [Nr [Rn [R [Ne [L1 [L2 [Hc [Hd Hs]]]]]]]]]]]]]].
    destruct (findById_Some _ _ _ F) as [_ I].
    exists target, r, d. subst st'. rewrite logRoleChange_users. simpl.
    split; [exact F|]. split.
    { rewrite <- I at 2.
      apply findById_save with (x := target); [exact F | exact I]. }
    split.
    { intros X. subst r. apply Ne. symmetry. now apply roleOfName_Some. }
    split; [exact L2|]. split; [exact L1|].
    split; [eapply resolveDepartment_fits; eassumption|].
    split; [exact Hc|]. subst data. simpl.
    split; [reflexivity|]. split; [now apply roleOfName_Some|].
    split; [reflexivity|]. split; [apply save_length|].
    intros u Hu Hn. apply save_other; [exact Hu|]. simpl. congruence.
  - destruct resp as [c data|c m]; [discriminate|]. intros _.
    eapply changeUserRole_refusal_unchanged. exact E.
Qed.

(** A successful [changeUserRole] whose reason has at most 500 characters
    appends exactly one entry to the audit log: it names the target, the
    role the target had, the role now stored, the actor, the time of the
    call and the target's name, email and department as they were before
    the change; at most one notification is added.  A refusal writes
    neither an entry nor a notification. *)
Theorem changeUserRole_audit_entry
  (actor : User.t) (targetId : ObjectId) (req : UserManagementController.Request)
  (now : Date) (st : Store) :
  let result := UserManagementController.changeUserRole actor targetId req now st in
  (forall c data, fst result = Success c data ->
     String.length (orElse (UserManagementController.reason
                              (UserManagementController.body req)) "") <= 500 ->
     exists target entry,
       findById User._id targetId (users st) = Some target /\
       roleChangeLogs (snd result) = roleChangeLogs st ++ [entry] /\
       RoleChangeLog.changedUserId entry = targetId /\
       RoleChangeLog.oldRole entry = User.role target /\
       roleName (RoleChangeLog.newRole entry) = UserManagementController.newRole' data /\
       option_map User.role (findById User._id targetId (users (snd result)))
         = Some (RoleChangeLog.newRole entry) /\
       RoleChangeLog.changedBy entry = User._id actor /\
       RoleChangeLog.changedAt entry = now /\
       RoleChangeLog.userSnapshot entry
         = Some (RoleChangeLog.mkSnapshot (User.name target) (User.email target)
                   (User.department target)) /\
       List.length (notifications (snd result)) <= S (List.length (notifications st))) /\
  (succeeded (fst result) = false ->
   roleChangeLogs (snd result) = roleChangeLogs st /\
   notifications (snd result) = notifications st).
Proof.
  intros result. subst result.
  destruct (UserManagementController.changeUserRole actor targetId req now st)
    as [resp st'] eqn:E. simpl. split.
  - intros c data Hr Hlen. subst resp.
    destruct (changeUserRole_inv _ _ _ _ _ E)
      as [target [nr [r [d [audit [F [Nr [Rn [R [Ne [L1 [L2 [Hc [Hd Hs]]]]]]]]]]]]]].
    destruct (findById_Some _ _ _ F) as [_ I].
    match type of Hs with
    | _ = snd (RoleChangeService.logRoleChange ?p _ ?s) =>
        destruct (@logRoleChange_entry p now s (User.role target) r)
          as [entry [_ [G1 [G2 [G3 [G4 [G5 [G6 [G7 G8]]]]]]]]];
          [exact Ne | apply roleOfName_roleName | exact Rn | exact Hlen |]
    end.
    rewrite <- Hs in G1, G8. simpl in *.
    exists target, entry. subst data. simpl.
    repeat split; try assumption.
    + rewrite G4. symmetry. now apply roleOfName_Some.
    + rewrite Hs, logRoleChange_users. simpl.
      rewrite findById_save with (x := target) (id := targetId); [|exact F|exact I].
      simpl. now rewrite G4.
  - destruct resp as [c data|c m]; [discriminate|]. intros _.
    rewrite (changeUserRole_refusal_unchanged _ _ _ _ _ E). now split.
Qed.

Lemma eligible_spec (actor u : User.t) :
  User.role actor = founder \/ User.role actor = co_founder ->
  EligibleUsers.matches
    (if String.eqb (roleName (User.role actor)) "founder"
     then Some (EligibleUsers.RoleNe "founder")
     else if String.eqb (roleName (User.role actor)) "co-founder"
     then Some (EligibleUsers.RoleIn
                  ["technical_head"; "sales_head"; "finance_head"; "employee"])
     else None) u = true
  <-> (level (User.role u) < level (User.role actor))%Z.
Proof.
  destruct u as [ui un ue ur ud].
  intros [R|R]; rewrite R; destruct ur; rewrite !level_values;
    cbn; split; intros H; try reflexivity; try discriminate H; try lia.
Qed.

(** The list of users eligible for a role change is exact: for a founder
    or a co-founder, [getEligibleUsers] returns the stored users whose
    level is strictly below the actor's, and a stored user is on the list
    exactly when some [changeUserRole] request of the actor on that user
    succeeds.  Any other actor is answered 403. *)
Theorem getEligibleUsers_lists_changeable (actor : User.t) (now : Date) (st : Store) :
  (User.role actor <> founder -> User.role actor <> co_founder ->
   statusCode (EligibleUsers.getEligibleUsers actor st) = 403) /\
  (User.role actor = founder \/ User.role actor = co_founder ->
   exists l,
     EligibleUsers.getEligibleUsers actor st = Success 200 l /\
     (forall u, In u l <->
                In u (users st) /\ (level (User.role u) < level (User.role actor))%Z) /\
     (forall u, findById User._id (User._id u) (users st) = Some u ->
        (In u l <->
         exists req,
           succeeded (fst (UserManagementController.changeUserRole
                             actor (User._id u) req now st)) = true))).
Proof.
  split.
  - intros N1 N2. unfold EligibleUsers.getEligibleUsers.
    destruct (User.role actor); try reflexivity; [now elim N1 | now elim N2].
  - intros R.
    exists (find (EligibleUsers.matches
                    (if String.eqb (roleName (User.role actor)) "founder"
                     then Some (EligibleUsers.RoleNe "founder")
                     else if String.eqb (roleName (User.role actor)) "co-founder"
                     then Some (EligibleUsers.RoleIn
                            ["technical_head"; "sales_head"; "finance_head";
                             "employee"])
                     else None)) (users st)).
    split.
    { unfold EligibleUsers.getEligibleUsers.
      destruct R as [R|R]; rewrite R; reflexivity. }
    assert (A : forall u,
               In u (find (EligibleUsers.matches
                             (if String.eqb (roleName (User.role actor)) "founder"
                              then Some (EligibleUsers.RoleNe "founder")
                              else if String.eqb (roleName (User.role actor)) "co-founder"
                              then Some (EligibleUsers.RoleIn
                                     ["technical_head"; "sales_head"; "finance_head";
                                      "employee"])
                              else None)) (users st))
               <-> In u (users st)
                   /\ (level (User.role u) < level (User.role actor))%Z).
    { intros u. rewrite find_spec, (eligible_spec actor u R). reflexivity. }
    split; [exact A|].
    intros u F.
    assert (B : In u (users st) /\ (level (User.role u) < level (User.role actor))%Z
                <-> exists req,
                      succeeded (fst (UserManagementController.changeUserRole
                                        actor (User._id u) req now st)) = true).
    { split.
      - intros [_ L].
        exists (if Role_eqb (User.role u) employee
                then UserManagementController.mkRequest
                       (UserManagementController.mkBody (Some "technical_head") None None)
                       None None
                else UserManagementController.mkRequest
                       (UserManagementController.mkBody (Some "employee") None
                          (Some "technical")) None None).
        unfold UserManagementController.changeUserRole. rewrite F.
        destruct actor as [ai an ae ar ad]. destruct u as [ui un ue ur ud].
        simpl in R, L.
        destruct R as [R|R]; subst ar; destruct ur; rewrite !level_values in L;
          try lia; destruct ud;
          cbn -[RoleChangeService.logRoleChange save];
          match goal with
          | |- context [RoleChangeService.logRoleChange ?p ?n ?s] =>
              destruct (RoleChangeService.logRoleChange p n s)
          end; reflexivity.
      - intros [req S].
        destruct (UserManagementController.changeUserRole actor (User._id u) req now st)
          as [resp st'] eqn:E.
        destruct resp as [c data|c m]; [|discriminate S].
        destruct (changeUserRole_success _ _ _ _ _ E) as [target [nr [r [Ft [_ [_ [L _]]]]]]].
        rewrite F in Ft. inversion Ft; subst target.
        split; [|exact L]. now destruct (findById_Some _ _ _ F). }
    rewrite <- B. apply A.
Qed.
